(** * pump.bot: the trading decision engine, embedded and verified

    A shallow embedding of the TypeScript sources
      - [src/strategies/momentum.ts], [volume.ts], [liquidity.ts],
        [strategy-manager.ts]  (the three policies and their manager),
      - [src/pumpswap/pumpswap.ts]  (price read and liquidity check),
      - [src/pumpswap-bot.ts]  (pool dedup, buy path, monitoring tick,
        allow-list file),
      - the setup verification script (required variables, summary).

    Conventions of the embedding:
      - a [bigint] is a [Z]; bigint division truncates ([Z.quot]) and throws
        on a zero divisor;
      - a JS [number] is an element of an abstract carrier [num] with the
        operations the sources use (class [JSNumber]); the only law assumed
        is that a number equal to 0 is falsy, so the generic theorems hold
        for IEEE doubles as well as for the exact rational instance
        [QNumber] used for concrete runs;
      - a [PublicKey] is identified with its base58 string;
      - [Set<string>] is a [gset string], [Map<string, V>] a [gmap string V];
      - a [throw] is the [Throw] constructor of [Exc]; [try]/[catch] is
        [try_catch];
      - answers of the outside world (RPC, HTTP, clock) are explicit
        arguments of the function that awaits them;
      - module [Bot] takes each run of the buy path and each monitoring
        tick as one step; module [Overlap] splits them at their awaits, so
        that runs and iterations overlap as they do in the event loop. *)

From Stdlib Require Import ZArith QArith Qabs Bool Lia Lqa.
From stdpp Require Import base option list gmap strings fin_maps.

Local Open Scope Z_scope.

(** ** JavaScript values *)

Module JS.

(** Exceptions: a computation returns or throws. *)
Inductive Exc (A : Type) : Type :=
| Ret (a : A)
| Throw (err : string).
Arguments Ret {A} a.
Arguments Throw {A} err.

Definition bind {A B} (c : Exc A) (k : A -> Exc B) : Exc B :=
  match c with
  | Ret a => k a
  | Throw e => Throw e
  end.

(** [try { c } catch (error) { h error }] *)
Definition try_catch {A} (c : Exc A) (h : string -> Exc A) : Exc A :=
  match c with
  | Ret a => Ret a
  | Throw e => h e
  end.

(** The operations on [number] that the sources use. *)
Class JSNumber (num : Type) := {
  of_Z : Z -> num;              (* integer literal, [Number(bigint)] *)
  lit : Q -> num;               (* decimal literal such as [1.5] *)
  nsub : num -> num -> num;     (* a - b *)
  nmul : num -> num -> num;     (* a * b *)
  ndiv : num -> num -> num;     (* a / b *)
  nneg : num -> num;            (* -a *)
  pow10 : Z -> num;             (* Math.pow(10, k) *)
  nltb : num -> num -> bool;    (* a < b *)
  nleb : num -> num -> bool;    (* a <= b *)
  ngtb : num -> num -> bool;    (* a > b *)
  ngeb : num -> num -> bool;    (* a >= b *)
  is_zero : num -> bool;        (* a === 0 *)
  truthy : num -> bool;         (* !!a : false for 0, -0 and NaN *)
  (* the one law used: a number that is [=== 0] is falsy *)
  is_zero_falsy : forall a, is_zero a = true -> truthy a = false
}.

(** Exact rational arithmetic: agrees with doubles wherever no rounding
    occurs. *)
#[export] Instance QNumber : JSNumber Q := {
  of_Z := inject_Z;
  lit := fun q => q;
  nsub := Qminus;
  nmul := Qmult;
  ndiv := Qdiv;
  nneg := Qopp;
  pow10 := fun k => Qpower (inject_Z 10) k;
  nltb := fun a b => negb (Qle_bool b a);
  nleb := fun a b => Qle_bool a b;
  ngtb := fun a b => negb (Qle_bool a b);
  ngeb := fun a b => Qle_bool b a;
  is_zero := fun a => Qeq_bool a 0;
  truthy := fun a => negb (Qeq_bool a 0);
  is_zero_falsy := fun a (Hz : Qeq_bool a 0 = true) => f_equal negb Hz
}.

(** [x || 0] on a possibly undefined number. *)
Definition or_zero {num} `{JSNumber num} (o : option num) : num :=
  match o with
  | Some v => if truthy v then v else of_Z 0
  | None => of_Z 0
  end.

(** [a / b] on bigints. *)
Definition bigint_div (a b : Z) : Exc Z :=
  if b =? 0 then Throw "RangeError: Division by zero" else Ret (Z.quot a b).

(** [l.slice(start)]: a negative [start] counts from the end. *)
Definition slice_from {A} (start : Z) (l : list A) : list A :=
  let n := Z.of_nat (length l) in
  let k := if start <? 0 then Z.max (n + start) 0 else Z.min start n in
  drop (Z.to_nat k) l.

(** [l[i]] for an index computed in [number] arithmetic. *)
Definition index {A} (l : list A) (i : Z) : option A :=
  if i <? 0 then None else l !! Z.to_nat i.

End JS.
Import JS.

(** ** [src/pumpswap/constants.ts] and [src/pumpswap/types.ts] *)

Inductive StrategyType := MOMENTUM | VOLUME | LIQUIDITY | CUSTOM.

#[export] Instance StrategyType_eq_dec : EqDecision StrategyType.
Proof. solve_decision. Defined.

Definition MAX_CONCURRENT_POSITIONS : Z := 5.

(** The fields of [PumpSwapPoolInfo] that the modelled code reads (the
    vault and LP-mint keys and the state byte are never read). *)
Record PumpSwapPoolInfo := {
  poolId : string;
  baseMint : string;
  quoteMint : string;
  baseDecimals : Z;
  quoteDecimals : Z;
  baseReserve : Z;
  quoteReserve : Z;
  lpSupply : Z;
  createdAt : Z
}.

Record Position (num : Type) := {
  mint : string;
  pos_poolId : string;
  entryPrice : num;
  amount : Z;
  buyValue : num;
  timestamp : Z;
  strategy : StrategyType
}.
Arguments mint {num} _.
Arguments pos_poolId {num} _.
Arguments entryPrice {num} _.
Arguments amount {num} _.
Arguments buyValue {num} _.
Arguments timestamp {num} _.
Arguments strategy {num} _.

(** The [TradingStrategy] interface; every method may throw. *)
Record TradingStrategy (num : Type) := {
  ts_type : StrategyType;
  ts_shouldBuy : PumpSwapPoolInfo -> Exc bool;
  ts_shouldSell : Position num -> num -> Exc bool;
  ts_calculatePositionSize : PumpSwapPoolInfo -> Exc Z
}.
Arguments ts_type {num} _.
Arguments ts_shouldBuy {num} _ _.
Arguments ts_shouldSell {num} _ _ _.
Arguments ts_calculatePositionSize {num} _ _.

(** [((a - b) / b) * 100] *)
Definition percent_change {num} `{JSNumber num} (a b : num) : num :=
  nmul (ndiv (nsub a b) b) (of_Z 100).

(** ** [src/strategies/momentum.ts] *)

Module Momentum.
Section Momentum.
Context {num : Type} `{JSNumber num}.

Record Config := {
  momentumThreshold : num;
  lookbackPeriod : Z;
  takeProfitPercent : num;
  stopLossPercent : num
}.

(** The constructor's default arguments. *)
Definition defaults : Config := {|
  momentumThreshold := of_Z 10;
  lookbackPeriod := 5;
  takeProfitPercent := of_Z 50;
  stopLossPercent := of_Z 30
|}.

(** [shouldBuy]: [currentPrice] is what awaiting
    [retrieveTokenValueByAddress(mintAddress)] produced; the second
    component is the [priceHistory] map after the call. *)
Definition shouldBuy (cfg : Config) (priceHistory : gmap string (list num))
    (poolInfo : PumpSwapPoolInfo) (currentPrice : Exc (option num))
    : bool * gmap string (list num) :=
  let mintAddress := baseMint poolInfo in
  match currentPrice with
  | Throw _ => (false, priceHistory)
  | Ret None => (false, priceHistory)
  | Ret (Some currentPrice) =>
    if negb (truthy currentPrice) then (false, priceHistory) else
    let history := default [] (priceHistory !! mintAddress) ++ [currentPrice] in
    let history :=
      if Z.of_nat (length history) >? lookbackPeriod cfg
      then slice_from (- lookbackPeriod cfg) history
      else history in
    let priceHistory := <[mintAddress := history]> priceHistory in
    if Z.of_nat (length history) <? 2 then (false, priceHistory) else
    match index history 0, index history (Z.of_nat (length history) - 2) with
    | Some oldestPrice, Some recentPrice =>
      let momentum := percent_change currentPrice oldestPrice in
      if ngeb momentum (momentumThreshold cfg) then
        let recentMomentum := percent_change currentPrice recentPrice in
        (ngtb recentMomentum (of_Z 0), priceHistory)
      else (false, priceHistory)
    | _, _ => (false, priceHistory)
    end
  end.

(** [arr.every((price, idx, arr) => idx === 0 || price < arr[idx - 1])],
    with [prev] the element before the current one. *)
Fixpoint every_below_previous (prev : option num) (arr : list num) : bool :=
  match arr with
  | [] => true
  | price :: rest =>
    match prev with
    | None => true
    | Some before => nltb price before
    end && every_below_previous (Some price) rest
  end.

Definition shouldSell (cfg : Config) (priceHistory : gmap string (list num))
    (position : Position num) (currentPrice : num) : bool :=
  if negb (truthy (buyValue position)) || is_zero currentPrice then false else
  let priceChange := percent_change currentPrice (buyValue position) in
  if ngeb priceChange (takeProfitPercent cfg) then true else
  if nleb priceChange (nneg (stopLossPercent cfg)) then true else
  let mintAddress := mint position in
  let history := default [] (priceHistory !! mintAddress) in
  if 3 <=? Z.of_nat (length history) then
    let isDowntrend := every_below_previous None (slice_from (-3) history) in
    if isDowntrend && ngtb priceChange (of_Z 0) then true else false
  else false.

Definition calculatePositionSize (poolInfo : PumpSwapPoolInfo) : Z :=
  let maxPositionSize := Z.quot (quoteReserve poolInfo) 100 in
  let minPositionSize := 10000000 in
  if maxPositionSize >? minPositionSize then maxPositionSize else minPositionSize.

Definition clearHistory (priceHistory : gmap string (list num)) (mintAddress : string)
    : gmap string (list num) :=
  delete mintAddress priceHistory.

End Momentum.
Arguments Config num : clear implicits.
End Momentum.

(** ** [src/strategies/volume.ts] *)

Module Volume.
Section Volume.
Context {num : Type} `{JSNumber num}.

Record Config := {
  minVolume24h : num;
  minLiquidityUSD : num;
  takeProfitPercent : num;
  stopLossPercent : num;
  volumeDeclineThreshold : num
}.

Definition defaults : Config := {|
  minVolume24h := of_Z 10000;
  minLiquidityUSD := of_Z 5000;
  takeProfitPercent := of_Z 50;
  stopLossPercent := of_Z 30;
  volumeDeclineThreshold := of_Z 50
|}.

(** The fields read from the market-data pair; [None] is [undefined]. *)
Record TokenData := {
  volume_h24 : option num;
  volume_h6 : option num;
  volume_h1 : option num;
  liquidity_usd : option num;
  priceChange_h1 : option num
}.

(** [tokenData] is what awaiting [fetchTokenData(mintAddress)] produced;
    [None] is [null] or [undefined]. *)
Definition shouldBuy (cfg : Config) (tokenData : option TokenData) : bool :=
  match tokenData with
  | None => false
  | Some tokenData =>
    let volume24h := or_zero (volume_h24 tokenData) in
    if nltb volume24h (minVolume24h cfg) then false else
    let liquidityUSD := or_zero (liquidity_usd tokenData) in
    if nltb liquidityUSD (minLiquidityUSD cfg) then false else
    let volume1h := or_zero (volume_h1 tokenData) in
    let volume6h := or_zero (volume_h6 tokenData) in
    let avgHourlyVolume6h := ndiv volume6h (of_Z 6) in
    let isVolumeIncreasing :=
      ngtb volume1h (nmul avgHourlyVolume6h (lit (Qmake 3 2))) in
    let priceChange1h := or_zero (priceChange_h1 tokenData) in
    let isPricePositive := ngtb priceChange1h (of_Z 0) in
    isVolumeIncreasing && isPricePositive
  end.

Definition shouldSell (cfg : Config) (tokenData : option TokenData)
    (position : Position num) (currentPrice : num) : bool :=
  if negb (truthy (buyValue position)) || is_zero currentPrice then false else
  let priceChange := percent_change currentPrice (buyValue position) in
  if ngeb priceChange (takeProfitPercent cfg) then true else
  if nleb priceChange (nneg (stopLossPercent cfg)) then true else
  match tokenData with
  | Some tokenData =>
    let volume1h := or_zero (volume_h1 tokenData) in
    let volume6h := or_zero (volume_h6 tokenData) in
    let avgHourlyVolume6h := ndiv volume6h (of_Z 6) in
    if nltb volume1h
         (nmul avgHourlyVolume6h
            (nsub (of_Z 1) (ndiv (volumeDeclineThreshold cfg) (of_Z 100))))
    then true else
    let priceChange1h := or_zero (priceChange_h1 tokenData) in
    if nltb priceChange1h (of_Z (-5)) && ngtb volume1h avgHourlyVolume6h
    then true else false
  | None => false
  end.

Definition calculatePositionSize (poolInfo : PumpSwapPoolInfo) : Z :=
  let positionSize := Z.quot (quoteReserve poolInfo) 50 in
  let minPositionSize := 10000000 in
  let maxPositionSize := 1000000000 in
  if positionSize <? minPositionSize then minPositionSize else
  if positionSize >? maxPositionSize then maxPositionSize else
  positionSize.

End Volume.
Arguments Config num : clear implicits.
Arguments TokenData num : clear implicits.
End Volume.

(** ** [src/strategies/liquidity.ts] *)

Module Liquidity.
Section Liquidity.
Context {num : Type} `{JSNumber num}.

Record Config := {
  minLiquiditySOL : num;
  maxPriceImpact : num;
  takeProfitPercent : num;
  stopLossPercent : num;
  liquidityGrowthThreshold : num
}.

Definition defaults : Config := {|
  minLiquiditySOL := of_Z 10;
  maxPriceImpact := of_Z 2;
  takeProfitPercent := of_Z 30;
  stopLossPercent := of_Z 20;
  liquidityGrowthThreshold := of_Z 20
|}.

Definition calculatePriceImpact (amountIn reserveIn reserveOut : Z) : Exc num :=
  if (reserveIn =? 0) || (reserveOut =? 0) then Ret (of_Z 100) else
  let amountInWithFee := amountIn * 9975 in
  let numerator := amountInWithFee * reserveOut in
  let denominator := reserveIn * 10000 + amountInWithFee in
  bind (bigint_div numerator denominator) (fun amountOut =>
  bind (bigint_div (amountIn * reserveOut) reserveIn) (fun exactQuote =>
  let priceImpact :=
    nmul (ndiv (of_Z (exactQuote - amountOut)) (of_Z exactQuote)) (of_Z 100) in
  Ret priceImpact)).

(** [now] is the value of [Date.now()]. *)
Definition shouldBuy (cfg : Config) (now : Z) (poolInfo : PumpSwapPoolInfo) : Exc bool :=
  try_catch
    (let liquiditySOL :=
       ndiv (of_Z (quoteReserve poolInfo)) (pow10 (quoteDecimals poolInfo)) in
     if nltb liquiditySOL (minLiquiditySOL cfg) then Ret false else
     let tradeSize := 100000000 in
     bind (calculatePriceImpact tradeSize (quoteReserve poolInfo) (baseReserve poolInfo))
       (fun priceImpact =>
     if ngtb priceImpact (maxPriceImpact cfg) then Ret false else
     let poolAge := now - createdAt poolInfo in
     let isNewPool := poolAge <? 24 * 60 * 60 * 1000 in
     if isNewPool && nltb liquiditySOL (nmul (minLiquiditySOL cfg) (of_Z 2))
     then Ret false else
     let liquidityRatio :=
       ndiv (of_Z (quoteReserve poolInfo)) (of_Z (baseReserve poolInfo)) in
     let isBalanced :=
       ngtb liquidityRatio (lit (Qmake 1 1000)) && nltb liquidityRatio (of_Z 1000) in
     Ret isBalanced))
    (fun _ => Ret false).

Definition shouldSell (cfg : Config) (now : Z)
    (position : Position num) (currentPrice : num) : bool :=
  if negb (truthy (buyValue position)) || is_zero currentPrice then false else
  let priceChange := percent_change currentPrice (buyValue position) in
  if ngeb priceChange (takeProfitPercent cfg) then true else
  if nleb priceChange (nneg (stopLossPercent cfg)) then true else
  let holdTime := now - timestamp position in
  let oneHour := 60 * 60 * 1000 in
  if (holdTime >? oneHour) && nltb priceChange (of_Z 5) then true else
  false.

Definition calculatePositionSize (poolInfo : PumpSwapPoolInfo) : Z :=
  let positionSize := Z.quot (quoteReserve poolInfo) 200 in
  let minPositionSize := 10000000 in
  let maxPositionSize := 500000000 in
  if positionSize <? minPositionSize then minPositionSize else
  if positionSize >? maxPositionSize then maxPositionSize else
  positionSize.

End Liquidity.
Arguments Config num : clear implicits.
End Liquidity.

(** ** [src/strategies/strategy-manager.ts] *)

#[export] Instance StrategyType_countable : Countable StrategyType.
Proof.
  refine (inj_countable'
    (fun t => match t with MOMENTUM => 0%nat | VOLUME => 1%nat
                         | LIQUIDITY => 2%nat | CUSTOM => 3%nat end)
    (fun n => match n with 0%nat => MOMENTUM | 1%nat => VOLUME
                         | 2%nat => LIQUIDITY | _ => CUSTOM end) _).
  intros []; reflexivity.
Defined.

Module StrategyManager.
Section StrategyManager.
Context {num : Type} `{JSNumber num}.

Record t := {
  strategies : gmap StrategyType (TradingStrategy num);
  activeStrategy : StrategyType
}.

(** What the built-in policies read from the outside world when the
    manager calls them. *)
Record World := {
  retrieveTokenValueByAddress : string -> Exc (option num);
  fetchTokenData : string -> option (Volume.TokenData num);
  now : Z;
  priceHistory : gmap string (list num)
}.

Definition momentumStrategy (w : World) : TradingStrategy num := {|
  ts_type := MOMENTUM;
  ts_shouldBuy := fun poolInfo =>
    Ret (fst (Momentum.shouldBuy Momentum.defaults (priceHistory w) poolInfo
                (retrieveTokenValueByAddress w (baseMint poolInfo))));
  ts_shouldSell := fun position currentPrice =>
    Ret (Momentum.shouldSell Momentum.defaults (priceHistory w) position currentPrice);
  ts_calculatePositionSize := fun poolInfo =>
    Ret (Momentum.calculatePositionSize poolInfo)
|}.

Definition volumeStrategy (w : World) : TradingStrategy num := {|
  ts_type := VOLUME;
  ts_shouldBuy := fun poolInfo =>
    Ret (Volume.shouldBuy Volume.defaults (fetchTokenData w (baseMint poolInfo)));
  ts_shouldSell := fun position currentPrice =>
    Ret (Volume.shouldSell Volume.defaults (fetchTokenData w (mint position))
           position currentPrice);
  ts_calculatePositionSize := fun poolInfo =>
    Ret (Volume.calculatePositionSize poolInfo)
|}.

Definition liquidityStrategy (w : World) : TradingStrategy num := {|
  ts_type := LIQUIDITY;
  ts_shouldBuy := fun poolInfo =>
    Liquidity.shouldBuy Liquidity.defaults (now w) poolInfo;
  ts_shouldSell := fun position currentPrice =>
    Ret (Liquidity.shouldSell Liquidity.defaults (now w) position currentPrice);
  ts_calculatePositionSize := fun poolInfo =>
    Ret (Liquidity.calculatePositionSize poolInfo)
|}.

Definition initializeStrategies (w : World) : gmap StrategyType (TradingStrategy num) :=
  <[LIQUIDITY := liquidityStrategy w]>
    (<[VOLUME := volumeStrategy w]>
      (<[MOMENTUM := momentumStrategy w]> ∅)).

(** [new StrategyManager(logger, initialStrategy)] *)
Definition new (w : World) (initialStrategy : StrategyType) : t := {|
  strategies := initializeStrategies w;
  activeStrategy := initialStrategy
|}.

Definition setActiveStrategy (m : t) (strategyType : StrategyType) : t :=
  match strategies m !! strategyType with
  | Some _ => {| strategies := strategies m; activeStrategy := strategyType |}
  | None => m
  end.

Definition addCustomStrategy (m : t) (s : TradingStrategy num) : t :=
  {| strategies := <[ts_type s := s]> (strategies m);
     activeStrategy := activeStrategy m |}.

Definition getActiveStrategy (m : t) : option (TradingStrategy num) :=
  strategies m !! activeStrategy m.

Definition shouldBuy (m : t) (poolInfo : PumpSwapPoolInfo) : Exc bool :=
  match getActiveStrategy m with
  | None => Ret false
  | Some strategy =>
    try_catch
      (bind (ts_shouldBuy strategy poolInfo) (fun decision => Ret decision))
      (fun _ => Ret false)
  end.

Definition shouldSell (m : t) (position : Position num) (currentPrice : num)
    : Exc bool :=
  match getActiveStrategy m with
  | None => Ret false
  | Some strategy =>
    try_catch
      (bind (ts_shouldSell strategy position currentPrice) (fun decision => Ret decision))
      (fun _ => Ret false)
  end.

Definition calculatePositionSize (m : t) (poolInfo : PumpSwapPoolInfo) : Exc Z :=
  match getActiveStrategy m with
  | None => Ret 10000000
  | Some strategy =>
    try_catch
      (bind (ts_calculatePositionSize strategy poolInfo) (fun size => Ret size))
      (fun _ => Ret 10000000)
  end.

End StrategyManager.
Arguments t num : clear implicits.
Arguments World num : clear implicits.
End StrategyManager.

(** ** [src/pumpswap/pumpswap.ts] *)

Module PumpSwapClient.
Section PumpSwapClient.
Context {num : Type} `{JSNumber num}.

(** [getCurrentPrice]: [freshPoolInfo] is what awaiting
    [this.getPoolInfo(poolInfo.poolId)] produced ([None] is [null]). *)
Definition getCurrentPrice (freshPoolInfo : option PumpSwapPoolInfo) : num :=
  match freshPoolInfo with
  | None => of_Z 0
  | Some freshPoolInfo =>
    if baseReserve freshPoolInfo =? 0 then of_Z 0 else
    let price :=
      ndiv (of_Z (quoteReserve freshPoolInfo)) (of_Z (baseReserve freshPoolInfo)) in
    let decimalAdjustment :=
      pow10 (quoteDecimals freshPoolInfo - baseDecimals freshPoolInfo) in
    nmul price decimalAdjustment
  end.

Definition hasMinimumLiquidity (poolInfo : PumpSwapPoolInfo) (minLiquiditySOL : num)
    : bool :=
  let quoteReserveSOL :=
    ndiv (of_Z (quoteReserve poolInfo)) (pow10 (quoteDecimals poolInfo)) in
  ngeb quoteReserveSOL minLiquiditySOL.

(** [if (signature)] on a [string | null]: [null] and the empty string
    are falsy. *)
Definition has_signature (signature : option string) : bool :=
  match signature with
  | Some s => negb (String.eqb s "")
  | None => false
  end.

End PumpSwapClient.
End PumpSwapClient.

(** ** [src/pumpswap-bot.ts] *)

Module Bot.
Section Bot.
Context {num : Type} `{JSNumber num}.

(** The configuration read at start-up.  [maxConcurrentPositions] is the
    imported constant [MAX_CONCURRENT_POSITIONS]; it is a field here so
    that other ceilings can be examined. *)
Record Config := {
  USE_SNIPE_LIST : bool;
  MIN_POOL_SIZE : num;
  TRADING_STRATEGY : StrategyType;
  maxConcurrentPositions : Z
}.

(** The module-level mutable state.  In this module one run of
    [processPumpSwapPool] and one tick of [monitorPositions] are each
    taken as running to completion; module [Overlap] below lets runs and
    iterations overlap at their awaits. *)
Record State := {
  existingPools : gset string;
  activePositions : gmap string (Position num);
  snipeList : list string
}.

Definition initial : State := {|
  existingPools := ∅;
  activePositions := ∅;
  snipeList := []
|}.

Definition shouldBuy (cfg : Config) (st : State) (mintAddress : string) : bool :=
  if USE_SNIPE_LIST cfg then bool_decide (mintAddress ∈ snipeList st) else true.

(** What the awaited calls of one [processPumpSwapPool] run produce. *)
Record BuyAnswers := {
  ans_poolInfo : option PumpSwapPoolInfo;       (* getPoolInfo(poolId) *)
  ans_world : StrategyManager.World num;        (* seen by the strategies *)
  ans_buy : option string;                      (* pumpSwapClient.buy *)
  ans_freshPoolInfo : option PumpSwapPoolInfo;  (* inside getCurrentPrice *)
  ans_now : Z                                   (* Date.now() *)
}.

(** The calls to the collaborators, in the order they are made. *)
Inductive Call :=
| CallGetPoolInfo | CallHasMinimumLiquidity | CallStrategyShouldBuy
| CallCalculatePositionSize | CallBuy | CallGetCurrentPrice.

(** How a run ends: the message it logs, or a silent failed buy. *)
Inductive BuyOutcome :=
| FailedToFetchPoolInfo
| NotInSnipeList
| AlreadyHavePosition
| MaxPositionsReached
| InsufficientLiquidity
| StrategyDeclined
| BuyFailed
| BuySuccessful (position : Position num)
| FailedToProcess.

Record BuyResult := {
  res_state : State;
  res_outcome : BuyOutcome;
  res_calls : list Call
}.

Definition set_positions (st : State) (book : gmap string (Position num)) : State :=
  {| existingPools := existingPools st;
     activePositions := book;
     snipeList := snipeList st |}.

Definition processPumpSwapPool (cfg : Config) (a : BuyAnswers) (st : State)
    (poolId' : string) : BuyResult :=
  let strategyManager := StrategyManager.new (ans_world a) (TRADING_STRATEGY cfg) in
  match ans_poolInfo a with
  | None => Build_BuyResult st FailedToFetchPoolInfo [CallGetPoolInfo]
  | Some poolInfo =>
    let mintAddress := baseMint poolInfo in
    if negb (shouldBuy cfg st mintAddress) then
      Build_BuyResult st NotInSnipeList [CallGetPoolInfo]
    else if bool_decide (is_Some (activePositions st !! mintAddress)) then
      Build_BuyResult st AlreadyHavePosition [CallGetPoolInfo]
    else if Z.of_nat (size (activePositions st)) >=? maxConcurrentPositions cfg then
      Build_BuyResult st MaxPositionsReached [CallGetPoolInfo]
    else if negb (PumpSwapClient.hasMinimumLiquidity poolInfo (MIN_POOL_SIZE cfg)) then
      Build_BuyResult st InsufficientLiquidity
        [CallGetPoolInfo; CallHasMinimumLiquidity]
    else
      match StrategyManager.shouldBuy strategyManager poolInfo with
      | Throw _ =>
        Build_BuyResult st FailedToProcess
          [CallGetPoolInfo; CallHasMinimumLiquidity; CallStrategyShouldBuy]
      | Ret false =>
        Build_BuyResult st StrategyDeclined
          [CallGetPoolInfo; CallHasMinimumLiquidity; CallStrategyShouldBuy]
      | Ret true =>
        match StrategyManager.calculatePositionSize strategyManager poolInfo with
        | Throw _ =>
          Build_BuyResult st FailedToProcess
            [CallGetPoolInfo; CallHasMinimumLiquidity; CallStrategyShouldBuy;
             CallCalculatePositionSize]
        | Ret positionSize =>
          if PumpSwapClient.has_signature (ans_buy a) then
            let currentPrice :=
              PumpSwapClient.getCurrentPrice (ans_freshPoolInfo a) in
            let position := {|
              mint := baseMint poolInfo;
              pos_poolId := poolId poolInfo;
              entryPrice := currentPrice;
              amount := positionSize;
              buyValue := currentPrice;
              timestamp := ans_now a;
              strategy :=
                match StrategyManager.getActiveStrategy strategyManager with
                | Some s => ts_type s
                | None => MOMENTUM
                end
            |} in
            Build_BuyResult
              (set_positions st (<[mintAddress := position]> (activePositions st)))
              (BuySuccessful position)
              [CallGetPoolInfo; CallHasMinimumLiquidity; CallStrategyShouldBuy;
               CallCalculatePositionSize; CallBuy; CallGetCurrentPrice]
          else
            Build_BuyResult st BuyFailed
              [CallGetPoolInfo; CallHasMinimumLiquidity; CallStrategyShouldBuy;
               CallCalculatePositionSize; CallBuy]
        end
      end
  end.

(** The [onProgramAccountChange] callback: [None] when the pool was seen
    before, otherwise the result of processing it. *)
Definition onProgramAccountChange (cfg : Config) (a : BuyAnswers) (st : State)
    (key : string) : State * option BuyResult :=
  if negb (bool_decide (key ∈ existingPools st)) then
    let st :=
      {| existingPools := {[key]} ∪ existingPools st;
         activePositions := activePositions st;
         snipeList := snipeList st |} in
    let r := processPumpSwapPool cfg a st key in
    (res_state r, Some r)
  else (st, None).

(** What the awaited calls of one iteration of the monitoring loop
    produce. *)
Record SellAnswers := {
  ans_currentPrice : Exc (option num);          (* retrieveTokenValueByAddress *)
  ans_sellWorld : StrategyManager.World num;    (* seen by the strategies *)
  ans_sellPoolInfo : option PumpSwapPoolInfo;   (* getPoolInfo(position.poolId) *)
  ans_sell : option string                      (* pumpSwapClient.sell *)
}.

Inductive MonitorOutcome :=
| PriceUnavailable
| Holding
| PoolInfoUnavailable
| SellFailed
| SellSuccessful (signature : string)
| FailedToMonitor.

(** The body of the [for ... of activePositions.entries()] loop, acting
    on the live map [book]. *)
Definition monitorPosition (cfg : Config) (a : SellAnswers)
    (book : gmap string (Position num))
    (mintAddress : string) (position : Position num)
    : gmap string (Position num) * MonitorOutcome :=
  let strategyManager := StrategyManager.new (ans_sellWorld a) (TRADING_STRATEGY cfg) in
  match ans_currentPrice a with
  | Throw _ => (book, FailedToMonitor)
  | Ret None => (book, PriceUnavailable)
  | Ret (Some currentPrice) =>
    if negb (truthy currentPrice) then (book, PriceUnavailable) else
    match StrategyManager.shouldSell strategyManager position currentPrice with
    | Throw _ => (book, FailedToMonitor)
    | Ret false => (book, Holding)
    | Ret true =>
      match ans_sellPoolInfo a with
      | None => (book, PoolInfoUnavailable)
      | Some poolInfo =>
        match ans_sell a with
        | Some signature =>
          if negb (String.eqb signature "")
          then (delete mintAddress book, SellSuccessful signature)
          else (book, SellFailed)
        | None => (book, SellFailed)
        end
      end
    end
  end.

(** The [for ... of activePositions.entries()] loop over the entries still
    to visit; [acc] is the live map and the outcomes logged so far. *)
Definition monitorLoop (cfg : Config) (answers : string -> SellAnswers)
    (acc : gmap string (Position num) * list (string * MonitorOutcome))
    (entries : list (string * Position num))
    : gmap string (Position num) * list (string * MonitorOutcome) :=
  foldl
    (fun acc entry =>
       let '(book, log) := acc in
       let '(mintAddress, position) := entry in
       let '(book, outcome) :=
         monitorPosition cfg (answers mintAddress) book mintAddress position in
       (book, log ++ [(mintAddress, outcome)]))
    acc entries.

(** One tick: the entries are visited once each; an iteration removes at
    most its own entry. *)
Definition monitorPositions (cfg : Config) (answers : string -> SellAnswers)
    (st : State) : State * list (string * MonitorOutcome) :=
  if Z.of_nat (size (activePositions st)) =? 0 then (st, []) else
  let '(book, log) :=
    monitorLoop cfg answers (activePositions st, [])
      (map_to_list (activePositions st)) in
  (set_positions st book, log).

(** [loadSnipeList]: [file] is the content read, [None] when reading
    throws. *)
Definition loadSnipeList (file : option (list string)) (st : State) : State :=
  match file with
  | Some lines =>
    {| existingPools := existingPools st;
       activePositions := activePositions st;
       snipeList := lines |}
  | None => st
  end.

(** The events the running bot reacts to. *)
Inductive Event :=
| PoolAccountChange (key : string) (a : BuyAnswers)
| MonitorTick (answers : string -> SellAnswers)
| SnipeListRefresh (file : option (list string)).

Definition step (cfg : Config) (st : State) (ev : Event) : State :=
  match ev with
  | PoolAccountChange key a => fst (onProgramAccountChange cfg a st key)
  | MonitorTick answers => fst (monitorPositions cfg answers st)
  | SnipeListRefresh file => loadSnipeList file st
  end.

Definition run (cfg : Config) (st : State) (evs : list Event) : State :=
  foldl (step cfg) st evs.

(** For each pool delivery of [evs], in order: the key delivered and
    whether the callback started processing it. *)
Fixpoint deliveries (cfg : Config) (st : State) (evs : list Event)
    : list (string * bool) :=
  match evs with
  | [] => []
  | ev :: rest =>
    match ev with
    | PoolAccountChange key a =>
      [(key, bool_decide (is_Some (snd (onProgramAccountChange cfg a st key))))]
    | _ => []
    end ++ deliveries cfg (step cfg st ev) rest
  end.

End Bot.
Arguments Config num : clear implicits.
Arguments State num : clear implicits.
Arguments BuyAnswers num : clear implicits.
Arguments SellAnswers num : clear implicits.
Arguments BuyOutcome num : clear implicits.
Arguments BuyResult num : clear implicits.
Arguments Event num : clear implicits.
End Bot.

(** ** [src/pumpswap-bot.ts]: runs that overlap at their awaits *)

(** The discovery callback starts [processPumpSwapPool] without awaiting it
    (line 354), and the monitoring loop awaits inside every iteration, so
    other callbacks run between the lines of one run.  A run reads the
    bot's state in one synchronous stretch, lines 190-208, once
    [getPoolInfo] has resolved, and writes it at line 248, after the awaits
    of lines 211, 218, 231 and 235.  An iteration of the monitoring loop
    reads its entry when the iterator yields it (line 275) and deletes the
    key at line 323, after the awaits of lines 278, 296, 302 and 306.  What
    a run or an iteration computes in between depends on the answers of its
    awaited calls only, so each is two steps here: the one that reads the
    state and the one that writes it, with any other steps in between. *)
Module Overlap.
Section Overlap.
Context {num : Type} `{JSNumber num}.

Record State := {
  bot : Bot.State num;
  started : list string;         (* runs awaiting getPoolInfo, by pool key *)
  buying : list (Position num);  (* runs whose buy settles, not yet at line 248 *)
  selling : list string          (* iterations whose sell settles, not yet at line 323 *)
}.

(** No run and no iteration in flight. *)
Definition idle (st : Bot.State num) : State :=
  {| bot := st; started := []; buying := []; selling := [] |}.

Definition initial : State := idle Bot.initial.

(** Line 248, on the state as it is when the run gets there. *)
Definition storePosition (st : Bot.State num) (position : Position num)
    : Bot.State num :=
  Bot.set_positions st (<[mint position := position]> (Bot.activePositions st)).

(** Line 323, on the state as it is when the iteration gets there. *)
Definition deletePosition (st : Bot.State num) (mintAddress : string)
    : Bot.State num :=
  Bot.set_positions st (delete mintAddress (Bot.activePositions st)).

Inductive Step :=
| Discovered (key : string)
    (* lines 346-354: the callback, up to the run's first await *)
| GatesReached (i : nat) (a : Bot.BuyAnswers num)
    (* the i-th started run resumes after getPoolInfo: lines 185-246 *)
| PositionStored (i : nat)
    (* line 248 of the i-th run whose buy settled *)
| EntryVisited (mintAddress : string) (a : Bot.SellAnswers num)
    (* the iterator yields the entry of mintAddress: lines 275-320 *)
| EntryDeleted (j : nat)
    (* line 323 of the j-th iteration whose sell settled *)
| SnipeListLoaded (file : option (list string)).

Definition step (cfg : Bot.Config num) (s : State) (ev : Step) : State :=
  match ev with
  | Discovered key =>
    if negb (bool_decide (key ∈ Bot.existingPools (bot s))) then
      {| bot :=
           {| Bot.existingPools := {[key]} ∪ Bot.existingPools (bot s);
              Bot.activePositions := Bot.activePositions (bot s);
              Bot.snipeList := Bot.snipeList (bot s) |};
         started := started s ++ [key];
         buying := buying s;
         selling := selling s |}
    else s
  | GatesReached i a =>
    match started s !! i with
    | Some key =>
      {| bot := bot s;
         started := delete i (started s);
         buying :=
           match Bot.res_outcome (Bot.processPumpSwapPool cfg a (bot s) key) with
           | Bot.BuySuccessful position => buying s ++ [position]
           | _ => buying s
           end;
         selling := selling s |}
    | None => s
    end
  | PositionStored i =>
    match buying s !! i with
    | Some position =>
      {| bot := storePosition (bot s) position;
         started := started s;
         buying := delete i (buying s);
         selling := selling s |}
    | None => s
    end
  | EntryVisited mintAddress a =>
    match Bot.activePositions (bot s) !! mintAddress with
    | Some position =>
      match snd (Bot.monitorPosition cfg a (Bot.activePositions (bot s))
                   mintAddress position) with
      | Bot.SellSuccessful _ =>
        {| bot := bot s;
           started := started s;
           buying := buying s;
           selling := selling s ++ [mintAddress] |}
      | _ => s
      end
    | None => s
    end
  | EntryDeleted j =>
    match selling s !! j with
    | Some mintAddress =>
      {| bot := deletePosition (bot s) mintAddress;
         started := started s;
         buying := buying s;
         selling := delete j (selling s) |}
    | None => s
    end
  | SnipeListLoaded file =>
    {| bot := Bot.loadSnipeList file (bot s);
       started := started s;
       buying := buying s;
       selling := selling s |}
  end.

Definition run (cfg : Bot.Config num) (s : State) (evs : list Step) : State :=
  foldl (step cfg) s evs.

(** The largest number of runs that are between their gates and line 248
    at the same time, over the schedule [evs] from [s]. *)
Fixpoint in_flight_peak (cfg : Bot.Config num) (s : State) (evs : list Step) : nat :=
  match evs with
  | [] => length (buying s)
  | ev :: rest => Nat.max (length (buying s)) (in_flight_peak cfg (step cfg s ev) rest)
  end.

End Overlap.
Arguments State num : clear implicits.
Arguments Step num : clear implicits.
End Overlap.

(** ** [src/pumpswap/pumpswap.ts]: swap arithmetic and instruction data *)

Module PumpSwapExecution.

(** [calculateSwapOutput]; [feeBps] is an integer number of basis points
    (default 25), so that [BigInt(10000 - feeBps)] is defined. *)
Definition calculateSwapOutput (amountIn reserveIn reserveOut : Z) (feeBps : Z)
    : Exc Z :=
  if (reserveIn =? 0) || (reserveOut =? 0) then Ret 0 else
  let amountInWithFee := amountIn * (10000 - feeBps) in
  let numerator := amountInWithFee * reserveOut in
  let denominator := reserveIn * 10000 + amountInWithFee in
  bigint_div numerator denominator.

(** [data.slice(from, to)] on a [Buffer], for [0 <= from <= to]. *)
Definition buffer_slice (data : list Z) (from to : nat) : list Z :=
  take (to - from) (drop from data).

(** What [getPoolInfo] resolves to: [null], a pool snapshot, or an object
    whose decimals are [undefined] because the account data has fewer than
    170 bytes (such an object is outside [PumpSwapPoolInfo]; the
    subscription only delivers accounts of 256 bytes). *)
Inductive Fetched :=
| FetchedNull
| FetchedPool (poolInfo : PumpSwapPoolInfo)
| FetchedWithoutDecimals.

(** [getPoolInfo]: [accountInfo] is what awaiting
    [connection.getAccountInfo] produced (its data as bytes), [PublicKey]
    is the key constructor of the Solana library, rendered as the key's
    string, and [now] is [Date.now()]. *)
Definition getPoolInfo (PublicKey : list Z -> Exc string) (now : Z)
    (poolId' : string) (accountInfo : Exc (option (list Z))) : Fetched :=
  match accountInfo with
  | Throw _ => FetchedNull
  | Ret None => FetchedNull
  | Ret (Some data) =>
    match
      bind (PublicKey (buffer_slice data 8 40)) (fun baseMint =>
      bind (PublicKey (buffer_slice data 40 72)) (fun quoteMint =>
      bind (PublicKey (buffer_slice data 72 104)) (fun baseVault =>
      bind (PublicKey (buffer_slice data 104 136)) (fun quoteVault =>
      bind (PublicKey (buffer_slice data 136 168)) (fun lpMint =>
      Ret (baseMint, quoteMint))))))
    with
    | Throw _ => FetchedNull
    | Ret (baseMint', quoteMint') =>
      match data !! 168%nat, data !! 169%nat with
      | Some baseDecimals', Some quoteDecimals' =>
        FetchedPool {|
          poolId := poolId';
          baseMint := baseMint';
          quoteMint := quoteMint';
          baseDecimals := baseDecimals';
          quoteDecimals := quoteDecimals';
          baseReserve := 0;
          quoteReserve := 0;
          lpSupply := 0;
          createdAt := now
        |}
      | _, _ => FetchedWithoutDecimals
      end
    end
  end.

(** [Buffer.alloc(n)] *)
Definition alloc (n : nat) : list Z := repeat 0 n.

(** [buf.writeUInt8(value, offset)]; the buffer after the write. *)
Definition writeUInt8 (value : Z) (offset : nat) (buf : list Z) : Exc (list Z) :=
  if (value <? 0) || (255 <? value) then Throw "ERR_OUT_OF_RANGE" else
  if (length buf <? offset + 1)%nat then Throw "ERR_OUT_OF_RANGE" else
  Ret (<[offset := value]> buf).

(** Byte [i] of [value], least significant first. *)
Definition le_byte (value : Z) (i : nat) : Z :=
  (value / 2 ^ (8 * Z.of_nat i)) mod 256.

(** [buf.writeBigUInt64LE(value, offset)]; the buffer after the write. *)
Definition writeBigUInt64LE (value : Z) (offset : nat) (buf : list Z) : Exc (list Z) :=
  if (value <? 0) || (2 ^ 64 <=? value) then Throw "ERR_OUT_OF_RANGE" else
  if (length buf <? offset + 8)%nat then Throw "ERR_OUT_OF_RANGE" else
  Ret (foldl (fun buf i => <[(offset + i)%nat := le_byte value i]> buf) buf (seq 0 8)).

(** The instruction data built by [createSwapInstruction]. *)
Definition swapInstructionData (amountIn minAmountOut : Z) (isBuy : bool)
    : Exc (list Z) :=
  let data := alloc 24 in
  bind (writeUInt8 (if isBuy then 1 else 2) 0 data) (fun data =>
  bind (writeBigUInt64LE amountIn 1 data) (fun data =>
  bind (writeBigUInt64LE minAmountOut 9 data) (fun data =>
  Ret data))).

(** What the awaited and library calls of one [buy] or [sell] produce. *)
Record SwapAnswers := {
  ans_tokenAccounts : Exc unit;          (* getAssociatedTokenAddressSync, twice *)
  ans_latestBlockhash : Exc string;      (* connection.getLatestBlockhash *)
  ans_signedTransaction : Exc unit;      (* compileToV0Message, sign, serialize *)
  ans_sendRawTransaction : Exc string;   (* the signature *)
  ans_confirmation : Exc (option string) (* confirmation.value.err *)
}.

(** The calls that reach the network. *)
Inductive NetworkCall :=
| NetGetLatestBlockhash
| NetSendRawTransaction (skipPreflight : bool) (instructionData : list Z)
| NetConfirmTransaction (signature : string).

(** The common body of [buy] ([isBuy = true], sent with [skipPreflight:
    true]) and [sell] ([isBuy = false], [skipPreflight: false]): the
    signature or [null], and the network calls made. *)
Definition executeSwap (isBuy : bool) (w : SwapAnswers) (amountIn minAmountOut : Z)
    : option string * list NetworkCall :=
  match ans_tokenAccounts w with
  | Throw _ => (None, [])
  | Ret _ =>
    match swapInstructionData amountIn minAmountOut isBuy with
    | Throw _ => (None, [])
    | Ret data =>
      match ans_latestBlockhash w with
      | Throw _ => (None, [NetGetLatestBlockhash])
      | Ret _ =>
        match ans_signedTransaction w with
        | Throw _ => (None, [NetGetLatestBlockhash])
        | Ret _ =>
          match ans_sendRawTransaction w with
          | Throw _ =>
            (None, [NetGetLatestBlockhash; NetSendRawTransaction isBuy data])
          | Ret signature =>
            let calls :=
              [NetGetLatestBlockhash; NetSendRawTransaction isBuy data;
               NetConfirmTransaction signature] in
            match ans_confirmation w with
            | Throw _ => (None, calls)
            | Ret (Some _) => (None, calls)
            | Ret None => (Some signature, calls)
            end
          end
        end
      end
    end
  end.

Definition buy (w : SwapAnswers) (amountIn minAmountOut : Z) :=
  executeSwap true w amountIn minAmountOut.

Definition sell (w : SwapAnswers) (amountIn minAmountOut : Z) :=
  executeSwap false w amountIn minAmountOut.

End PumpSwapExecution.

(** ** Text of the allow-list file: [loadSnipeList] in [src/pumpswap-bot.ts]
    and [checkSnipeList] in the setup verification script

    A JavaScript string is the list of its UTF-16 code units. *)

Module SnipeList.

(** The code units [String.prototype.trim] removes: ECMAScript WhiteSpace
    and LineTerminator. *)
Definition is_whitespace (c : Z) : bool :=
  (9 <=? c) && (c <=? 13)
  || (c =? 32) || (c =? 160) || (c =? 5760)
  || (8192 <=? c) && (c <=? 8202)
  || (c =? 8232) || (c =? 8233) || (c =? 8239) || (c =? 8287)
  || (c =? 12288) || (c =? 65279).

Fixpoint trimStart (s : list Z) : list Z :=
  match s with
  | [] => []
  | c :: rest => if is_whitespace c then trimStart rest else s
  end.

Definition trimEnd (s : list Z) : list Z := rev (trimStart (rev s)).

(** [s.trim()] *)
Definition trim (s : list Z) : list Z := trimEnd (trimStart s).

(** [s.split('\n')] *)
Fixpoint split_lines (s : list Z) : list (list Z) :=
  match s with
  | [] => [[]]
  | c :: rest =>
    if c =? 10 then [] :: split_lines rest
    else match split_lines rest with
         | line :: lines => (c :: line) :: lines
         | [] => [[c]]
         end
  end.

(** A string is truthy when it is not empty. *)
Definition truthy_string (s : list Z) : bool :=
  match s with [] => false | _ => true end.

(** [loadSnipeList]: the list made of the file content [data]. *)
Definition parseSnipeList (data : list Z) : list (list Z) :=
  List.filter truthy_string (map trim (split_lines data)).

(** [checkSnipeList]: the lines counted as tokens. *)
Definition checkSnipeList_tokens (content : list Z) : list (list Z) :=
  List.filter (fun line => truthy_string (trim line)) (split_lines content).

End SnipeList.

(** ** The setup verification script *)

Module SetupCheck.

Inductive Status := pass | fail | warn.

Record CheckResult := {
  name : string;
  status : Status;
  message : string
}.

(** [value.includes(needle)]; for an ASCII needle the UTF-8 bytes of
    [value] contain it exactly when its UTF-16 code units do. *)
Fixpoint includes (needle value : string) : bool :=
  String.prefix needle value
  || match value with
     | EmptyString => false
     | String _ rest => includes needle rest
     end.

Definition required : list string :=
  ["PRIVATE_KEY"; "RPC_ENDPOINT"; "RPC_WEBSOCKET_ENDPOINT"; "QUOTE_MINT";
   "QUOTE_AMOUNT"; "COMMITMENT_LEVEL"]%string.

(** [checkRequiredEnvVars]: the results it appends; [env] is
    [process.env]. *)
Definition checkRequiredEnvVars (env : gmap string string) : list CheckResult :=
  map
    (fun varName =>
       let misconfigured :=
         match env !! varName with
         | None => true
         | Some value => String.eqb value "" || includes "XXXX" value
         end in
       if misconfigured then
         {| name := "Env: " ++ varName; status := fail;
            message := varName ++ " is not configured properly" |}
       else
         {| name := "Env: " ++ varName; status := pass; message := "Configured" |})
    required.

Inductive Verdict := SetupIncomplete | SetupHasWarnings | SetupComplete.

Record Summary := {
  passCount : nat;
  failCount : nat;
  warnCount : nat;
  verdict : Verdict;
  exitCode : option Z     (* [process.exit(1)], or no exit call *)
}.

(** [printResults] on the accumulated [results]. *)
Definition printResults (results : list CheckResult) : Summary :=
  let '(passCount, failCount, warnCount) :=
    foldl
      (fun counts result =>
         let '(passCount, failCount, warnCount) := counts in
         match status result with
         | pass => (S passCount, failCount, warnCount)
         | fail => (passCount, S failCount, warnCount)
         | warn => (passCount, failCount, S warnCount)
         end)
      (0, 0, 0)%nat results in
  if (0 <? failCount)%nat then
    {| passCount := passCount; failCount := failCount; warnCount := warnCount;
       verdict := SetupIncomplete; exitCode := Some 1 |}
  else if (0 <? warnCount)%nat then
    {| passCount := passCount; failCount := failCount; warnCount := warnCount;
       verdict := SetupHasWarnings; exitCode := None |}
  else
    {| passCount := passCount; failCount := failCount; warnCount := warnCount;
       verdict := SetupComplete; exitCode := None |}.

End SetupCheck.

(** ** Vocabulary of the specification *)

(** The [n] most recent entries of a history. *)
Definition recent {A} (n : nat) (history : list A) : list A :=
  drop (length history - n) history.

(** The monitoring iteration reaches [pumpSwapClient.sell] and the sell
    returns a settlement signature. *)
Definition sell_settles {num} `{JSNumber num} (cfg : Bot.Config num)
    (a : Bot.SellAnswers num) (position : Position num) : Prop :=
  exists price poolInfo signature,
    Bot.ans_currentPrice a = Ret (Some price)
    /\ truthy price = true
    /\ StrategyManager.shouldSell
         (StrategyManager.new (Bot.ans_sellWorld a) (Bot.TRADING_STRATEGY cfg))
         position price = Ret true
    /\ Bot.ans_sellPoolInfo a = Some poolInfo
    /\ Bot.ans_sell a = Some signature
    /\ signature <> ""%string.


(** The post-buy price read failed: the refreshed pool is [null] or has a
    zero base reserve. *)
Definition price_read_fails (fresh : option PumpSwapPoolInfo) : Prop :=
  match fresh with
  | None => True
  | Some freshPoolInfo => baseReserve freshPoolInfo = 0
  end.

(** The run with answers [a] passes every gate on the state [st] it reads,
    the strategy approves, a size is computed and the buy returns a
    settlement signature. *)
Definition buy_settles {num} `{JSNumber num} (cfg : Bot.Config num)
    (a : Bot.BuyAnswers num) (st : Bot.State num) : Prop :=
  exists poolInfo positionSize signature,
    Bot.ans_poolInfo a = Some poolInfo
    /\ Bot.shouldBuy cfg st (baseMint poolInfo) = true
    /\ Bot.activePositions st !! baseMint poolInfo = None
    /\ Z.of_nat (size (Bot.activePositions st)) < Bot.maxConcurrentPositions cfg
    /\ PumpSwapClient.hasMinimumLiquidity poolInfo (Bot.MIN_POOL_SIZE cfg) = true
    /\ StrategyManager.shouldBuy
         (StrategyManager.new (Bot.ans_world a) (Bot.TRADING_STRATEGY cfg))
         poolInfo = Ret true
    /\ StrategyManager.calculatePositionSize
         (StrategyManager.new (Bot.ans_world a) (Bot.TRADING_STRATEGY cfg))
         poolInfo = Ret positionSize
    /\ Bot.ans_buy a = Some signature
    /\ signature <> ""%string.

(** What the run with answers [a] records for the token [m] when its buy
    settles: the pool's mint and id, the size the manager computed, the
    clock, the configured strategy, and as entry price and buy value the
    result of that run's own price read after the buy. *)
Definition recorded_by_buy {num} `{JSNumber num} (cfg : Bot.Config num)
    (a : Bot.BuyAnswers num) (m : string) (position : Position num) : Prop :=
  exists poolInfo,
    Bot.ans_poolInfo a = Some poolInfo
    /\ baseMint poolInfo = m
    /\ mint position = m
    /\ pos_poolId position = poolId poolInfo
    /\ StrategyManager.calculatePositionSize
         (StrategyManager.new (Bot.ans_world a) (Bot.TRADING_STRATEGY cfg))
         poolInfo = Ret (amount position)
    /\ entryPrice position = PumpSwapClient.getCurrentPrice (Bot.ans_freshPoolInfo a)
    /\ buyValue position = PumpSwapClient.getCurrentPrice (Bot.ans_freshPoolInfo a)
    /\ timestamp position = Bot.ans_now a
    /\ strategy position = Bot.TRADING_STRATEGY cfg.

(** Every entry of the book was stored by a discovery of the run [evs]
    whose buy settled, with what that discovery's own calls returned. *)
Definition book_ok {num} `{JSNumber num} (cfg : Bot.Config num)
    (evs : list (Bot.Event num)) (book : gmap string (Position num)) : Prop :=
  forall m position,
    book !! m = Some position ->
    exists before key a after r,
      evs = before ++ Bot.PoolAccountChange key a :: after
      /\ snd (Bot.onProgramAccountChange cfg a (Bot.run cfg Bot.initial before) key)
         = Some r
      /\ Bot.res_outcome r = Bot.BuySuccessful position
      /\ buy_settles cfg a (Bot.run cfg Bot.initial before)
      /\ recorded_by_buy cfg a m position.

(** The position was produced by a run of the schedule [evs] of
    overlapping runs: one that reached its gates with answers [a], passed
    them on the state it read there and had its buy settle; the position
    holds what that run's own calls returned. *)
Definition produced_by_run {num} `{JSNumber num} (cfg : Bot.Config num)
    (evs : list (Overlap.Step num)) (m : string) (position : Position num) : Prop :=
  exists before i key a after,
    evs = before ++ Overlap.GatesReached i a :: after
    /\ Overlap.started (Overlap.run cfg Overlap.initial before) !! i = Some key
    /\ buy_settles cfg a (Overlap.bot (Overlap.run cfg Overlap.initial before))
    /\ recorded_by_buy cfg a m position.

(** That holds of every entry of the book and of every position about to
    be stored. *)
Definition positions_ok {num} `{JSNumber num} (cfg : Bot.Config num)
    (evs : list (Overlap.Step num)) (s : Overlap.State num) : Prop :=
  (forall m position,
     Bot.activePositions (Overlap.bot s) !! m = Some position ->
     produced_by_run cfg evs m position)
  /\ (forall position,
        position ∈ Overlap.buying s -> produced_by_run cfg evs (mint position) position).

(** The pool keys delivered by the discovery feed, in order. *)
Fixpoint delivered_pools {num} (evs : list (Bot.Event num)) : list string :=
  match evs with
  | [] => []
  | Bot.PoolAccountChange key _ :: rest => key :: delivered_pools rest
  | _ :: rest => delivered_pools rest
  end.

(** ** Concrete inputs used to run the model *)

(** A concrete world and a policy whose three methods throw. *)
Definition quietWorld : StrategyManager.World Q := {|
  StrategyManager.retrieveTokenValueByAddress := fun _ => Ret None;
  StrategyManager.fetchTokenData := fun _ => None;
  StrategyManager.now := 0;
  StrategyManager.priceHistory := ∅
|}.

Definition faultyStrategy : TradingStrategy Q := {|
  ts_type := CUSTOM;
  ts_shouldBuy := fun _ => Throw "boom";
  ts_shouldSell := fun _ _ => Throw "boom";
  ts_calculatePositionSize := fun _ => Throw "boom"
|}.

Definition samplePool : PumpSwapPoolInfo := {|
  poolId := "POOL"; baseMint := "MINT"; quoteMint := "WSOL";
  baseDecimals := 6; quoteDecimals := 9;
  baseReserve := 1000000000000; quoteReserve := 100000000000;
  lpSupply := 0; createdAt := 0
|}.

Definition samplePosition (value : Q) : Position Q := {|
  mint := "MINT"; pos_poolId := "POOL"; entryPrice := value; amount := 10000000;
  buyValue := value; timestamp := 0; strategy := MOMENTUM
|}.

Definition sampleConfig : Bot.Config Q := {|
  Bot.USE_SNIPE_LIST := false;
  Bot.MIN_POOL_SIZE := 1%Q;
  Bot.TRADING_STRATEGY := LIQUIDITY;
  Bot.maxConcurrentPositions := MAX_CONCURRENT_POSITIONS
|}.

(** The same with the allow-list switched on. *)
Definition snipingConfig : Bot.Config Q := {|
  Bot.USE_SNIPE_LIST := true;
  Bot.MIN_POOL_SIZE := 1%Q;
  Bot.TRADING_STRATEGY := LIQUIDITY;
  Bot.maxConcurrentPositions := MAX_CONCURRENT_POSITIONS
|}.

(** The same with a ceiling of two positions. *)
Definition ceilingTwoConfig : Bot.Config Q := {|
  Bot.USE_SNIPE_LIST := false;
  Bot.MIN_POOL_SIZE := 1%Q;
  Bot.TRADING_STRATEGY := LIQUIDITY;
  Bot.maxConcurrentPositions := 2
|}.

(** A discovery whose buy settles; [fresh] is what the price read after
    the buy sees. *)
Definition settledBuy (fresh : option PumpSwapPoolInfo) : Bot.BuyAnswers Q := {|
  Bot.ans_poolInfo := Some samplePool;
  Bot.ans_world := quietWorld;
  Bot.ans_buy := Some "SIG"%string;
  Bot.ans_freshPoolInfo := fresh;
  Bot.ans_now := 0
|}.

Definition drainedPool : PumpSwapPoolInfo := {|
  poolId := "POOL"; baseMint := "MINT"; quoteMint := "WSOL";
  baseDecimals := 6; quoteDecimals := 9;
  baseReserve := 0; quoteReserve := 100000000000;
  lpSupply := 0; createdAt := 0
|}.

(** A discovery whose pool account cannot be fetched. *)
Definition failedFetch : Bot.BuyAnswers Q := {|
  Bot.ans_poolInfo := None;
  Bot.ans_world := quietWorld;
  Bot.ans_buy := None;
  Bot.ans_freshPoolInfo := None;
  Bot.ans_now := 0
|}.

(** A monitoring iteration: price 2, with the given sell result. *)
Definition sellAttempt (result : option string) : Bot.SellAnswers Q := {|
  Bot.ans_currentPrice := Ret (Some 2%Q);
  Bot.ans_sellWorld := quietWorld;
  Bot.ans_sellPoolInfo := Some samplePool;
  Bot.ans_sell := result
|}.

Definition bookOf (positions : list (string * Position Q)) : Bot.State Q := {|
  Bot.existingPools := ∅;
  Bot.activePositions := list_to_map positions;
  Bot.snipeList := []
|}.

(** Calls a client of the strategy manager can make to reconfigure it. *)
Inductive ManagerCall (num : Type) :=
| CallSetActiveStrategy (strategyType : StrategyType)
| CallAddCustomStrategy (s : TradingStrategy num).
Arguments CallSetActiveStrategy {num} _.
Arguments CallAddCustomStrategy {num} _.

Definition reconfigure {num} `{JSNumber num} (m : StrategyManager.t num)
    (calls : list (ManagerCall num)) : StrategyManager.t num :=
  foldl
    (fun m call =>
       match call with
       | CallSetActiveStrategy strategyType =>
         StrategyManager.setActiveStrategy m strategyType
       | CallAddCustomStrategy s => StrategyManager.addCustomStrategy m s
       end)
    m calls.

(** Every policy is registered under its own tag, and the three built-in
    tags are registered. *)
Definition registry_ok {num} (strategies : gmap StrategyType (TradingStrategy num))
    : Prop :=
  (forall tag s, strategies !! tag = Some s -> ts_type s = tag)
  /\ is_Some (strategies !! MOMENTUM)
  /\ is_Some (strategies !! VOLUME)
  /\ is_Some (strategies !! LIQUIDITY).

(** A policy that answers with constants. *)
Definition constantStrategy (tag : StrategyType) (buy sell : bool) (size : Z)
    : TradingStrategy Q := {|
  ts_type := tag;
  ts_shouldBuy := fun _ => Ret buy;
  ts_shouldSell := fun _ _ => Ret sell;
  ts_calculatePositionSize := fun _ => Ret size
|}.

(** A configuration whose strategy tag names no built-in policy. *)
Definition untaggedConfig : Bot.Config Q := {|
  Bot.USE_SNIPE_LIST := false;
  Bot.MIN_POOL_SIZE := 1%Q;
  Bot.TRADING_STRATEGY := CUSTOM;
  Bot.maxConcurrentPositions := MAX_CONCURRENT_POSITIONS
|}.

(** Calls made on a Momentum policy: [shouldBuy] with what the price lookup
    produced, and [clearHistory]. *)
Inductive MomentumCall (num : Type) :=
| CallMomentumShouldBuy (poolInfo : PumpSwapPoolInfo) (currentPrice : Exc (option num))
| CallClearHistory (mintAddress : string).
Arguments CallMomentumShouldBuy {num} _ _.
Arguments CallClearHistory {num} _.

(** The price history after a sequence of calls. *)
Definition history_after {num} `{JSNumber num} (cfg : Momentum.Config num)
    (priceHistory : gmap string (list num)) (calls : list (MomentumCall num))
    : gmap string (list num) :=
  foldl
    (fun priceHistory call =>
       match call with
       | CallMomentumShouldBuy poolInfo currentPrice =>
         snd (Momentum.shouldBuy cfg priceHistory poolInfo currentPrice)
       | CallClearHistory mintAddress => Momentum.clearHistory priceHistory mintAddress
       end)
    priceHistory calls.

(** The last three recorded prices are strictly decreasing. *)
Definition last_three_falling {num} `{JSNumber num} (history : list num) : Prop :=
  exists earlier a b c,
    history = earlier ++ [a; b; c] /\ nltb b a = true /\ nltb c b = true.

(** Every stored window is non-empty, no longer than the look-back period,
    and holds only truthy prices. *)
Definition windows_ok {num} `{JSNumber num} (cfg : Momentum.Config num)
    (priceHistory : gmap string (list num)) : Prop :=
  forall mintAddress history,
    priceHistory !! mintAddress = Some history ->
    (1 <= length history)%nat
    /\ Z.of_nat (length history) <= Momentum.lookbackPeriod cfg
    /\ Forall (fun price => truthy price = true) history.

(** A Momentum configuration that keeps no look-back window. *)
Definition zeroLookback : Momentum.Config Q := {|
  Momentum.momentumThreshold := 10%Q;
  Momentum.lookbackPeriod := 0;
  Momentum.takeProfitPercent := 50%Q;
  Momentum.stopLossPercent := 30%Q
|}.

(** Six observations of MINT at rising prices. *)
Definition risingPrices : list (MomentumCall Q) :=
  map (fun price => CallMomentumShouldBuy samplePool (Ret (Some (inject_Z price))))
      [1; 2; 3; 4; 5; 6].

(** Market data with rising volume and a rising price. *)
Definition busyMarket : Volume.TokenData Q := {|
  Volume.volume_h24 := Some 50000%Q;
  Volume.volume_h6 := Some 6000%Q;
  Volume.volume_h1 := Some 2000%Q;
  Volume.liquidity_usd := Some 8000%Q;
  Volume.priceChange_h1 := Some 3%Q
|}.

(** The pool snapshot handed to the buy path is one that [getPoolInfo]
    can produce. *)
Definition snapshot_from_getPoolInfo (snapshot : option PumpSwapPoolInfo) : Prop :=
  exists PublicKey now poolId' accountInfo,
    match PumpSwapExecution.getPoolInfo PublicKey now poolId' accountInfo with
    | PumpSwapExecution.FetchedNull => snapshot = None
    | PumpSwapExecution.FetchedPool poolInfo => snapshot = Some poolInfo
    | PumpSwapExecution.FetchedWithoutDecimals => False
    end.

(** Every discovery event of the run carries such a snapshot. *)
Definition discoveries_from_getPoolInfo {num} (evs : list (Bot.Event num)) : Prop :=
  Forall
    (fun ev =>
       match ev with
       | Bot.PoolAccountChange _ a => snapshot_from_getPoolInfo (Bot.ans_poolInfo a)
       | _ => True
       end)
    evs.

(** A library key constructor that accepts up to 32 bytes. *)
Definition sampleKey (bytes : list Z) : Exc string :=
  if (32 <? length bytes)%nat then Throw "Invalid public key input"
  else Ret (match bytes with 1 :: _ => "MINT" | _ => "KEY" end)%string.

(** Account data of 256 bytes. *)
Definition sampleAccount : list Z :=
  repeat 0 8 ++ repeat 1 32 ++ repeat 2 128 ++ [6; 9; 2] ++ repeat 255 85.

(** A discovery whose snapshot is what [getPoolInfo] makes of that account,
    and whose buy would settle. *)
Definition fetchedBuy : Bot.BuyAnswers Q := {|
  Bot.ans_poolInfo :=
    match PumpSwapExecution.getPoolInfo sampleKey 0 "POOL" (Ret (Some sampleAccount)) with
    | PumpSwapExecution.FetchedPool poolInfo => Some poolInfo
    | _ => None
    end;
  Bot.ans_world := quietWorld;
  Bot.ans_buy := Some "SIG"%string;
  Bot.ans_freshPoolInfo := None;
  Bot.ans_now := 0
|}.

(** The unsigned 64-bit little-endian integer stored at [offset]. *)
Definition read_u64_le (offset : nat) (buf : list Z) : Z :=
  foldr (fun i acc => acc + nth (offset + i) buf 0 * 2 ^ (8 * Z.of_nat i)) 0 (seq 0 8).

(** A world in which every step of a swap succeeds. *)
Definition smoothSwap : PumpSwapExecution.SwapAnswers := {|
  PumpSwapExecution.ans_tokenAccounts := Ret tt;
  PumpSwapExecution.ans_latestBlockhash := Ret "HASH"%string;
  PumpSwapExecution.ans_signedTransaction := Ret tt;
  PumpSwapExecution.ans_sendRawTransaction := Ret "SIG"%string;
  PumpSwapExecution.ans_confirmation := Ret None
|}.

(** [lines.join('\n')] *)
Fixpoint join_lines (lines : list (list Z)) : list Z :=
  match lines with
  | [] => []
  | [line] => line
  | line :: rest => line ++ 10 :: join_lines rest
  end.

(** A list entry as the allow-list keeps it: not empty, no white space at
    either end, no line break inside. *)
Definition clean_entry (entry : list Z) : Prop :=
  (exists first rest, entry = first :: rest /\ SnipeList.is_whitespace first = false)
  /\ (exists front final, entry = front ++ [final]
                          /\ SnipeList.is_whitespace final = false)
  /\ 10 ∉ entry.

(** A required variable is usable: set, not empty, and not the [XXXX]
    placeholder of the example file. *)
Definition configured (env : gmap string string) (varName : string) : Prop :=
  exists value,
    env !! varName = Some value /\ value <> ""%string
    /\ SetupCheck.includes "XXXX" value = false.

(** How many results of [results] have the given status. *)
Definition count_status (st : SetupCheck.Status) (results : list SetupCheck.CheckResult)
    : nat :=
  length (List.filter
            (fun r => match SetupCheck.status r, st with
                      | SetupCheck.pass, SetupCheck.pass => true
                      | SetupCheck.fail, SetupCheck.fail => true
                      | SetupCheck.warn, SetupCheck.warn => true
                      | _, _ => false
                      end) results).

(** An environment copied from the example file, key left as placeholder. *)
Definition exampleEnv : gmap string string :=
  list_to_map
    [("PRIVATE_KEY", "XXXXXXXX"); ("RPC_ENDPOINT", "https://rpc.example");
     ("RPC_WEBSOCKET_ENDPOINT", "wss://rpc.example"); ("QUOTE_MINT", "WSOL");
     ("QUOTE_AMOUNT", "0.01"); ("COMMITMENT_LEVEL", "confirmed")]%string.

(** Every run of the schedule reads the price after its buy from a snapshot
    that [getPoolInfo] can produce, as [getCurrentPrice] does. *)
Definition price_reads_from_getPoolInfo {num} (evs : list (Overlap.Step num)) : Prop :=
  Forall
    (fun ev =>
       match ev with
       | Overlap.GatesReached _ a => snapshot_from_getPoolInfo (Bot.ans_freshPoolInfo a)
       | _ => True
       end)
    evs.

(** No deletion is pending, and every position stored or about to be
    stored has entry price and buy value 0. *)
Definition unpriced (s : Overlap.State Q) : Prop :=
  Overlap.selling s = []
  /\ (forall k pos, Bot.activePositions (Overlap.bot s) !! k = Some pos ->
                    entryPrice pos = 0%Q /\ buyValue pos = 0%Q)
  /\ (forall pos, pos ∈ Overlap.buying s -> entryPrice pos = 0%Q /\ buyValue pos = 0%Q).

(** The sample pool with another token as its base mint, and a discovery
    of it whose buy settles. *)
Definition poolOf (mintAddress : string) : PumpSwapPoolInfo := {|
  poolId := "POOL"; baseMint := mintAddress; quoteMint := "WSOL";
  baseDecimals := 6; quoteDecimals := 9;
  baseReserve := 1000000000000; quoteReserve := 100000000000;
  lpSupply := 0; createdAt := 0
|}.

Definition buyOf (mintAddress : string) : Bot.BuyAnswers Q := {|
  Bot.ans_poolInfo := Some (poolOf mintAddress);
  Bot.ans_world := quietWorld;
  Bot.ans_buy := Some "SIG"%string;
  Bot.ans_freshPoolInfo := None;
  Bot.ans_now := 0
|}.

(** One run to completion, then three runs that all pass their gates
    before any of them stores its position. *)
Definition overlappingBuys : list (Overlap.Step Q) :=
  [Overlap.Discovered "P1"; Overlap.GatesReached 0 (buyOf "M1");
   Overlap.PositionStored 0;
   Overlap.Discovered "P2"; Overlap.Discovered "P3"; Overlap.Discovered "P4";
   Overlap.GatesReached 0 (buyOf "M2"); Overlap.GatesReached 0 (buyOf "M3");
   Overlap.GatesReached 0 (buyOf "M4");
   Overlap.PositionStored 0; Overlap.PositionStored 0; Overlap.PositionStored 0]%string.

(** A visit whose sell would settle, a discovery of the same token run to
    completion, and an attempt to delete. *)
Definition visitAndRediscover : list (Overlap.Step Q) :=
  [Overlap.EntryVisited "MINT" (sellAttempt (Some "SIG"));
   Overlap.Discovered "POOL"; Overlap.GatesReached 0 (settledBuy None);
   Overlap.PositionStored 0; Overlap.EntryDeleted 0]%string.

(** A buy run to completion whose price read after the buy fails. *)
Definition settledBuyRun : list (Overlap.Step Q) :=
  [Overlap.Discovered "POOL"; Overlap.GatesReached 0 (settledBuy None);
   Overlap.PositionStored 0]%string.

(** A visit of the MINT entry whose sell would settle, and an attempt to
    delete. *)
Definition visitToSell : list (Overlap.Step Q) :=
  [Overlap.EntryVisited "MINT" (sellAttempt (Some "SIG")); Overlap.EntryDeleted 0]%string.

(** * Verification *)

(** ** Position sizing *)

Section PositionSize.

Lemma momentum_size_eq (p : PumpSwapPoolInfo) :
  Momentum.calculatePositionSize p = Z.max (Z.quot (quoteReserve p) 100) 10000000.
Proof.
  unfold Momentum.calculatePositionSize.
  destruct (Z.gtb_spec (Z.quot (quoteReserve p) 100) 10000000); lia.
Qed.

Lemma volume_size_range (p : PumpSwapPoolInfo) :
  10000000 <= Volume.calculatePositionSize p <= 1000000000.
Proof.
  unfold Volume.calculatePositionSize.
  destruct (Z.ltb_spec (Z.quot (quoteReserve p) 50) 10000000); [lia|].
  destruct (Z.gtb_spec (Z.quot (quoteReserve p) 50) 1000000000); lia.
Qed.

Lemma liquidity_size_range (p : PumpSwapPoolInfo) :
  10000000 <= Liquidity.calculatePositionSize p <= 500000000.
Proof.
  unfold Liquidity.calculatePositionSize.
  destruct (Z.ltb_spec (Z.quot (quoteReserve p) 200) 10000000); [lia|].
  destruct (Z.gtb_spec (Z.quot (quoteReserve p) 200) 500000000); lia.
Qed.

End PositionSize.

(** C9, as stated, fails for Momentum: its size has a floor but no ceiling,
    so no maximum bounds it over all pools with non-negative reserves. *)
Lemma C9_momentum_size_has_no_maximum :
  ~ (exists hi : Z, forall p : PumpSwapPoolInfo,
        0 <= quoteReserve p -> Momentum.calculatePositionSize p <= hi).
Proof.
  intros [hi Hhi].
  pose (p := {| poolId := "pool"; baseMint := "mint"; quoteMint := "wsol";
                baseDecimals := 6; quoteDecimals := 9; baseReserve := 1;
                quoteReserve := 100 * (Z.max hi 10000000 + 1);
                lpSupply := 0; createdAt := 0 |}).
  specialize (Hhi p). rewrite momentum_size_eq in Hhi. cbn [quoteReserve p] in Hhi.
  rewrite Z.mul_comm, Z.quot_mul in Hhi by lia.
  lia.
Qed.

(** C9 (amended): every strategy's position size is a function of the quote
    reserve alone and is never below the minimum 10_000_000; Volume never
    exceeds 1_000_000_000 and Liquidity never exceeds 500_000_000; Momentum
    is the larger of quoteReserve / 100 and the minimum, with no maximum. *)
Theorem C9_position_size_bounds (p : PumpSwapPoolInfo) :
  (Momentum.calculatePositionSize p = Z.max (Z.quot (quoteReserve p) 100) 10000000
   /\ 10000000 <= Momentum.calculatePositionSize p)
  /\ 10000000 <= Volume.calculatePositionSize p <= 1000000000
  /\ 10000000 <= Liquidity.calculatePositionSize p <= 500000000
  /\ (forall p' : PumpSwapPoolInfo,
        quoteReserve p' = quoteReserve p ->
        Momentum.calculatePositionSize p' = Momentum.calculatePositionSize p
        /\ Volume.calculatePositionSize p' = Volume.calculatePositionSize p
        /\ Liquidity.calculatePositionSize p' = Liquidity.calculatePositionSize p).
Proof.
  repeat split.
  - apply momentum_size_eq.
  - rewrite momentum_size_eq. lia.
  - apply volume_size_range.
  - apply volume_size_range.
  - apply liquidity_size_range.
  - apply liquidity_size_range.
  - unfold Momentum.calculatePositionSize. now rewrite H.
  - unfold Volume.calculatePositionSize. now rewrite H.
  - unfold Liquidity.calculatePositionSize. now rewrite H.
Qed.

(** Two pools with the same quote reserve and different base reserves get
    the same sizes. *)
Lemma C9_position_size_bounds_witness :
  Momentum.calculatePositionSize drainedPool = Momentum.calculatePositionSize samplePool
  /\ Volume.calculatePositionSize drainedPool = Volume.calculatePositionSize samplePool
  /\ Liquidity.calculatePositionSize drainedPool
     = Liquidity.calculatePositionSize samplePool.
Proof.
  destruct (C9_position_size_bounds samplePool) as (_ & _ & _ & Hsame).
  apply Hsame. reflexivity.
Defined.

(** ** Price impact *)

(** The probe of the spec: the bigint part gives amountOut = 90_702_432 and
    exactQuote = 100_000_000. *)
Lemma price_impact_probe :
  Liquidity.calculatePriceImpact (num := Q) 100000000 1000000000 1000000000
  = Ret (Qmult (Qdiv (inject_Z 9297568) (inject_Z 100000000)) (inject_Z 100)).
Proof. reflexivity. Qed.

(** C3, as stated, fails: the computed impact is not 9.06 up to rounding; it
    is not even within 0.2 of it. *)
Lemma C3_price_impact_is_not_9_06 :
  ~ (exists v : Q,
        Liquidity.calculatePriceImpact (num := Q) 100000000 1000000000 1000000000 = Ret v
        /\ (Qabs (v - Qmake 906 100) <= Qmake 2 10)%Q).
Proof.
  intros [v [Hv Habs]]. rewrite price_impact_probe in Hv.
  injection Hv as <-. vm_compute in Habs. apply Habs. reflexivity.
Qed.

(** C3 (amended): for reserveIn = reserveOut = 1_000_000_000 and
    amountIn = 100_000_000 with the 0.25% fee, the price impact is
    9.297568 percent, that is about 9.30. *)
Theorem C3_price_impact_value :
  exists v : Q,
    Liquidity.calculatePriceImpact (num := Q) 100000000 1000000000 1000000000 = Ret v
    /\ (v == Qmake 9297568 1000000)%Q
    /\ (Qabs (v - Qmake 930 100) <= Qmake 1 100)%Q.
Proof.
  eexists. split; [apply price_impact_probe|].
  split; [reflexivity|]. vm_compute. discriminate.
Qed.

(** ** The strategy manager isolates faults of the active policy *)

Section ManagerFaults.
Context {num : Type} `{JSNumber num}.

Lemma manager_shouldBuy_returns (m : StrategyManager.t num) (p : PumpSwapPoolInfo) :
  exists b, StrategyManager.shouldBuy m p = Ret b.
Proof.
  unfold StrategyManager.shouldBuy.
  destruct (StrategyManager.getActiveStrategy m) as [s|]; [|eauto].
  destruct (ts_shouldBuy s p); cbn; eauto.
Qed.

Lemma manager_shouldSell_returns (m : StrategyManager.t num)
    (pos : Position num) (price : num) :
  exists b, StrategyManager.shouldSell m pos price = Ret b.
Proof.
  unfold StrategyManager.shouldSell.
  destruct (StrategyManager.getActiveStrategy m) as [s|]; [|eauto].
  destruct (ts_shouldSell s pos price); cbn; eauto.
Qed.

Lemma manager_size_returns (m : StrategyManager.t num) (p : PumpSwapPoolInfo) :
  exists z, StrategyManager.calculatePositionSize m p = Ret z.
Proof.
  unfold StrategyManager.calculatePositionSize.
  destruct (StrategyManager.getActiveStrategy m) as [s|]; [|eauto].
  destruct (ts_calculatePositionSize s p); cbn; eauto.
Qed.

(** C5: when the active strategy's shouldBuy / shouldSell throws, the
    manager returns false; when its calculatePositionSize throws, the
    manager returns 10_000_000; in no case does the manager throw. *)
Theorem C5_manager_fail_closed (m : StrategyManager.t num)
    (s : TradingStrategy num) (p : PumpSwapPoolInfo)
    (pos : Position num) (price : num) :
  StrategyManager.getActiveStrategy m = Some s ->
  ((exists e, ts_shouldBuy s p = Throw e) ->
     StrategyManager.shouldBuy m p = Ret false)
  /\ ((exists e, ts_shouldSell s pos price = Throw e) ->
     StrategyManager.shouldSell m pos price = Ret false)
  /\ ((exists e, ts_calculatePositionSize s p = Throw e) ->
     StrategyManager.calculatePositionSize m p = Ret 10000000)
  /\ (forall e, StrategyManager.shouldBuy m p <> Throw e)
  /\ (forall e, StrategyManager.shouldSell m pos price <> Throw e)
  /\ (forall e, StrategyManager.calculatePositionSize m p <> Throw e).
Proof.
  intros Hs. repeat split.
  - intros [e He]. unfold StrategyManager.shouldBuy. now rewrite Hs, He.
  - intros [e He]. unfold StrategyManager.shouldSell. now rewrite Hs, He.
  - intros [e He]. unfold StrategyManager.calculatePositionSize. now rewrite Hs, He.
  - intros e He. destruct (manager_shouldBuy_returns m p) as [b Hb]. congruence.
  - intros e He. destruct (manager_shouldSell_returns m pos price) as [b Hb]. congruence.
  - intros e He. destruct (manager_size_returns m p) as [z Hz]. congruence.
Qed.

End ManagerFaults.

(** A manager whose active policy throws in all three methods. *)
Lemma C5_manager_fail_closed_witness :
  let m := StrategyManager.addCustomStrategy
             (StrategyManager.new quietWorld CUSTOM) faultyStrategy in
  StrategyManager.shouldBuy m samplePool = Ret false
  /\ StrategyManager.shouldSell m (samplePosition 1) 2%Q = Ret false
  /\ StrategyManager.calculatePositionSize m samplePool = Ret 10000000.
Proof.
  intros m.
  destruct (C5_manager_fail_closed m faultyStrategy samplePool (samplePosition 1) 2%Q)
    as (Hb & Hs & Hz & _).
  - vm_compute. reflexivity.
  - split; [apply Hb; exists "boom"%string; reflexivity|].
    split; [apply Hs; exists "boom"%string; reflexivity|].
    apply Hz; exists "boom"%string; reflexivity.
Defined.

(** ** The manager built by the bot *)

Section BuiltinManager.
Context {num : Type} `{JSNumber num}.

Lemma new_active_strategy (w : StrategyManager.World num) (ty : StrategyType) :
  StrategyManager.getActiveStrategy (StrategyManager.new w ty)
  = match ty with
    | MOMENTUM => Some (StrategyManager.momentumStrategy w)
    | VOLUME => Some (StrategyManager.volumeStrategy w)
    | LIQUIDITY => Some (StrategyManager.liquidityStrategy w)
    | CUSTOM => None
    end.
Proof.
  unfold StrategyManager.getActiveStrategy, StrategyManager.new,
    StrategyManager.initializeStrategies.
  cbn [StrategyManager.strategies StrategyManager.activeStrategy].
  destruct ty.
  - rewrite !lookup_insert_ne by discriminate. apply lookup_insert_eq.
  - rewrite lookup_insert_ne by discriminate. apply lookup_insert_eq.
  - apply lookup_insert_eq.
  - rewrite !lookup_insert_ne by discriminate. apply lookup_empty.
Qed.

End BuiltinManager.

(** ** Exit decisions on a position without a usable entry value *)

Section NoExitOnZero.
Context {num : Type} `{JSNumber num}.

Lemma sell_guard_closed (pos : Position num) (price : num) :
  truthy (buyValue pos) = false \/ is_zero price = true ->
  negb (truthy (buyValue pos)) || is_zero price = true.
Proof. intros [-> | ->]; [reflexivity | apply orb_true_r]. Qed.

Lemma builtin_shouldSell_guard (w : StrategyManager.World num) (ty : StrategyType)
    (pos : Position num) (price : num) :
  truthy (buyValue pos) = false \/ is_zero price = true ->
  StrategyManager.shouldSell (StrategyManager.new w ty) pos price = Ret false.
Proof.
  intros Hz. apply sell_guard_closed in Hz.
  unfold StrategyManager.shouldSell. rewrite new_active_strategy.
  destruct ty; cbn;
    unfold Momentum.shouldSell, Volume.shouldSell, Liquidity.shouldSell;
    rewrite ?Hz; reflexivity.
Qed.

(** C10: if the recorded buy value is falsy (0, NaN) or the current price
    is exactly 0, shouldSell of Momentum, Volume and Liquidity is false
    whatever the thresholds, price history, market data and clock; so an
    iteration of the monitoring loop that observes this price leaves the
    book as it is. *)
Theorem C10_no_exit_without_entry_value (pos : Position num) (price : num) :
  truthy (buyValue pos) = false \/ is_zero price = true ->
  (forall cfg history, Momentum.shouldSell cfg history pos price = false)
  /\ (forall cfg tokenData, Volume.shouldSell cfg tokenData pos price = false)
  /\ (forall cfg now, Liquidity.shouldSell cfg now pos price = false)
  /\ (forall cfg a book mintAddress,
        Bot.ans_currentPrice a = Ret (Some price) ->
        fst (Bot.monitorPosition cfg a book mintAddress pos) = book).
Proof.
  intros Hz. pose proof (sell_guard_closed pos price Hz) as Hg.
  repeat split.
  - intros cfg history. unfold Momentum.shouldSell. now rewrite Hg.
  - intros cfg tokenData. unfold Volume.shouldSell. now rewrite Hg.
  - intros cfg now. unfold Liquidity.shouldSell. now rewrite Hg.
  - intros cfg a book mintAddress Hp. unfold Bot.monitorPosition. rewrite Hp.
    destruct (truthy price); [|reflexivity]. cbn [negb].
    now rewrite builtin_shouldSell_guard.
Qed.

End NoExitOnZero.

(** Entry value 0 with the price doubled and the hour elapsed; price 0. *)
Lemma C10_no_exit_without_entry_value_witness :
  Momentum.shouldSell Momentum.defaults ∅ (samplePosition 0) 2%Q = false
  /\ Volume.shouldSell Volume.defaults None (samplePosition 1) 0%Q = false
  /\ Liquidity.shouldSell Liquidity.defaults 7200000 (samplePosition 0) 2%Q = false.
Proof.
  split; [|split].
  - apply (C10_no_exit_without_entry_value (samplePosition 0) 2%Q).
    left. reflexivity.
  - apply (C10_no_exit_without_entry_value (samplePosition 1) 0%Q).
    right. reflexivity.
  - apply (C10_no_exit_without_entry_value (samplePosition 0) 2%Q).
    left. reflexivity.
Defined.

(** ** Momentum: take-profit trigger *)

Section SliceFacts.
Context {A : Type}.

Lemma slice_from_last3 (pre : list A) (a b c : A) :
  slice_from (-3) (pre ++ [a; b; c]) = [a; b; c].
Proof.
  unfold slice_from. rewrite length_app. cbn [length].
  replace (_ <? 0) with true by reflexivity.
  replace (Z.to_nat _) with (length pre) by lia.
  now rewrite drop_app_length.
Qed.

Lemma split_last3 (l : list A) :
  (3 <= length l)%nat -> exists pre a b c, l = pre ++ [a; b; c].
Proof.
  intros Hl.
  exists (take (length l - 3) l).
  destruct (drop (length l - 3) l) as [|a [|b [|c [|d r]]]] eqn:Hd;
    pose proof (f_equal length Hd) as Hlen;
    rewrite length_drop in Hlen; cbn in Hlen; try lia.
  exists a, b, c. rewrite <- Hd. now rewrite take_drop.
Qed.

End SliceFacts.

(** C8: Momentum with takeProfit = 50 and stopLoss = 30, entry value 1.0:
    at current price 1.5 shouldSell is true; at 1.49 it is false unless the
    last three recorded prices of the token are strictly decreasing. *)
Theorem C8_momentum_take_profit (cfg : Momentum.Config Q)
    (history : gmap string (list Q)) (pos : Position Q) :
  Momentum.takeProfitPercent cfg = 50%Q ->
  Momentum.stopLossPercent cfg = 30%Q ->
  buyValue pos = 1%Q ->
  Momentum.shouldSell cfg history pos (Qmake 15 10) = true
  /\ ((forall pre a b c,
         default [] (history !! mint pos) = pre ++ [a; b; c] ->
         ~ (b < a /\ c < b)%Q) ->
      Momentum.shouldSell cfg history pos (Qmake 149 100) = false).
Proof.
  intros Htp Hsl Hbv. split.
  - unfold Momentum.shouldSell. rewrite Hbv, Htp. reflexivity.
  - intros Hno. unfold Momentum.shouldSell. rewrite Hbv, Htp, Hsl.
    remember (3 <=? Z.of_nat (length (default [] (history !! mint pos)))) as long eqn:Hlong.
    remember (Momentum.every_below_previous None
                (slice_from (-3) (default [] (history !! mint pos)))) as down eqn:Hdown.
    destruct long; [|reflexivity].
    destruct down; [|reflexivity].
    exfalso. symmetry in Hlong. apply Z.leb_le in Hlong.
    destruct (split_last3 (default [] (history !! mint pos))) as (pre & a & b & c & Hh);
      [lia|].
    rewrite Hh, slice_from_last3 in Hdown. cbn in Hdown.
    symmetry in Hdown. rewrite andb_true_r in Hdown.
    apply andb_true_iff in Hdown as [Hba Hcb].
    apply negb_true_iff in Hba, Hcb.
    apply (Hno pre a b c Hh). split; apply Qnot_le_lt; intros Hle;
      apply Qle_bool_iff in Hle; congruence.
Qed.

(** The default thresholds, entry value 1 and no recorded history. *)
Lemma C8_momentum_take_profit_witness :
  Momentum.shouldSell Momentum.defaults ∅ (samplePosition 1) (Qmake 15 10) = true
  /\ Momentum.shouldSell Momentum.defaults ∅ (samplePosition 1) (Qmake 149 100) = false.
Proof.
  assert (Htp : Momentum.takeProfitPercent (Momentum.defaults (num := Q)) = 50%Q)
    by reflexivity.
  assert (Hsl : Momentum.stopLossPercent (Momentum.defaults (num := Q)) = 30%Q)
    by reflexivity.
  assert (Hbv : buyValue (samplePosition 1) = 1%Q) by reflexivity.
  destruct (C8_momentum_take_profit Momentum.defaults ∅ (samplePosition 1)
              Htp Hsl Hbv) as [Hsell Hhold].
  split; [exact Hsell|].
  apply Hhold. intros pre a b c Hh. rewrite lookup_empty in Hh. cbn in Hh.
  destruct pre; discriminate.
Defined.

(** ** Momentum: the buy rule over the sliding window *)

Section MomentumBuy.
Context {num : Type} `{JSNumber num}.

Lemma window_is_recent (lookback : Z) (history : list num) :
  0 < lookback ->
  (if Z.of_nat (length history) >? lookback
   then slice_from (- lookback) history else history)
  = recent (Z.to_nat lookback) history.
Proof.
  intros Hpos. unfold recent, slice_from.
  destruct (Z.gtb_spec (Z.of_nat (length history)) lookback) as [Hgt|Hle].
  - destruct (Z.ltb_spec (- lookback) 0) as [_|?]; [|lia].
    f_equal. lia.
  - replace (length history - Z.to_nat lookback)%nat with 0%nat by lia.
    reflexivity.
Qed.

Lemma recent_snoc (n : nat) (old : list num) (p : num) :
  (0 < n)%nat ->
  recent n (old ++ [p]) = recent (n - 1) old ++ [p].
Proof.
  intros Hn. unfold recent. rewrite length_app. cbn [length].
  replace (length old + 1 - n)%nat with (length old - (n - 1))%nat by lia.
  rewrite drop_app_le by lia. reflexivity.
Qed.

Lemma recent_length (n : nat) (history : list num) :
  length (recent n history) = Nat.min n (length history).
Proof. unfold recent. rewrite length_drop. lia. Qed.

Lemma shouldBuy_on_window (cfg : Momentum.Config num)
    (priceHistory : gmap string (list num)) (poolInfo : PumpSwapPoolInfo) (p : num) :
  0 < Momentum.lookbackPeriod cfg ->
  truthy p = true ->
  let w := recent (Z.to_nat (Momentum.lookbackPeriod cfg))
             (default [] (priceHistory !! baseMint poolInfo) ++ [p]) in
  Momentum.shouldBuy cfg priceHistory poolInfo (Ret (Some p))
  = (if Z.of_nat (length w) <? 2 then false else
     match index w 0, index w (Z.of_nat (length w) - 2) with
     | Some oldestPrice, Some recentPrice =>
       if ngeb (percent_change p oldestPrice) (Momentum.momentumThreshold cfg)
       then ngtb (percent_change p recentPrice) (of_Z 0) else false
     | _, _ => false
     end,
     <[baseMint poolInfo := w]> priceHistory).
Proof.
  intros Hpos Htruthy w. unfold Momentum.shouldBuy.
  rewrite Htruthy. cbn [negb].
  rewrite window_is_recent by assumption. fold w.
  destruct (Z.of_nat (length w) <? 2); [reflexivity|].
  destruct (index w 0) as [o|]; [|reflexivity].
  destruct (index w (Z.of_nat (length w) - 2)) as [r|]; [|reflexivity].
  destruct (ngeb _ _); reflexivity.
Qed.

(** C7: with a positive window length, after appending an available
    current price p and keeping the most recent lookbackPeriod entries,
    the stored window w ends in p and is no longer than lookbackPeriod;
    if w has at least 2 entries, shouldBuy is true exactly when
    (p - oldest)/oldest*100 >= momentumThreshold and
    (p - second-latest)/second-latest*100 > 0; with fewer than 2 entries,
    or an unavailable current price, it is false. *)
Theorem C7_momentum_buy_rule (cfg : Momentum.Config num)
    (priceHistory : gmap string (list num)) (poolInfo : PumpSwapPoolInfo) (p : num) :
  0 < Momentum.lookbackPeriod cfg ->
  let old := default [] (priceHistory !! baseMint poolInfo) in
  let w := recent (Z.to_nat (Momentum.lookbackPeriod cfg)) (old ++ [p]) in
  let buy := Momentum.shouldBuy cfg priceHistory poolInfo in
  (truthy p = true ->
     snd (buy (Ret (Some p))) !! baseMint poolInfo = Some w
     /\ last w = Some p
     /\ Z.of_nat (length w) <= Momentum.lookbackPeriod cfg
     /\ ((2 <= length w)%nat ->
         exists oldest previous,
           head w = Some oldest
           /\ w !! (length w - 2)%nat = Some previous
           /\ (fst (buy (Ret (Some p))) = true <->
               ngeb (percent_change p oldest) (Momentum.momentumThreshold cfg) = true
               /\ ngtb (percent_change p previous) (of_Z 0) = true))
     /\ ((length w < 2)%nat -> fst (buy (Ret (Some p))) = false))
  /\ (truthy p = false -> buy (Ret (Some p)) = (false, priceHistory))
  /\ buy (Ret None) = (false, priceHistory)
  /\ (forall e, buy (Throw e) = (false, priceHistory)).
Proof.
  intros Hpos old w buy. split; [|split; [|split]].
  - intros Htruthy. unfold buy.
    rewrite shouldBuy_on_window by assumption. fold old. fold w.
    cbn [fst snd].
    assert (Hw : w = recent (Z.to_nat (Momentum.lookbackPeriod cfg) - 1) old ++ [p]).
    { unfold w. apply recent_snoc. lia. }
    split; [apply lookup_insert_eq|].
    split; [rewrite Hw; apply last_snoc|].
    split; [unfold w; rewrite recent_length; lia|].
    split.
    + intros Hlen.
      destruct (Z.ltb_spec (Z.of_nat (length w)) 2) as [?|_]; [lia|].
      destruct w as [|oldest rest] eqn:Ew; [cbn in Hlen; lia|].
      destruct (lookup_lt_is_Some_2 (oldest :: rest) (length (oldest :: rest) - 2))
        as [previous Hprev]; [cbn [length] in *; lia|].
      exists oldest, previous. split; [reflexivity|]. split; [exact Hprev|].
      unfold index. cbn [Z.ltb Z.to_nat lookup].
      replace (0 <? 0) with false by reflexivity.
      change ((oldest :: rest) !! Z.to_nat 0) with (Some oldest).
      destruct (Z.ltb_spec (Z.of_nat (length (oldest :: rest)) - 2) 0) as [?|_]; [lia|].
      replace (Z.to_nat (Z.of_nat (length (oldest :: rest)) - 2))
        with (length (oldest :: rest) - 2)%nat by lia.
      rewrite Hprev.
      destruct (ngeb (percent_change p oldest) (Momentum.momentumThreshold cfg)).
      * split; [intros ->; split; reflexivity | intros [_ ->]; reflexivity].
      * split; [discriminate | intros [? _]; discriminate].
    + intros Hlen.
      destruct (Z.ltb_spec (Z.of_nat (length w)) 2) as [_|?]; [reflexivity|lia].
  - intros Hfalsy. unfold buy, Momentum.shouldBuy. now rewrite Hfalsy.
  - reflexivity.
  - reflexivity.
Qed.

End MomentumBuy.

(** History [1], current price 2: momentum 100 and last step 100. *)
Lemma C7_momentum_buy_rule_witness :
  fst (Momentum.shouldBuy Momentum.defaults {["MINT"%string := [1%Q]]} samplePool
         (Ret (Some 2%Q))) = true
  /\ Momentum.shouldBuy Momentum.defaults {["MINT"%string := [1%Q]]} samplePool (Ret None)
     = (false, {["MINT"%string := [1%Q]]}).
Proof.
  assert (Hpos : 0 < Momentum.lookbackPeriod (Momentum.defaults (num := Q)))
    by reflexivity.
  destruct (C7_momentum_buy_rule Momentum.defaults {["MINT"%string := [1%Q]]}
              samplePool 2%Q Hpos) as (Hbuy & _ & Hnone & _).
  split; [|exact Hnone].
  assert (Htruthy : truthy 2%Q = true) by reflexivity.
  destruct (Hbuy Htruthy) as (_ & _ & _ & Hrule & _).
  destruct Hrule as (oldest & previous & Ho & Hp & Hiff).
  - vm_compute. lia.
  - apply Hiff.
    vm_compute in Ho. injection Ho as <-.
    vm_compute in Hp. injection Hp as <-.
    split; reflexivity.
Defined.

(** ** Pool registry: each pool is processed once per run *)

Section PoolRegistry.
Context {num : Type} `{JSNumber num}.
Variable cfg : Bot.Config num.

Lemma process_keeps_pools (a : Bot.BuyAnswers num) (st : Bot.State num) (pid : string) :
  Bot.existingPools (Bot.res_state (Bot.processPumpSwapPool cfg a st pid))
  = Bot.existingPools st.
Proof.
  unfold Bot.processPumpSwapPool.
  repeat (match goal with
          | |- context [match ?x with _ => _ end] => destruct x
          end; try reflexivity).
Qed.

Lemma monitor_keeps_pools (answers : string -> Bot.SellAnswers num) (st : Bot.State num) :
  Bot.existingPools (fst (Bot.monitorPositions cfg answers st)) = Bot.existingPools st.
Proof.
  unfold Bot.monitorPositions.
  destruct (Z.of_nat (size (Bot.activePositions st)) =? 0); [reflexivity|].
  destruct (Bot.monitorLoop _ _ _ _) as [book log]. reflexivity.
Qed.

Lemma step_pools_grow (st : Bot.State num) (ev : Bot.Event num) (k : string) :
  k ∈ Bot.existingPools st -> k ∈ Bot.existingPools (Bot.step cfg st ev).
Proof.
  intros Hk. destruct ev as [key a|answers|file]; cbn [Bot.step].
  - unfold Bot.onProgramAccountChange.
    destruct (bool_decide (key ∈ Bot.existingPools st)); cbn [negb fst]; [exact Hk|].
    rewrite process_keeps_pools. cbn. now apply elem_of_union_r.
  - now rewrite monitor_keeps_pools.
  - destruct file; exact Hk.
Qed.

Lemma known_pool_never_processed (evs : list (Bot.Event num)) (st : Bot.State num)
    (P : string) :
  P ∈ Bot.existingPools st -> (P, true) ∉ Bot.deliveries cfg st evs.
Proof.
  revert st. induction evs as [|ev rest IH]; intros st HP; cbn [Bot.deliveries].
  - apply not_elem_of_nil.
  - rewrite elem_of_app. intros [Hhead|Htail].
    + destruct ev as [key a|answers|file]; try (now apply not_elem_of_nil in Hhead).
      apply list_elem_of_singleton in Hhead. injection Hhead as <- Hb.
      unfold Bot.onProgramAccountChange in Hb.
      rewrite (bool_decide_eq_true_2 _ HP) in Hb. cbn in Hb.
      discriminate Hb.
    + revert Htail. apply IH. now apply step_pools_grow.
Qed.

Lemma deliveries_keys (evs : list (Bot.Event num)) (st : Bot.State num) :
  (Bot.deliveries cfg st evs).*1 = delivered_pools evs.
Proof.
  revert st. induction evs as [|ev rest IH]; intros st; [reflexivity|].
  cbn [Bot.deliveries delivered_pools].
  destruct ev as [key a|answers|file]; cbn [app]; [|apply IH|apply IH].
  rewrite fmap_cons. cbn [fst]. f_equal. apply IH.
Qed.

Lemma first_delivery_processed (evs : list (Bot.Event num)) (st : Bot.State num)
    (P : string) :
  P ∉ Bot.existingPools st ->
  P ∈ delivered_pools evs ->
  exists before after,
    Bot.deliveries cfg st evs = before ++ (P, true) :: after
    /\ (P ∉ before.*1) /\ (P, true) ∉ after.
Proof.
  revert st. induction evs as [|ev rest IH]; intros st Hfresh Hin;
    cbn [Bot.deliveries delivered_pools] in *.
  - now apply not_elem_of_nil in Hin.
  - destruct ev as [key a|answers|file].
    + cbn [app]. destruct (decide (key = P)) as [->|Hne].
      * exists [], (Bot.deliveries cfg
                      (Bot.step cfg st (Bot.PoolAccountChange P a)) rest).
        split; [|split].
        -- cbn [app]. f_equal. f_equal.
           unfold Bot.onProgramAccountChange.
           rewrite (bool_decide_eq_false_2 _ Hfresh). cbn.
           reflexivity.
        -- apply not_elem_of_nil.
        -- apply known_pool_never_processed.
           cbn [Bot.step]. unfold Bot.onProgramAccountChange.
           rewrite (bool_decide_eq_false_2 _ Hfresh). cbn [negb fst].
           rewrite process_keeps_pools. cbn.
           now apply elem_of_union_l, elem_of_singleton.
      * apply elem_of_cons in Hin as [Heq|Hin]; [congruence|].
        destruct (IH (Bot.step cfg st (Bot.PoolAccountChange key a)))
          as (before & after & Heq & Hb & Ha); [|exact Hin|].
        -- cbn [Bot.step]. unfold Bot.onProgramAccountChange.
           destruct (bool_decide (key ∈ Bot.existingPools st));
             cbn [negb fst]; [exact Hfresh|].
           rewrite process_keeps_pools. cbn.
           rewrite not_elem_of_union, elem_of_singleton. split; congruence.
        -- eexists (_ :: before), after. rewrite Heq. split; [reflexivity|].
           split; [|exact Ha].
           rewrite fmap_cons. cbn [fst]. rewrite not_elem_of_cons. split; congruence.
    + cbn [app]. apply IH; [|exact Hin].
      cbn [Bot.step]. now rewrite monitor_keeps_pools.
    + cbn [app]. apply IH; [|exact Hin].
      destruct file; exact Hfresh.
Qed.

(** C1: starting with an empty registry, every delivery of the feed is
    answered, and if P is delivered at least once the answers split as:
    deliveries of other pools, then the first delivery of P, which is
    processed, then deliveries among which P is never processed again;
    whatever ticks and snipe-list reloads are interleaved, and whatever the
    outside world answers. *)
Theorem C1_pool_processed_once (evs : list (Bot.Event num)) (P : string) :
  P ∈ delivered_pools evs ->
  (Bot.deliveries cfg Bot.initial evs).*1 = delivered_pools evs
  /\ exists before after,
      Bot.deliveries cfg Bot.initial evs = before ++ (P, true) :: after
      /\ (P ∉ before.*1)
      /\ (P, true) ∉ after.
Proof.
  intros Hin. split; [apply deliveries_keys|].
  apply first_delivery_processed; [|exact Hin].
  cbn. apply not_elem_of_empty.
Qed.

End PoolRegistry.

(** A pool delivered twice around a tick: processed the first time only. *)
Lemma C1_pool_processed_once_witness :
  Bot.deliveries sampleConfig Bot.initial
    [Bot.PoolAccountChange "POOL" failedFetch;
     Bot.MonitorTick (fun _ => sellAttempt None);
     Bot.PoolAccountChange "POOL" (settledBuy None)]
  = [("POOL"%string, true); ("POOL"%string, false)]
  /\ exists before after,
      Bot.deliveries sampleConfig Bot.initial
        [Bot.PoolAccountChange "POOL" failedFetch;
         Bot.MonitorTick (fun _ => sellAttempt None);
         Bot.PoolAccountChange "POOL" (settledBuy None)]
      = before ++ ("POOL"%string, true) :: after
      /\ ("POOL"%string ∉ before.*1)
      /\ ("POOL"%string, true) ∉ after.
Proof.
  split; [reflexivity|].
  apply (C1_pool_processed_once sampleConfig).
  cbn. apply list_elem_of_here.
Defined.

(** ** Buy path: the order of the gates *)

Section BuyGates.
Context {num : Type} `{JSNumber num}.

Lemma shouldBuy_listed (cfg : Bot.Config num) (st : Bot.State num) (m : string) :
  Bot.shouldBuy cfg st m = true
  <-> Bot.USE_SNIPE_LIST cfg = false \/ m ∈ Bot.snipeList st.
Proof.
  unfold Bot.shouldBuy. destruct (Bot.USE_SNIPE_LIST cfg).
  - rewrite bool_decide_eq_true. split; [auto | intros [?|?]; [discriminate|auto]].
  - split; auto.
Qed.

(** C4 (amended): once the pool snapshot is fetched, the gates are tried
    in the order allow-list, open position for the token, position count
    against the ceiling, liquidity floor, strategy decision; the first one
    that fails ends the run with its own reason, the state unchanged and
    no later call made.  With ceiling 2 and two open positions, a token
    without a position is skipped at the allow-list or at the ceiling,
    and the strategy is not consulted. *)
Theorem C4_buy_gate_order (cfg : Bot.Config num) (a : Bot.BuyAnswers num)
    (st : Bot.State num) (pid : string) (poolInfo : PumpSwapPoolInfo) :
  Bot.ans_poolInfo a = Some poolInfo ->
  let m := baseMint poolInfo in
  let r := Bot.processPumpSwapPool cfg a st pid in
  let listed := Bot.USE_SNIPE_LIST cfg = false \/ m ∈ Bot.snipeList st in
  let free := Bot.activePositions st !! m = None in
  let room :=
    Z.of_nat (size (Bot.activePositions st)) < Bot.maxConcurrentPositions cfg in
  let liquid :=
    PumpSwapClient.hasMinimumLiquidity poolInfo (Bot.MIN_POOL_SIZE cfg) = true in
  let declined :=
    StrategyManager.shouldBuy
      (StrategyManager.new (Bot.ans_world a) (Bot.TRADING_STRATEGY cfg)) poolInfo
    = Ret false in
  (~ listed ->
     r = Bot.Build_BuyResult st Bot.NotInSnipeList [Bot.CallGetPoolInfo])
  /\ (listed -> ~ free ->
     r = Bot.Build_BuyResult st Bot.AlreadyHavePosition [Bot.CallGetPoolInfo])
  /\ (listed -> free -> ~ room ->
     r = Bot.Build_BuyResult st Bot.MaxPositionsReached [Bot.CallGetPoolInfo])
  /\ (listed -> free -> room -> ~ liquid ->
     r = Bot.Build_BuyResult st Bot.InsufficientLiquidity
           [Bot.CallGetPoolInfo; Bot.CallHasMinimumLiquidity])
  /\ (listed -> free -> room -> liquid -> declined ->
     r = Bot.Build_BuyResult st Bot.StrategyDeclined
           [Bot.CallGetPoolInfo; Bot.CallHasMinimumLiquidity;
            Bot.CallStrategyShouldBuy])
  /\ (Bot.maxConcurrentPositions cfg = 2 ->
      size (Bot.activePositions st) = 2%nat ->
      free ->
      Bot.res_state r = st
      /\ (Bot.CallStrategyShouldBuy ∉ Bot.res_calls r)
      /\ (Bot.res_outcome r = Bot.NotInSnipeList
          \/ Bot.res_outcome r = Bot.MaxPositionsReached)).
Proof.
  intros Hpool. cbv zeta.
  assert (Hsingle : Bot.CallStrategyShouldBuy ∉ [Bot.CallGetPoolInfo]).
  { intros Hin. apply list_elem_of_singleton in Hin. discriminate. }
  pose proof (shouldBuy_listed cfg st (baseMint poolInfo)) as Hlisted.
  unfold Bot.processPumpSwapPool. rewrite Hpool.
  destruct (Bot.shouldBuy cfg st (baseMint poolInfo)); cbn [negb].
  2:{ assert (Hl : ~ (Bot.USE_SNIPE_LIST cfg = false
                      \/ baseMint poolInfo ∈ Bot.snipeList st)).
      { intros Hl. apply Hlisted in Hl. discriminate. }
      repeat split; intros; tauto. }
  destruct (bool_decide (is_Some (Bot.activePositions st !! baseMint poolInfo)))
    eqn:Ef.
  1:{ apply bool_decide_eq_true in Ef. destruct Ef as [x Hx].
      repeat split; intros; try tauto; congruence. }
  apply bool_decide_eq_false in Ef.
  assert (Hf : Bot.activePositions st !! baseMint poolInfo = None).
  { destruct (Bot.activePositions st !! baseMint poolInfo);
      [exfalso; eauto | reflexivity]. }
  destruct (Z.geb_spec (Z.of_nat (size (Bot.activePositions st)))
              (Bot.maxConcurrentPositions cfg)) as [Er|Er].
  1:{ repeat split; intros; try tauto; exfalso; lia. }
  destruct (PumpSwapClient.hasMinimumLiquidity poolInfo (Bot.MIN_POOL_SIZE cfg));
    cbn [negb].
  2:{ repeat split; intros; try tauto; try (exfalso; lia); congruence. }
  repeat split; intros; try tauto; try (exfalso; lia); try congruence.
  match goal with
  | Hd : StrategyManager.shouldBuy _ _ = Ret false |- _ => now rewrite Hd
  end.
Qed.

End BuyGates.

(** Ceiling 2, positions A and B open, MINT discovered. *)
Lemma C4_buy_gate_order_witness :
  let st := bookOf [("A"%string, samplePosition 1); ("B"%string, samplePosition 1)] in
  Bot.processPumpSwapPool ceilingTwoConfig (settledBuy None) st "POOL"
  = Bot.Build_BuyResult st Bot.MaxPositionsReached [Bot.CallGetPoolInfo].
Proof.
  intros st.
  assert (Hpool : Bot.ans_poolInfo (settledBuy None) = Some samplePool) by reflexivity.
  pose proof (C4_buy_gate_order ceilingTwoConfig (settledBuy None) st "POOL"
                samplePool Hpool) as Hgates.
  cbv zeta in Hgates. destruct Hgates as (_ & _ & Hceiling & _).
  apply Hceiling.
  - left. reflexivity.
  - vm_compute. reflexivity.
  - intros Hroom. vm_compute in Hroom. discriminate Hroom.
Defined.

(** C4, as stated, fails: the allow-list is consulted before the open
    position.  After a buy of MINT and a reload of the allow-list that drops
    MINT, a new pool of MINT is skipped as not listed, not as already
    held. *)
Lemma C4_allow_list_precedes_position_check :
  ~ (forall (cfg : Bot.Config Q) (evs : list (Bot.Event Q)) (a : Bot.BuyAnswers Q)
            (pid : string) (poolInfo : PumpSwapPoolInfo),
        Bot.ans_poolInfo a = Some poolInfo ->
        is_Some (Bot.activePositions (Bot.run cfg Bot.initial evs) !! baseMint poolInfo) ->
        Bot.res_outcome (Bot.processPumpSwapPool cfg a (Bot.run cfg Bot.initial evs) pid)
        = Bot.AlreadyHavePosition).
Proof.
  intros Hclaim.
  specialize (Hclaim snipingConfig
    [Bot.SnipeListRefresh (Some ["MINT"%string]);
     Bot.PoolAccountChange "POOL" (settledBuy None);
     Bot.SnipeListRefresh (Some [])]
    (settledBuy None) "POOL2"%string samplePool eq_refl).
  assert (Hheld : is_Some
            (Bot.activePositions
               (Bot.run snipingConfig Bot.initial
                  [Bot.SnipeListRefresh (Some ["MINT"%string]);
                   Bot.PoolAccountChange "POOL" (settledBuy None);
                   Bot.SnipeListRefresh (Some [])]) !! baseMint samplePool)).
  { vm_compute. eauto. }
  specialize (Hclaim Hheld). vm_compute in Hclaim. discriminate Hclaim.
Qed.

(** ** Monitoring tick: only a settled sell removes a position *)

Section MonitorTick.
Context {num : Type} `{JSNumber num}.
Variable cfg : Bot.Config num.

(** One iteration either settles a sell and deletes its own entry, or
    leaves the book as it is. *)
Lemma monitorPosition_cases (a : Bot.SellAnswers num)
    (book : gmap string (Position num)) (m : string) (pos : Position num) :
  (sell_settles cfg a pos
   /\ exists signature,
        Bot.monitorPosition cfg a book m pos
        = (delete m book, Bot.SellSuccessful signature))
  \/ (~ sell_settles cfg a pos
      /\ fst (Bot.monitorPosition cfg a book m pos) = book
      /\ forall signature,
           snd (Bot.monitorPosition cfg a book m pos)
           <> Bot.SellSuccessful signature).
Proof.
  unfold Bot.monitorPosition, sell_settles.
  destruct (Bot.ans_currentPrice a) as [[price|]|e].
  2,3: right; split; [intros (p & i & s & Hp & _); discriminate | split; easy].
  destruct (truthy price) eqn:Ht; cbn [negb].
  2:{ right. split; [|split; easy].
      intros (p & i & s & Hp & Htp & _). injection Hp as <-. congruence. }
  destruct (StrategyManager.shouldSell _ pos price) as [[|]|e] eqn:Hd.
  2,3: right; split; [|split; easy];
       intros (p & i & s & Hp & _ & Hs & _); injection Hp as <-; congruence.
  destruct (Bot.ans_sellPoolInfo a) as [poolInfo|] eqn:Hi.
  2:{ right. split; [|split; easy].
      intros (p & i & s & _ & _ & _ & Hi' & _). discriminate. }
  destruct (Bot.ans_sell a) as [signature|] eqn:Hsig.
  2:{ right. split; [|split; easy].
      intros (p & i & s & _ & _ & _ & _ & Hs & _). discriminate. }
  destruct (String.eqb_spec signature "") as [->|Hne]; cbn [negb].
  - right. split; [|split; easy].
    intros (p & i & s & _ & _ & _ & _ & Hs & Hne). congruence.
  - left. split; [|eauto]. exists price, poolInfo, signature.
    repeat split; assumption || reflexivity.
Qed.

Lemma loop_cons answers book log m pos l :
  Bot.monitorLoop cfg answers (book, log) ((m, pos) :: l)
  = Bot.monitorLoop cfg answers
      (fst (Bot.monitorPosition cfg (answers m) book m pos),
       log ++ [(m, snd (Bot.monitorPosition cfg (answers m) book m pos))]) l.
Proof.
  unfold Bot.monitorLoop. cbn [foldl].
  destruct (Bot.monitorPosition cfg (answers m) book m pos). reflexivity.
Qed.





Lemma monitorPositions_unfold answers (st : Bot.State num) :
  Bot.monitorPositions cfg answers st
  = (Bot.set_positions st
       (fst (Bot.monitorLoop cfg answers (Bot.activePositions st, [])
               (map_to_list (Bot.activePositions st)))),
     snd (Bot.monitorLoop cfg answers (Bot.activePositions st, [])
            (map_to_list (Bot.activePositions st)))).
Proof.
  unfold Bot.monitorPositions.
  destruct (Z.eqb_spec (Z.of_nat (size (Bot.activePositions st))) 0) as [Hz|Hnz].
  - assert (Hempty : Bot.activePositions st = ∅).
    { apply map_size_empty_iff. lia. }
    rewrite Hempty, map_to_list_empty. cbn.
    destruct st as [pools book list]. cbn in *. now subst.
  - destruct (Bot.monitorLoop _ _ _ _). reflexivity.
Qed.

End MonitorTick.

Section SellRetry.
Context {num : Type} `{JSNumber num}.
Variable cfg : Bot.Config num.

Lemma tick_book_lookup answers (st : Bot.State num) :
  Bot.activePositions (fst (Bot.monitorPositions cfg answers st))
  = fst (Bot.monitorLoop cfg answers (Bot.activePositions st, [])
           (map_to_list (Bot.activePositions st))).
Proof. now rewrite monitorPositions_unfold. Qed.




End SellRetry.


(** ** The position book: what a recorded position satisfies *)

Section PositionBook.
Context {num : Type} `{JSNumber num}.
Variable cfg : Bot.Config num.

Lemma builtin_size_min (w : StrategyManager.World num) (ty : StrategyType)
    (p : PumpSwapPoolInfo) (z : Z) :
  StrategyManager.calculatePositionSize (StrategyManager.new w ty) p = Ret z ->
  10000000 <= z.
Proof.
  unfold StrategyManager.calculatePositionSize. rewrite new_active_strategy.
  destruct ty; cbn; intros Hz; injection Hz as <-.
  - rewrite momentum_size_eq. lia.
  - apply volume_size_range.
  - apply liquidity_size_range.
  - lia.
Qed.

Lemma price_read_failure fresh :
  price_read_fails fresh -> PumpSwapClient.getCurrentPrice fresh = of_Z 0.
Proof.
  destruct fresh as [f|]; cbn; [|reflexivity].
  intros ->. reflexivity.
Qed.

Lemma approved_by_configured_strategy (w : StrategyManager.World num)
    (ty : StrategyType) (p : PumpSwapPoolInfo) :
  StrategyManager.shouldBuy (StrategyManager.new w ty) p = Ret true ->
  match StrategyManager.getActiveStrategy (StrategyManager.new w ty) with
  | Some s => ts_type s
  | None => MOMENTUM
  end = ty.
Proof.
  unfold StrategyManager.shouldBuy. rewrite new_active_strategy.
  destruct ty; try reflexivity. discriminate.
Qed.

Lemma signature_truthy (result : option string) :
  PumpSwapClient.has_signature result = true
  <-> exists signature, result = Some signature /\ signature <> ""%string.
Proof.
  unfold PumpSwapClient.has_signature. destruct result as [s|].
  - rewrite negb_true_iff, String.eqb_neq. split.
    + intros Hne. exists s. auto.
    + intros (s' & Hs & Hne). now injection Hs as ->.
  - split; [discriminate|]. intros (s' & Hs & _). discriminate.
Qed.

(** A run that does not end in a successful buy: its gates, its strategy or
    its buy refused, and the state is the one it read. *)
Ltac run_refused :=
  right; split; [discriminate|]; split; [|reflexivity];
  intros (p' & z' & sig' & Hp & Hlisted' & Hfree' & Hroom' & Hliquid' & Hbuy' & Hsize'
          & Hsig' & Hne');
  injection Hp as <-.

Lemma process_outcome (a : Bot.BuyAnswers num) (st : Bot.State num) (pid : string) :
  (exists pos,
     Bot.res_outcome (Bot.processPumpSwapPool cfg a st pid) = Bot.BuySuccessful pos
     /\ buy_settles cfg a st
     /\ recorded_by_buy cfg a (mint pos) pos
     /\ Bot.res_state (Bot.processPumpSwapPool cfg a st pid)
        = Bot.set_positions st (<[mint pos := pos]> (Bot.activePositions st)))
  \/ ((forall pos,
         Bot.res_outcome (Bot.processPumpSwapPool cfg a st pid) <> Bot.BuySuccessful pos)
      /\ ~ buy_settles cfg a st
      /\ Bot.res_state (Bot.processPumpSwapPool cfg a st pid) = st).
Proof.
  unfold Bot.processPumpSwapPool, buy_settles.
  destruct (Bot.ans_poolInfo a) as [poolInfo|] eqn:Hpool.
  2: { right. split; [discriminate|]. split; [|reflexivity].
       intros (p & z & sig & Hp & _). discriminate Hp. }
  destruct (Bot.shouldBuy cfg st (baseMint poolInfo)) eqn:Hlisted; cbn [negb];
    [|run_refused; congruence].
  destruct (bool_decide _) eqn:Hheld.
  { apply bool_decide_eq_true in Hheld. run_refused.
    rewrite Hfree' in Hheld. now destruct Hheld. }
  apply bool_decide_eq_false in Hheld.
  assert (Hfree : Bot.activePositions st !! baseMint poolInfo = None).
  { destruct (Bot.activePositions st !! baseMint poolInfo); [exfalso; eauto|reflexivity]. }
  destruct (Z.geb_spec (Z.of_nat (size (Bot.activePositions st)))
              (Bot.maxConcurrentPositions cfg)) as [Hfull|Hroom];
    [run_refused; lia|].
  destruct (PumpSwapClient.hasMinimumLiquidity poolInfo (Bot.MIN_POOL_SIZE cfg))
    eqn:Hliquid; cbn [negb]; [|run_refused; congruence].
  destruct (StrategyManager.shouldBuy _ _) as [[|]|e] eqn:Hdecision;
    [|run_refused; congruence|run_refused; congruence].
  destruct (StrategyManager.calculatePositionSize _ _) as [z|e] eqn:Hsize;
    [|run_refused; congruence].
  destruct (PumpSwapClient.has_signature (Bot.ans_buy a)) eqn:Hsigned.
  2: { run_refused.
       assert (Hyes : PumpSwapClient.has_signature (Bot.ans_buy a) = true)
         by (apply signature_truthy; eauto).
       congruence. }
  apply signature_truthy in Hsigned as (sig & Hsig & Hne).
  left. eexists. split; [reflexivity|].
  cbn [Bot.res_state mint]. split; [|split; [|reflexivity]].
  - exists poolInfo, z, sig. repeat split; assumption || reflexivity.
  - exists poolInfo. cbn [mint pos_poolId amount entryPrice buyValue timestamp strategy].
    repeat split; try assumption || reflexivity.
    now apply approved_by_configured_strategy in Hdecision.
Qed.

Lemma loop_subbook answers l book log k pos :
  fst (Bot.monitorLoop cfg answers (book, log) l) !! k = Some pos ->
  book !! k = Some pos.
Proof.
  revert book log. induction l as [|[m p] l IH]; intros book log Hk.
  - exact Hk.
  - rewrite loop_cons in Hk. apply IH in Hk.
    destruct (monitorPosition_cases cfg (answers m) book m p)
      as [(_ & sig & Heq)|(_ & Heq & _)]; rewrite Heq in Hk; cbn [fst] in Hk;
      [|exact Hk].
    apply lookup_delete_Some in Hk. tauto.
Qed.

Lemma run_snoc (st : Bot.State num) (evs : list (Bot.Event num)) (ev : Bot.Event num) :
  Bot.run cfg st (evs ++ [ev]) = Bot.step cfg (Bot.run cfg st evs) ev.
Proof. unfold Bot.run. now rewrite foldl_app. Qed.

Lemma book_ok_later (evs : list (Bot.Event num)) (ev : Bot.Event num)
    (book book' : gmap string (Position num)) :
  (forall m pos, book' !! m = Some pos -> book !! m = Some pos) ->
  book_ok cfg evs book -> book_ok cfg (evs ++ [ev]) book'.
Proof.
  intros Hsub Hok m pos Hm. apply Hsub, Hok in Hm.
  destruct Hm as (before & key & a & after & r & Hevs & Hrest).
  exists before, key, a, (after ++ [ev]), r. split; [|exact Hrest].
  rewrite Hevs, <- app_assoc. reflexivity.
Qed.

Lemma step_book_ok (evs : list (Bot.Event num)) (ev : Bot.Event num) :
  book_ok cfg evs (Bot.activePositions (Bot.run cfg Bot.initial evs)) ->
  book_ok cfg (evs ++ [ev])
    (Bot.activePositions (Bot.step cfg (Bot.run cfg Bot.initial evs) ev)).
Proof.
  intros Hok. destruct ev as [key a|answers|file]; cbn [Bot.step].
  - unfold Bot.onProgramAccountChange.
    destruct (negb (bool_decide (key ∈ Bot.existingPools (Bot.run cfg Bot.initial evs))))
      eqn:Hnew; cbn [fst]; [|now apply book_ok_later with (2 := Hok)].
    match goal with
    | |- context [Bot.processPumpSwapPool cfg a ?s key] =>
        destruct (process_outcome a s key)
          as [(pos & Hout & Hsettles & Hrec & Hst)|(_ & _ & Hst)]; rewrite Hst
    end; [|now apply book_ok_later with (2 := Hok)].
    cbn [Bot.set_positions Bot.activePositions].
    intros m pos' Hm. destruct (decide (mint pos = m)) as [<-|Hne].
    + rewrite lookup_insert_eq in Hm. injection Hm as <-.
      eexists evs, key, a, [], _. split; [reflexivity|].
      unfold Bot.onProgramAccountChange. rewrite Hnew. cbn [snd].
      split; [reflexivity|]. split; [exact Hout|]. split; [exact Hsettles|exact Hrec].
    + rewrite lookup_insert_ne in Hm by assumption.
      now apply (book_ok_later evs _ _ _ (fun _ _ H => H) Hok).
  - apply book_ok_later with (2 := Hok). intros m pos Hm.
    rewrite tick_book_lookup in Hm. now apply loop_subbook in Hm.
  - apply book_ok_later with (2 := Hok). destruct file; auto.
Qed.

Lemma run_book_ok (evs : list (Bot.Event num)) :
  book_ok cfg evs (Bot.activePositions (Bot.run cfg Bot.initial evs)).
Proof.
  induction evs as [|ev evs IH] using rev_ind.
  - intros m pos Hm. cbn in Hm. now rewrite lookup_empty in Hm.
  - rewrite run_snoc. now apply step_book_ok.
Qed.

Lemma gates_without_buy (outcome : Bot.BuyOutcome num) (l : list (Position num)) :
  (forall pos, outcome <> Bot.BuySuccessful pos) ->
  match outcome with
  | Bot.BuySuccessful position => l ++ [position]
  | _ => l
  end = l.
Proof.
  intros Hnever. destruct outcome; try reflexivity. now destruct (Hnever position).
Qed.

Lemma gates_step (s : Overlap.State num) (i : nat) (key : string)
    (a : Bot.BuyAnswers num) :
  Overlap.started s !! i = Some key ->
  Overlap.bot (Overlap.step cfg s (Overlap.GatesReached i a)) = Overlap.bot s
  /\ Overlap.selling (Overlap.step cfg s (Overlap.GatesReached i a)) = Overlap.selling s
  /\ ((buy_settles cfg a (Overlap.bot s)
       /\ exists pos,
            Overlap.buying (Overlap.step cfg s (Overlap.GatesReached i a))
            = Overlap.buying s ++ [pos]
            /\ recorded_by_buy cfg a (mint pos) pos)
      \/ (~ buy_settles cfg a (Overlap.bot s)
          /\ Overlap.buying (Overlap.step cfg s (Overlap.GatesReached i a))
             = Overlap.buying s)).
Proof.
  intros Hkey. cbn [Overlap.step]. rewrite Hkey.
  cbn [Overlap.bot Overlap.selling Overlap.buying].
  split; [reflexivity|]. split; [reflexivity|].
  destruct (process_outcome a (Overlap.bot s) key)
    as [(pos & Hout & Hsettles & Hrec & _)|(Hnever & Hno & _)].
  - left. split; [exact Hsettles|]. exists pos. rewrite Hout. auto.
  - right. split; [exact Hno|]. now apply gates_without_buy.
Qed.

Lemma store_step (s : Overlap.State num) (j : nat) (pos : Position num) :
  Overlap.buying s !! j = Some pos ->
  Overlap.step cfg s (Overlap.PositionStored j)
  = {| Overlap.bot := Overlap.storePosition (Overlap.bot s) pos;
       Overlap.started := Overlap.started s;
       Overlap.buying := delete j (Overlap.buying s);
       Overlap.selling := Overlap.selling s |}.
Proof. intros Hj. cbn [Overlap.step]. now rewrite Hj. Qed.

Lemma overlap_run_snoc (s : Overlap.State num) (evs : list (Overlap.Step num))
    (ev : Overlap.Step num) :
  Overlap.run cfg s (evs ++ [ev]) = Overlap.step cfg (Overlap.run cfg s evs) ev.
Proof. unfold Overlap.run. now rewrite foldl_app. Qed.

Lemma produced_later (evs : list (Overlap.Step num)) (ev : Overlap.Step num)
    (m : string) (pos : Position num) :
  produced_by_run cfg evs m pos -> produced_by_run cfg (evs ++ [ev]) m pos.
Proof.
  intros (before & i & key & a & after & Hevs & Hrest).
  exists before, i, key, a, (after ++ [ev]). split; [|exact Hrest].
  rewrite Hevs, <- app_assoc. reflexivity.
Qed.

Lemma positions_ok_same (evs : list (Overlap.Step num)) (ev : Overlap.Step num)
    (s s' : Overlap.State num) :
  Bot.activePositions (Overlap.bot s') = Bot.activePositions (Overlap.bot s) ->
  Overlap.buying s' = Overlap.buying s ->
  positions_ok cfg evs s -> positions_ok cfg (evs ++ [ev]) s'.
Proof.
  intros Hbook Hbuying [Hstored Hflight]. unfold positions_ok.
  rewrite Hbook, Hbuying. split.
  - intros m pos Hm. now apply produced_later, Hstored.
  - intros pos Hpos. now apply produced_later, Hflight.
Qed.

Lemma step_positions_ok (evs : list (Overlap.Step num)) (ev : Overlap.Step num) :
  positions_ok cfg evs (Overlap.run cfg Overlap.initial evs) ->
  positions_ok cfg (evs ++ [ev])
    (Overlap.step cfg (Overlap.run cfg Overlap.initial evs) ev).
Proof.
  intros Hok. pose proof Hok as [Hstored Hflight].
  set (s := Overlap.run cfg Overlap.initial evs) in *.
  destruct ev as [key|i a|i|m a|j|file].
  - cbn [Overlap.step]. destruct (negb _); now apply (positions_ok_same evs _ s).
  - destruct (Overlap.started s !! i) as [key|] eqn:Hkey.
    + destruct (gates_step s i key a Hkey)
        as (Hbot & _ & [(Hsettles & pos & Hnew & Hrec)|(_ & Hnew)]).
      * split.
        -- intros m p Hm. rewrite Hbot in Hm. now apply produced_later, Hstored.
        -- intros p Hp. rewrite Hnew in Hp.
           apply elem_of_app in Hp as [Hp|Hp]; [now apply produced_later, Hflight|].
           apply list_elem_of_singleton in Hp as ->.
           exists evs, i, key, a, []. auto.
      * apply (positions_ok_same evs _ s); [now rewrite Hbot|exact Hnew|exact Hok].
    + cbn [Overlap.step]. rewrite Hkey. now apply (positions_ok_same evs _ s).
  - destruct (Overlap.buying s !! i) as [pos|] eqn:Hi.
    + rewrite (store_step s i pos Hi). split.
      * intros m p Hm.
        cbn [Overlap.bot Overlap.storePosition Bot.set_positions
             Bot.activePositions] in Hm.
        destruct (decide (mint pos = m)) as [<-|Hne].
        -- rewrite lookup_insert_eq in Hm. injection Hm as <-.
           apply produced_later, Hflight. eapply list_elem_of_lookup_2. exact Hi.
        -- rewrite lookup_insert_ne in Hm by assumption.
           now apply produced_later, Hstored.
      * intros p Hp. cbn [Overlap.buying] in Hp.
        apply produced_later, Hflight. now apply list_elem_of_delete_inv in Hp.
    + cbn [Overlap.step]. rewrite Hi. now apply (positions_ok_same evs _ s).
  - cbn [Overlap.step].
    destruct (Bot.activePositions (Overlap.bot s) !! m); [|now apply (positions_ok_same evs _ s)].
    destruct (snd _); now apply (positions_ok_same evs _ s).
  - cbn [Overlap.step]. destruct (Overlap.selling s !! j) as [m|];
      [|now apply (positions_ok_same evs _ s)].
    split.
    + intros k p Hk.
      cbn [Overlap.bot Overlap.deletePosition Bot.set_positions
           Bot.activePositions] in Hk.
      apply lookup_delete_Some in Hk as [_ Hk]. now apply produced_later, Hstored.
    + intros p Hp. now apply produced_later, Hflight.
  - cbn [Overlap.step]. apply (positions_ok_same evs _ s); [|reflexivity|exact Hok].
    cbn [Overlap.bot]. now destruct file.
Qed.

Lemma run_positions_ok (evs : list (Overlap.Step num)) :
  positions_ok cfg evs (Overlap.run cfg Overlap.initial evs).
Proof.
  induction evs as [|ev evs IH] using rev_ind.
  - split.
    + intros m pos Hm. cbn in Hm. now rewrite lookup_empty in Hm.
    + intros pos Hpos. cbn in Hpos. now apply elem_of_nil in Hpos.
  - rewrite overlap_run_snoc. now apply step_positions_ok.
Qed.

Lemma buy_records_price_read (a : Bot.BuyAnswers num) (st : Bot.State num)
    (pid : string) (position : Position num) :
  Bot.res_outcome (Bot.processPumpSwapPool cfg a st pid) = Bot.BuySuccessful position ->
  entryPrice position = PumpSwapClient.getCurrentPrice (Bot.ans_freshPoolInfo a)
  /\ Bot.activePositions (Bot.res_state (Bot.processPumpSwapPool cfg a st pid))
       !! mint position = Some position.
Proof.
  intros Hbuy.
  destruct (process_outcome a st pid)
    as [(pos & Hout & _ & Hrec & Hst)|(Hnever & _)];
    [|now destruct (Hnever position)].
  replace position with pos by congruence.
  destruct Hrec as (p & _ & _ & _ & _ & _ & Hprice & _).
  split; [exact Hprice|]. rewrite Hst. apply lookup_insert_eq.
Qed.

Lemma recorded_facts (a : Bot.BuyAnswers num) (m : string) (pos : Position num) :
  recorded_by_buy cfg a m pos ->
  0 < amount pos
  /\ 10000000 <= amount pos
  /\ entryPrice pos = PumpSwapClient.getCurrentPrice (Bot.ans_freshPoolInfo a)
  /\ buyValue pos = entryPrice pos
  /\ (price_read_fails (Bot.ans_freshPoolInfo a) -> entryPrice pos = of_Z 0).
Proof.
  intros (p & _ & _ & _ & _ & Hsize & Hprice & Hvalue & _).
  apply builtin_size_min in Hsize.
  split; [lia|]. split; [exact Hsize|]. split; [exact Hprice|].
  split; [congruence|]. intros Hfail. rewrite Hprice. now apply price_read_failure.
Qed.

(** C2 (amended): in every reachable state, every position in the book has
    amount > 0 (at least 10_000_000) and was stored by a run of
    processPumpSwapPool of that very execution whose buy settled; its entry
    price and buy value are exactly what that run's own price read after
    the buy returned (getCurrentPrice on the refreshed pool), and that is
    0, not a positive number, when the read fails or the refreshed pool has
    a zero base reserve.  This holds when each discovery runs to completion
    before the next event, when runs and monitoring iterations overlap at
    their awaits, and of each single run that ends in a successful buy,
    from any state. *)
Theorem C2_recorded_positions :
  (forall (evs : list (Bot.Event num)) (m : string) (pos : Position num),
     Bot.activePositions (Bot.run cfg Bot.initial evs) !! m = Some pos ->
     exists before key a after r,
       evs = before ++ Bot.PoolAccountChange key a :: after
       /\ snd (Bot.onProgramAccountChange cfg a (Bot.run cfg Bot.initial before) key)
          = Some r
       /\ Bot.res_outcome r = Bot.BuySuccessful pos
       /\ buy_settles cfg a (Bot.run cfg Bot.initial before)
       /\ recorded_by_buy cfg a m pos
       /\ 0 < amount pos
       /\ 10000000 <= amount pos
       /\ entryPrice pos = PumpSwapClient.getCurrentPrice (Bot.ans_freshPoolInfo a)
       /\ buyValue pos = entryPrice pos
       /\ (price_read_fails (Bot.ans_freshPoolInfo a) -> entryPrice pos = of_Z 0))
  /\ (forall (evs : list (Overlap.Step num)) (m : string) (pos : Position num),
        Bot.activePositions (Overlap.bot (Overlap.run cfg Overlap.initial evs)) !! m
        = Some pos ->
        exists before i key a after,
          evs = before ++ Overlap.GatesReached i a :: after
          /\ Overlap.started (Overlap.run cfg Overlap.initial before) !! i = Some key
          /\ buy_settles cfg a (Overlap.bot (Overlap.run cfg Overlap.initial before))
          /\ recorded_by_buy cfg a m pos
          /\ 0 < amount pos
          /\ 10000000 <= amount pos
          /\ entryPrice pos = PumpSwapClient.getCurrentPrice (Bot.ans_freshPoolInfo a)
          /\ buyValue pos = entryPrice pos
          /\ (price_read_fails (Bot.ans_freshPoolInfo a) -> entryPrice pos = of_Z 0))
  /\ (forall a st pid position,
        Bot.res_outcome (Bot.processPumpSwapPool cfg a st pid)
        = Bot.BuySuccessful position ->
        recorded_by_buy cfg a (mint position) position
        /\ 0 < amount position
        /\ 10000000 <= amount position
        /\ entryPrice position
           = PumpSwapClient.getCurrentPrice (Bot.ans_freshPoolInfo a)
        /\ buyValue position = entryPrice position
        /\ (price_read_fails (Bot.ans_freshPoolInfo a) ->
            entryPrice position = of_Z 0)
        /\ Bot.activePositions (Bot.res_state (Bot.processPumpSwapPool cfg a st pid))
             !! mint position = Some position).
Proof.
  split; [|split].
  - intros evs m pos Hm.
    destruct (run_book_ok evs m pos Hm)
      as (before & key & a & after & r & Hevs & Hr & Hout & Hsettles & Hrec).
    exists before, key, a, after, r.
    pose proof (recorded_facts a m pos Hrec). tauto.
  - intros evs m pos Hm.
    destruct (run_positions_ok evs) as [Hstored _].
    destruct (Hstored m pos Hm) as (before & i & key & a & after & Hevs & Hkey
                                    & Hsettles & Hrec).
    exists before, i, key, a, after.
    pose proof (recorded_facts a m pos Hrec). tauto.
  - intros a st pid position Hbuy.
    destruct (process_outcome a st pid)
      as [(pos' & Hout & _ & Hrec & Hst)|(Hnever & _)];
      [|now destruct (Hnever position)].
    replace position with pos' by congruence.
    pose proof (recorded_facts a (mint pos') pos' Hrec) as Hfacts.
    assert (Hbook : Bot.activePositions
                      (Bot.res_state (Bot.processPumpSwapPool cfg a st pid))
                      !! mint pos' = Some pos').
    { rewrite Hst. apply lookup_insert_eq. }
    tauto.
Qed.

End PositionBook.

(** One settled buy from the initial state, the price read after it seeing
    the pool at price 100. *)
Lemma C2_recorded_positions_witness :
  exists pos,
    Bot.activePositions
      (Bot.run sampleConfig Bot.initial
         [Bot.PoolAccountChange "POOL" (settledBuy (Some samplePool))])
      !! "MINT"%string = Some pos
    /\ 0 < amount pos
    /\ entryPrice pos = PumpSwapClient.getCurrentPrice (Some samplePool)
    /\ buyValue pos = entryPrice pos
    /\ (entryPrice pos == 100)%Q.
Proof.
  destruct (Bot.activePositions
              (Bot.run sampleConfig Bot.initial
                 [Bot.PoolAccountChange "POOL" (settledBuy (Some samplePool))])
              !! "MINT"%string)
    as [pos|] eqn:Hbook.
  - exists pos. split; [reflexivity|].
    destruct (C2_recorded_positions sampleConfig) as [Hserial _].
    destruct (Hserial [Bot.PoolAccountChange "POOL" (settledBuy (Some samplePool))]
                "MINT"%string pos Hbook)
      as (before & key & a & after & r & Hevs & _ & _ & _ & _ & Hpos & _ & Hprice
          & Hvalue & _).
    assert (Ha : a = settledBuy (Some samplePool)).
    { destruct before as [|ev [|ev' before]].
      - injection Hevs as _ <-. reflexivity.
      - destruct after; discriminate Hevs.
      - destruct before; discriminate Hevs. }
    rewrite Ha in Hprice. cbn [Bot.ans_freshPoolInfo settledBuy] in Hprice.
    split; [exact Hpos|]. split; [exact Hprice|]. split; [exact Hvalue|].
    rewrite Hprice. reflexivity.
  - vm_compute in Hbook. discriminate Hbook.
Defined.

(** C2, as stated, fails: a buy that settles while the price read after it
    fails (the pool cannot be re-fetched, or its base reserve is zero) puts
    a position with entry price 0 in the book. *)
Lemma C2_entry_price_can_be_zero :
  ~ (forall (cfg : Bot.Config Q) (evs : list (Bot.Event Q)) (m : string)
            (pos : Position Q),
        Bot.activePositions (Bot.run cfg Bot.initial evs) !! m = Some pos ->
        0 < amount pos /\ (0 < entryPrice pos)%Q).
Proof.
  intros Hclaim.
  destruct (Bot.activePositions
              (Bot.run sampleConfig Bot.initial
                 [Bot.PoolAccountChange "POOL" (settledBuy (Some drainedPool))])
              !! "MINT"%string) as [pos|] eqn:Hbook.
  - destruct (Hclaim _ _ _ _ Hbook) as [_ Hprice].
    vm_compute in Hbook. injection Hbook as <-.
    vm_compute in Hprice. discriminate Hprice.
  - vm_compute in Hbook. discriminate Hbook.
Qed.

(** * Further properties of the code *)

(** ** Swap arithmetic *)

Section SwapOutput.
Variables amountIn reserveIn reserveOut feeBps : Z.
Hypothesis reserveIn_pos : 0 < reserveIn.
Hypothesis reserveOut_pos : 0 < reserveOut.
Hypothesis amountIn_nonneg : 0 <= amountIn.
Hypothesis fee_range : 0 <= feeBps <= 10000.

Lemma swap_output_value :
  PumpSwapExecution.calculateSwapOutput amountIn reserveIn reserveOut feeBps
  = Ret (amountIn * (10000 - feeBps) * reserveOut
         / (reserveIn * 10000 + amountIn * (10000 - feeBps))).
Proof.
  unfold PumpSwapExecution.calculateSwapOutput, bigint_div.
  destruct (Z.eqb_spec reserveIn 0) as [?|_]; [lia|].
  destruct (Z.eqb_spec reserveOut 0) as [?|_]; [lia|]. cbn [orb].
  assert (Hfee : 0 <= amountIn * (10000 - feeBps)) by nia.
  destruct (Z.eqb_spec (reserveIn * 10000 + amountIn * (10000 - feeBps)) 0) as [?|_];
    [lia|].
  f_equal. apply Z.quot_div_nonneg; nia.
Qed.

Lemma swap_output_floor (out : Z) :
  PumpSwapExecution.calculateSwapOutput amountIn reserveIn reserveOut feeBps = Ret out ->
  0 <= out
  /\ out * (reserveIn * 10000 + amountIn * (10000 - feeBps))
     <= amountIn * (10000 - feeBps) * reserveOut
  /\ amountIn * (10000 - feeBps) * reserveOut
     < (out + 1) * (reserveIn * 10000 + amountIn * (10000 - feeBps)).
Proof.
  rewrite swap_output_value. intros Hout. injection Hout as <-.
  assert (Hfee : 0 <= amountIn * (10000 - feeBps)) by nia.
  set (n := amountIn * (10000 - feeBps) * reserveOut).
  set (d := reserveIn * 10000 + amountIn * (10000 - feeBps)).
  assert (Hd : 0 < d) by (unfold d; nia).
  assert (Hn : 0 <= n) by (unfold n; nia).
  pose proof (Z.mul_div_le n d Hd) as Hle.
  pose proof (Z.mul_succ_div_gt n d Hd) as Hgt.
  pose proof (Z.div_pos n d Hn Hd) as Hpos.
  repeat split; [exact Hpos | lia | lia].
Qed.

Lemma swap_output_range :
  exists out,
    PumpSwapExecution.calculateSwapOutput amountIn reserveIn reserveOut feeBps = Ret out
    /\ 0 <= out < reserveOut
    /\ out <= amountIn * reserveOut / reserveIn.
Proof.
  eexists. split; [apply swap_output_value|].
  destruct (swap_output_floor _ swap_output_value) as (Hpos & Hle & _).
  set (out := _ / _) in *.
  assert (Hfee : 0 <= amountIn * (10000 - feeBps)) by nia.
  split; [split; [exact Hpos|]|].
  - apply Z.nle_gt. intros Hge. nia.
  - apply Z.div_le_lower_bound; [lia|]. nia.
Qed.

(** X1: with positive reserves, a non-negative input and a fee between 0
    and 10000 basis points, the swap output is defined, non-negative,
    strictly below the output reserve and at most the spot quote
    amountIn * reserveOut / reserveIn. *)
Theorem X1_swap_output_bounds :
  exists out,
    PumpSwapExecution.calculateSwapOutput amountIn reserveIn reserveOut feeBps = Ret out
    /\ 0 <= out < reserveOut
    /\ out <= amountIn * reserveOut / reserveIn.
Proof. exact swap_output_range. Qed.

(** X2: under the same conditions the trade never lowers the constant
    product: (reserveIn + amountIn) * (reserveOut - out) >= reserveIn *
    reserveOut. *)
Theorem X2_swap_keeps_constant_product (out : Z) :
  PumpSwapExecution.calculateSwapOutput amountIn reserveIn reserveOut feeBps = Ret out ->
  reserveIn * reserveOut <= (reserveIn + amountIn) * (reserveOut - out).
Proof.
  intros Hout. destruct (swap_output_floor out Hout) as (Hpos & Hle & _).
  assert (Hfee : 0 <= amountIn * (10000 - feeBps) <= amountIn * 10000) by nia.
  set (A := amountIn * (10000 - feeBps)) in *.
  assert (Hkey : (reserveIn + amountIn) * out * (reserveIn * 10000 + A)
                 <= amountIn * reserveOut * (reserveIn * 10000 + A)).
  { transitivity ((reserveIn + amountIn) * (A * reserveOut)); [nia|].
    assert (Hcoef : (reserveIn + amountIn) * A <= amountIn * (reserveIn * 10000 + A))
      by nia.
    nia. }
  assert (Hd : 0 < reserveIn * 10000 + A) by nia.
  assert (Hlin : (reserveIn + amountIn) * out <= amountIn * reserveOut).
  { apply Z.mul_le_mono_pos_r with (p := reserveIn * 10000 + A); assumption. }
  nia.
Qed.

End SwapOutput.

(** X3: the swap output does not decrease when the input grows. *)
Theorem X3_swap_output_monotone (a a' reserveIn reserveOut feeBps out out' : Z) :
  0 < reserveIn -> 0 < reserveOut -> 0 <= a <= a' -> 0 <= feeBps <= 10000 ->
  PumpSwapExecution.calculateSwapOutput a reserveIn reserveOut feeBps = Ret out ->
  PumpSwapExecution.calculateSwapOutput a' reserveIn reserveOut feeBps = Ret out' ->
  out <= out'.
Proof.
  intros Hri Hro Ha Hfee Hout Hout'.
  assert (Ha0 : 0 <= a) by lia. assert (Ha0' : 0 <= a') by lia.
  destruct (swap_output_floor a reserveIn reserveOut feeBps Hri Hro Ha0 Hfee out Hout)
    as (Hpos & Hle & _).
  destruct (swap_output_floor a' reserveIn reserveOut feeBps Hri Hro Ha0' Hfee out' Hout')
    as (Hpos' & _ & Hgt').
  destruct (swap_output_range a reserveIn reserveOut feeBps Hri Hro Ha0 Hfee)
    as (o & Ho & [_ Hlt] & _).
  assert (o = out) by congruence. subst o.
  set (A := a * (10000 - feeBps)) in *. set (A' := a' * (10000 - feeBps)) in *.
  assert (HA : 0 <= A <= A') by (unfold A, A'; nia).
  apply Z.nlt_ge. intros Hcontra.
  assert (H1 : (out' + 1) * (reserveIn * 10000 + A') <= out * (reserveIn * 10000 + A'))
    by nia.
  assert (H2 : out * (reserveIn * 10000 + A')
               = out * (reserveIn * 10000 + A) + out * (A' - A)) by lia.
  assert (H3 : out * (A' - A) <= reserveOut * (A' - A)) by nia.
  nia.
Qed.

Lemma X1_swap_output_bounds_witness :
  exists out,
    PumpSwapExecution.calculateSwapOutput 100000000 1000000000 1000000000 25 = Ret out
    /\ 0 <= out < 1000000000
    /\ out <= 100000000 * 1000000000 / 1000000000.
Proof.
  apply (X1_swap_output_bounds 100000000 1000000000 1000000000 25); lia.
Defined.

Lemma X2_swap_keeps_constant_product_witness :
  1000000000 * 1000000000 <= (1000000000 + 100000000) * (1000000000 - 90702432).
Proof.
  apply (X2_swap_keeps_constant_product 100000000 1000000000 1000000000 25);
    [lia | lia | lia | lia | reflexivity].
Defined.

Lemma X3_swap_output_monotone_witness : 90702432 <= 166319299.
Proof.
  apply (X3_swap_output_monotone 100000000 200000000 1000000000 1000000000 25);
    [lia | lia | lia | lia | reflexivity | reflexivity].
Defined.

(** ** Price impact and the swap output *)

(** X4: for positive reserves and an input whose spot quote is at least
    one unit, the Liquidity policy's price impact is computed from the same
    output as calculateSwapOutput with the default fee of 25 basis points,
    and lies between 0 and 100 percent. *)
Theorem X4_price_impact_range (amountIn reserveIn reserveOut : Z) :
  0 < reserveIn -> 0 < reserveOut -> 0 <= amountIn ->
  reserveIn <= amountIn * reserveOut ->
  exists out v,
    PumpSwapExecution.calculateSwapOutput amountIn reserveIn reserveOut 25 = Ret out
    /\ Liquidity.calculatePriceImpact (num := Q) amountIn reserveIn reserveOut = Ret v
    /\ v = ((inject_Z (amountIn * reserveOut / reserveIn - out)
              / inject_Z (amountIn * reserveOut / reserveIn)) * inject_Z 100)%Q
    /\ (0 <= v <= 100)%Q.
Proof.
  intros Hri Hro Ha Hquote.
  assert (Hfee : 0 <= 25 <= 10000) by lia.
  destruct (swap_output_range amountIn reserveIn reserveOut 25 Hri Hro Ha Hfee)
    as (out & Hout & [Hpos _] & Hspot).
  exists out. eexists. split; [exact Hout|].
  assert (Himpact :
    Liquidity.calculatePriceImpact (num := Q) amountIn reserveIn reserveOut
    = Ret ((inject_Z (amountIn * reserveOut / reserveIn - out)
              / inject_Z (amountIn * reserveOut / reserveIn)) * inject_Z 100)%Q).
  { unfold Liquidity.calculatePriceImpact.
    unfold PumpSwapExecution.calculateSwapOutput in Hout.
    destruct (Z.eqb_spec reserveIn 0) as [?|_]; [lia|].
    destruct (Z.eqb_spec reserveOut 0) as [?|_]; [lia|]. cbn [orb] in *.
    change (10000 - 25) with 9975 in Hout. rewrite Hout. cbn [bind].
    unfold bigint_div. destruct (Z.eqb_spec reserveIn 0) as [?|_]; [lia|].
    cbn [bind]. rewrite Z.quot_div_nonneg by nia. reflexivity. }
  split; [exact Himpact|]. split; [reflexivity|].
  set (e := amountIn * reserveOut / reserveIn) in *.
  assert (He : 1 <= e).
  { unfold e. apply Z.div_le_lower_bound; lia. }
  destruct e as [|p|p] eqn:Ee; try lia.
  unfold Qle, Qdiv, Qmult, Qinv, inject_Z; cbn.
  split; nia.
Qed.

Lemma X4_price_impact_range_witness :
  exists out v,
    PumpSwapExecution.calculateSwapOutput 100000000 1000000000 1000000000 25 = Ret out
    /\ Liquidity.calculatePriceImpact (num := Q) 100000000 1000000000 1000000000 = Ret v
    /\ v = ((inject_Z (100000000 * 1000000000 / 1000000000 - out)
              / inject_Z (100000000 * 1000000000 / 1000000000)) * inject_Z 100)%Q
    /\ (0 <= v <= 100)%Q.
Proof.
  apply (X4_price_impact_range 100000000 1000000000 1000000000); lia.
Defined.

(** ** The position book over whole runs *)

Section BookOverRuns.
Context {num : Type} `{JSNumber num}.
Variable cfg : Bot.Config num.

Lemma process_cases (a : Bot.BuyAnswers num) (st : Bot.State num) (pid : string) :
  (exists pos,
     Bot.res_outcome (Bot.processPumpSwapPool cfg a st pid) = Bot.BuySuccessful pos
     /\ Bot.activePositions st !! mint pos = None
     /\ Z.of_nat (size (Bot.activePositions st)) < Bot.maxConcurrentPositions cfg
     /\ StrategyManager.getActiveStrategy
          (StrategyManager.new (Bot.ans_world a) (Bot.TRADING_STRATEGY cfg)) <> None
     /\ Bot.res_state (Bot.processPumpSwapPool cfg a st pid)
        = Bot.set_positions st (<[mint pos := pos]> (Bot.activePositions st)))
  \/ ((forall pos,
         Bot.res_outcome (Bot.processPumpSwapPool cfg a st pid) <> Bot.BuySuccessful pos)
      /\ Bot.res_state (Bot.processPumpSwapPool cfg a st pid) = st).
Proof.
  unfold Bot.processPumpSwapPool.
  destruct (Bot.ans_poolInfo a) as [poolInfo|]; [|right; split; [discriminate|reflexivity]].
  destruct (negb _); [right; split; [discriminate|reflexivity]|].
  destruct (bool_decide _) eqn:Hheld; [right; split; [discriminate|reflexivity]|].
  destruct (Z.geb_spec (Z.of_nat (size (Bot.activePositions st)))
              (Bot.maxConcurrentPositions cfg)) as [Hfull|Hroom];
    [right; split; [discriminate|reflexivity]|].
  destruct (negb _); [right; split; [discriminate|reflexivity]|].
  destruct (StrategyManager.shouldBuy _ _) as [[|]|e] eqn:Hdecision;
    try (right; split; [discriminate|reflexivity]).
  destruct (StrategyManager.calculatePositionSize _ _) as [z|e];
    [|right; split; [discriminate|reflexivity]].
  destruct (PumpSwapClient.has_signature _);
    [|right; split; [discriminate|reflexivity]].
  left. eexists. split; [reflexivity|]. cbn [mint Bot.res_state].
  split; [|split; [exact Hroom|split; [|reflexivity]]].
  - apply bool_decide_eq_false in Hheld.
    destruct (Bot.activePositions st !! baseMint poolInfo); [exfalso; eauto|reflexivity].
  - intros Hnone. unfold StrategyManager.shouldBuy in Hdecision.
    rewrite Hnone in Hdecision. discriminate.
Qed.

Lemma tick_subbook (answers : string -> Bot.SellAnswers num) (st : Bot.State num) :
  Bot.activePositions (fst (Bot.monitorPositions cfg answers st))
  ⊆ Bot.activePositions st.
Proof.
  apply map_subseteq_spec. intros k pos Hk.
  rewrite tick_book_lookup in Hk. now apply loop_subbook in Hk.
Qed.

Lemma step_without_policy (st : Bot.State num) (ev : Bot.Event num) :
  Bot.TRADING_STRATEGY cfg = CUSTOM ->
  Bot.activePositions st = ∅ ->
  Bot.activePositions (Bot.step cfg st ev) = ∅.
Proof.
  intros Htag Hempty. destruct ev as [key a|answers|file]; cbn [Bot.step].
  - unfold Bot.onProgramAccountChange.
    destruct (negb _); cbn [fst]; [|exact Hempty].
    match goal with
    | |- context [Bot.processPumpSwapPool cfg a ?s key] =>
        destruct (process_cases a s key)
          as [(pos' & _ & _ & _ & Hactive & _)|(_ & ->)]
    end; cbn in *; [|exact Hempty].
    exfalso. apply Hactive. rewrite Htag.
    exact (new_active_strategy (Bot.ans_world a) CUSTOM).
  - apply map_eq. intros k. rewrite lookup_empty.
    pose proof (tick_subbook answers st) as Hsub.
    destruct (Bot.activePositions (fst (Bot.monitorPositions cfg answers st)) !! k)
      as [pos|] eqn:Hk; [|reflexivity].
    eapply lookup_weaken in Hk; [|exact Hsub].
    rewrite Hempty, lookup_empty in Hk. discriminate.
  - destruct file; exact Hempty.
Qed.

(** X8: when the configured strategy tag names none of the three built-in
    policies, the manager has no active strategy and the bot never opens a
    position: the book is empty in every reachable state. *)
Theorem X8_unknown_strategy_never_buys (evs : list (Bot.Event num)) :
  Bot.TRADING_STRATEGY cfg = CUSTOM ->
  Bot.activePositions (Bot.run cfg Bot.initial evs) = ∅.
Proof.
  intros Htag.
  assert (Hgen : forall l st,
    Bot.activePositions st = ∅ -> Bot.activePositions (Bot.run cfg st l) = ∅).
  { induction l as [|ev l IH]; intros st Hst; [exact Hst|].
    cbn. apply IH. now apply step_without_policy. }
  now apply Hgen.
Qed.

End BookOverRuns.

Lemma X8_unknown_strategy_never_buys_witness :
  Bot.activePositions
    (Bot.run untaggedConfig Bot.initial [Bot.PoolAccountChange "POOL" (settledBuy None)])
  = ∅.
Proof.
  apply (X8_unknown_strategy_never_buys untaggedConfig). reflexivity.
Defined.

(** ** Runs of the buy path and iterations of the monitor that overlap *)

Section OverlappingRuns.
Context {num : Type} `{JSNumber num}.
Variable cfg : Bot.Config num.

Lemma serial_discovery (st : Bot.State num) (key : string) (a : Bot.BuyAnswers num) :
  Overlap.bot
    (Overlap.run cfg (Overlap.idle st)
       [Overlap.Discovered key; Overlap.GatesReached 0 a; Overlap.PositionStored 0])
  = Bot.step cfg st (Bot.PoolAccountChange key a).
Proof.
  unfold Overlap.run, Overlap.idle. cbn [foldl Bot.step].
  unfold Bot.onProgramAccountChange.
  cbn [Overlap.step Overlap.bot Overlap.started Overlap.buying Overlap.selling].
  destruct (negb (bool_decide (key ∈ Bot.existingPools st)));
    cbn [Overlap.step Overlap.bot Overlap.started Overlap.buying Overlap.selling
         app lookup list_lookup fst]; [|reflexivity].
  match goal with
  | |- context [Bot.processPumpSwapPool cfg a ?s key] =>
      destruct (process_outcome cfg a s key)
        as [(pos & Hout & _ & _ & Hst)|(Hnever & _ & Hst)]; rewrite Hst
  end.
  - rewrite Hout. reflexivity.
  - rewrite gates_without_buy by exact Hnever. reflexivity.
Qed.

(** X5: a run of processPumpSwapPool changes the bot's state at line 248
    only.  Reaching its gates changes nothing; it goes on to line 248
    exactly when, on the state it reads there, its pool was fetched, the
    token is allowed, has no position and the book has room, the pool is
    liquid, the strategy approves, a size is computed and the buy returns a
    non-empty signature.  Line 248 then sets the entry of the token's mint
    on the state as it is by then: every other entry, the seen pools and
    the allow-list are untouched, and the book grows by one only if no
    entry for the mint was stored in the meantime.  With nothing in
    between, the three steps are the callback run to completion. *)
Theorem X5_buy_path_changes_state_only_on_success (s : Overlap.State num)
    (i : nat) (key : string) (a : Bot.BuyAnswers num) :
  Overlap.started s !! i = Some key ->
  (let s' := Overlap.step cfg s (Overlap.GatesReached i a) in
   Overlap.bot s' = Overlap.bot s
   /\ ((buy_settles cfg a (Overlap.bot s)
        /\ exists pos,
             Overlap.buying s' = Overlap.buying s ++ [pos]
             /\ recorded_by_buy cfg a (mint pos) pos)
       \/ (~ buy_settles cfg a (Overlap.bot s)
           /\ Overlap.buying s' = Overlap.buying s)))
  /\ (forall (later : Overlap.State num) (j : nat) (pos : Position num),
        Overlap.buying later !! j = Some pos ->
        let st := Overlap.bot later in
        let st' := Overlap.bot (Overlap.step cfg later (Overlap.PositionStored j)) in
        Bot.activePositions st' !! mint pos = Some pos
        /\ (forall k, k <> mint pos ->
                      Bot.activePositions st' !! k = Bot.activePositions st !! k)
        /\ size (Bot.activePositions st')
           = match Bot.activePositions st !! mint pos with
             | Some _ => size (Bot.activePositions st)
             | None => S (size (Bot.activePositions st))
             end
        /\ Bot.existingPools st' = Bot.existingPools st
        /\ Bot.snipeList st' = Bot.snipeList st)
  /\ (forall st,
        Overlap.bot
          (Overlap.run cfg (Overlap.idle st)
             [Overlap.Discovered key; Overlap.GatesReached 0 a;
              Overlap.PositionStored 0])
        = Bot.step cfg st (Bot.PoolAccountChange key a)).
Proof.
  intros Hkey. split; [|split].
  - cbv zeta. destruct (gates_step cfg s i key a Hkey) as (Hbot & _ & Hbuying). auto.
  - intros later j pos Hj. cbv zeta. rewrite (store_step cfg later j pos Hj).
    cbn [Overlap.bot Overlap.storePosition Bot.set_positions Bot.activePositions
         Bot.existingPools Bot.snipeList].
    split; [apply lookup_insert_eq|].
    split; [intros k Hk; now apply lookup_insert_ne|].
    split; [|auto].
    rewrite map_size_insert.
    now destruct (Bot.activePositions (Overlap.bot later) !! mint pos).
  - intros st. apply serial_discovery.
Qed.

Lemma peak_covers_now (s : Overlap.State num) (evs : list (Overlap.Step num)) :
  (length (Overlap.buying s) <= Overlap.in_flight_peak cfg s evs)%nat.
Proof. destruct evs; cbn [Overlap.in_flight_peak]; lia. Qed.

Lemma step_book_and_flight (s : Overlap.State num) (ev : Overlap.Step num) :
  let weight (s : Overlap.State num) :=
    Z.of_nat (size (Bot.activePositions (Overlap.bot s)))
    + Z.of_nat (length (Overlap.buying s)) in
  weight (Overlap.step cfg s ev) <= weight s
  \/ weight (Overlap.step cfg s ev)
     <= Z.max 0 (Bot.maxConcurrentPositions cfg - 1)
        + Z.of_nat (length (Overlap.buying (Overlap.step cfg s ev))).
Proof.
  cbv zeta. destruct ev as [key|i a|i|m a|j|file].
  - left. cbn [Overlap.step]. destruct (negb _); cbn; lia.
  - destruct (Overlap.started s !! i) as [key|] eqn:Hkey.
    + destruct (gates_step cfg s i key a Hkey)
        as (-> & _ & [(Hsettles & pos & -> & _)|(_ & ->)]); [right|left; lia].
      destruct Hsettles as (p & z & sig & _ & _ & _ & Hroom & _). lia.
    + left. cbn [Overlap.step]. rewrite Hkey. lia.
  - left. destruct (Overlap.buying s !! i) as [pos|] eqn:Hi.
    + rewrite (store_step cfg s i pos Hi).
      cbn [Overlap.bot Overlap.buying Overlap.storePosition Bot.set_positions
           Bot.activePositions].
      rewrite map_size_insert, length_delete by eauto.
      apply lookup_lt_Some in Hi.
      destruct (Bot.activePositions (Overlap.bot s) !! mint pos); cbn [id]; lia.
    + cbn [Overlap.step]. rewrite Hi. lia.
  - left. cbn [Overlap.step].
    destruct (Bot.activePositions (Overlap.bot s) !! m) as [pos|]; [|lia].
    destruct (snd _); cbn; lia.
  - left. cbn [Overlap.step]. destruct (Overlap.selling s !! j) as [m|]; [|lia].
    cbn [Overlap.bot Overlap.buying Overlap.deletePosition Bot.set_positions
         Bot.activePositions].
    rewrite map_size_delete.
    destruct (Bot.activePositions (Overlap.bot s) !! m); cbn [id]; lia.
  - left. cbn [Overlap.step Overlap.bot Overlap.buying]. destruct file; cbn; lia.
Qed.

Lemma run_book_and_flight (evs : list (Overlap.Step num)) (s : Overlap.State num) :
  Z.of_nat (size (Bot.activePositions (Overlap.bot (Overlap.run cfg s evs))))
  + Z.of_nat (length (Overlap.buying (Overlap.run cfg s evs)))
  <= Z.max
       (Z.of_nat (size (Bot.activePositions (Overlap.bot s)))
        + Z.of_nat (length (Overlap.buying s)))
       (Z.max 0 (Bot.maxConcurrentPositions cfg - 1)
        + Z.of_nat (Overlap.in_flight_peak cfg s evs)).
Proof.
  revert s. induction evs as [|ev evs IH]; intros s.
  - cbn. lia.
  - change (Overlap.run cfg s (ev :: evs))
      with (Overlap.run cfg (Overlap.step cfg s ev) evs).
    specialize (IH (Overlap.step cfg s ev)).
    pose proof (peak_covers_now (Overlap.step cfg s ev) evs) as Hnow.
    pose proof (step_book_and_flight s ev) as Hstep. cbv zeta in Hstep.
    cbn [Overlap.in_flight_peak]. rewrite Nat2Z.inj_max. lia.
Qed.

Lemma store_all (l : list (Position num)) (s : Overlap.State num) :
  Overlap.buying s = l ->
  NoDup (mint <$> l) ->
  (forall pos, pos ∈ l -> Bot.activePositions (Overlap.bot s) !! mint pos = None) ->
  size (Bot.activePositions
          (Overlap.bot
             (Overlap.run cfg s (replicate (length l) (Overlap.PositionStored 0)))))
  = (size (Bot.activePositions (Overlap.bot s)) + length l)%nat.
Proof.
  revert s. induction l as [|pos l IH]; intros s Hl Hdistinct Hnew.
  - cbn. lia.
  - cbn [length replicate].
    change (Overlap.run cfg s (Overlap.PositionStored 0
                               :: replicate (length l) (Overlap.PositionStored 0)))
      with (Overlap.run cfg (Overlap.step cfg s (Overlap.PositionStored 0))
              (replicate (length l) (Overlap.PositionStored 0))).
    assert (Hfirst : Overlap.buying s !! 0%nat = Some pos) by now rewrite Hl.
    rewrite (store_step cfg s 0 pos Hfirst).
    rewrite fmap_cons in Hdistinct. apply NoDup_cons in Hdistinct as [Hfresh Hdistinct].
    rewrite IH.
    + cbn [Overlap.bot Overlap.storePosition Bot.set_positions Bot.activePositions].
      rewrite map_size_insert, Hnew by left. lia.
    + cbn [Overlap.buying]. now rewrite Hl.
    + exact Hdistinct.
    + intros pos' Hin.
      cbn [Overlap.bot Overlap.storePosition Bot.set_positions Bot.activePositions].
      rewrite lookup_insert_ne.
      * apply Hnew. now right.
      * intros Heq. apply Hfresh. rewrite Heq. now apply list_elem_of_fmap_2.
Qed.

(** X6: the ceiling is enforced by the gate of line 205 only.  Over any
    schedule from the initial state, the book plus the runs still between
    their gates and line 248 number at most max(0, ceiling - 1) + P, where
    P is the largest number of such runs in flight at the same time; so
    with a ceiling of at least 1 and runs that do not overlap (P <= 1) the
    book never exceeds the ceiling.  Line 248 does not check again: runs in
    flight for distinct new mints each add a position, whatever the
    ceiling. *)
Theorem X6_ceiling_holds_only_without_overlap (evs : list (Overlap.Step num)) :
  let final := Overlap.run cfg Overlap.initial evs in
  let peak := Overlap.in_flight_peak cfg Overlap.initial evs in
  Z.of_nat (size (Bot.activePositions (Overlap.bot final)))
  + Z.of_nat (length (Overlap.buying final))
  <= Z.max 0 (Bot.maxConcurrentPositions cfg - 1) + Z.of_nat peak
  /\ ((peak <= 1)%nat -> 1 <= Bot.maxConcurrentPositions cfg ->
      Z.of_nat (size (Bot.activePositions (Overlap.bot final)))
      <= Bot.maxConcurrentPositions cfg)
  /\ (forall s : Overlap.State num,
        NoDup (mint <$> Overlap.buying s) ->
        (forall pos, pos ∈ Overlap.buying s ->
                     Bot.activePositions (Overlap.bot s) !! mint pos = None) ->
        size (Bot.activePositions
                (Overlap.bot
                   (Overlap.run cfg s
                      (replicate (length (Overlap.buying s))
                         (Overlap.PositionStored 0)))))
        = (size (Bot.activePositions (Overlap.bot s))
           + length (Overlap.buying s))%nat).
Proof.
  cbv zeta. pose proof (run_book_and_flight evs Overlap.initial) as Hbound.
  change (size (Bot.activePositions (Overlap.bot Overlap.initial)))
    with (size (∅ : gmap string (Position num))) in Hbound.
  change (length (Overlap.buying Overlap.initial)) with 0%nat in Hbound.
  rewrite map_size_empty in Hbound.
  split; [lia|]. split; [lia|].
  intros s Hdistinct Hnew. now apply store_all.
Qed.

Lemma visit_keeps_unsellable (a : Bot.SellAnswers num)
    (book : gmap string (Position num)) (m : string) (pos : Position num) :
  truthy (buyValue pos) = false ->
  forall signature,
    snd (Bot.monitorPosition cfg a book m pos) <> Bot.SellSuccessful signature.
Proof.
  intros Hfalsy.
  destruct (monitorPosition_cases cfg a book m pos)
    as [((price & poolInfo & signature & _ & _ & Hsell & _) & _)|(_ & _ & Hnever)];
    [|exact Hnever].
  rewrite builtin_shouldSell_guard in Hsell by (now left). discriminate.
Qed.

Lemma visit_step_cases (s : Overlap.State num) (m : string) (a : Bot.SellAnswers num) :
  Overlap.step cfg s (Overlap.EntryVisited m a) = s
  \/ (exists pos signature,
        Bot.activePositions (Overlap.bot s) !! m = Some pos
        /\ snd (Bot.monitorPosition cfg a (Bot.activePositions (Overlap.bot s)) m pos)
           = Bot.SellSuccessful signature
        /\ Overlap.step cfg s (Overlap.EntryVisited m a)
           = {| Overlap.bot := Overlap.bot s;
                Overlap.started := Overlap.started s;
                Overlap.buying := Overlap.buying s;
                Overlap.selling := Overlap.selling s ++ [m] |}).
Proof.
  cbn [Overlap.step].
  destruct (Bot.activePositions (Overlap.bot s) !! m) as [pos|]; [|now left].
  destruct (snd _) eqn:Hout; try now left.
  right. exists pos, signature. auto.
Qed.

Lemma step_keeps_unsellable (s : Overlap.State num) (ev : Overlap.Step num)
    (m : string) (pos : Position num) :
  truthy (buyValue pos) = false ->
  Bot.activePositions (Overlap.bot s) !! m = Some pos
  /\ (forall p, p ∈ Overlap.buying s -> mint p <> m)
  /\ m ∉ Overlap.selling s ->
  let s' := Overlap.step cfg s ev in
  Bot.activePositions (Overlap.bot s') !! m = Some pos
  /\ (forall p, p ∈ Overlap.buying s' -> mint p <> m)
  /\ m ∉ Overlap.selling s'.
Proof.
  intros Hfalsy (Hm & Hbuying & Hselling). cbv zeta.
  destruct ev as [key|i a|i|m' a|j|file].
  - cbn [Overlap.step]. destruct (negb _); cbn; auto.
  - destruct (Overlap.started s !! i) as [key|] eqn:Hkey.
    + destruct (gates_step cfg s i key a Hkey)
        as (-> & -> & [(Hsettles & pos' & -> & Hrec)|(_ & ->)]); [|auto].
      split; [exact Hm|]. split; [|exact Hselling].
      intros p Hp. apply elem_of_app in Hp as [Hp|Hp]; [now apply Hbuying|].
      apply list_elem_of_singleton in Hp as ->.
      destruct Hsettles as (p1 & z & sig & Hp1 & _ & Hfree & _).
      destruct Hrec as (p2 & Hp2 & Hmint & _).
      assert (p2 = p1) by congruence. subst p2.
      intros Heq. rewrite Hmint, Heq in Hfree. congruence.
    + cbn [Overlap.step]. rewrite Hkey. auto.
  - destruct (Overlap.buying s !! i) as [pos'|] eqn:Hi.
    + rewrite (store_step cfg s i pos' Hi).
      cbn [Overlap.bot Overlap.buying Overlap.selling Overlap.storePosition
           Bot.set_positions Bot.activePositions].
      split; [|split; [|exact Hselling]].
      * rewrite lookup_insert_ne; [exact Hm|].
        apply Hbuying. eapply list_elem_of_lookup_2. exact Hi.
      * intros p Hp. apply Hbuying. now apply list_elem_of_delete_inv in Hp.
    + cbn [Overlap.step]. rewrite Hi. auto.
  - destruct (visit_step_cases s m' a) as [->|(pos' & sig & Hm' & Hout & ->)]; [auto|].
    cbn [Overlap.bot Overlap.buying Overlap.selling].
    split; [exact Hm|]. split; [exact Hbuying|].
    intros Hin. apply elem_of_app in Hin as [Hin|Hin]; [now apply Hselling|].
    apply list_elem_of_singleton in Hin as <-.
    assert (pos' = pos) by congruence. subst pos'.
    exact (visit_keeps_unsellable a _ m pos Hfalsy sig Hout).
  - cbn [Overlap.step]. destruct (Overlap.selling s !! j) as [m'|] eqn:Hj; [|auto].
    cbn [Overlap.bot Overlap.buying Overlap.selling Overlap.deletePosition
         Bot.set_positions Bot.activePositions].
    split; [|split; [exact Hbuying|]].
    + rewrite lookup_delete_ne; [exact Hm|].
      intros <-. apply Hselling. eapply list_elem_of_lookup_2. exact Hj.
    + intros Hin. apply Hselling. now apply list_elem_of_delete_inv in Hin.
  - cbn [Overlap.step Overlap.bot Overlap.buying Overlap.selling].
    destruct file; cbn; auto.
Qed.

(** X7: a position whose recorded buy value is falsy (0 or NaN) is never
    sold: no visit of the monitoring loop schedules its deletion.  If, at
    some moment, no other run for its mint is between its gates and line
    248 and no deletion of its mint is pending, the position stays in the
    book, unchanged, through every later schedule of overlapping runs and
    iterations, and that remains so.  A run for the same mint that is
    already past its gates does replace it at line 248. *)
Theorem X7_position_without_entry_value_is_never_sold (s : Overlap.State num)
    (m : string) (pos : Position num) :
  truthy (buyValue pos) = false ->
  Bot.activePositions (Overlap.bot s) !! m = Some pos ->
  (forall a,
     Overlap.selling (Overlap.step cfg s (Overlap.EntryVisited m a))
     = Overlap.selling s)
  /\ ((forall p, p ∈ Overlap.buying s -> mint p <> m) ->
      m ∉ Overlap.selling s ->
      forall evs,
        let s' := Overlap.run cfg s evs in
        Bot.activePositions (Overlap.bot s') !! m = Some pos
        /\ (forall p, p ∈ Overlap.buying s' -> mint p <> m)
        /\ m ∉ Overlap.selling s')
  /\ (forall j pos',
        Overlap.buying s !! j = Some pos' -> mint pos' = m ->
        Bot.activePositions
          (Overlap.bot (Overlap.step cfg s (Overlap.PositionStored j))) !! m
        = Some pos').
Proof.
  intros Hfalsy Hm. split; [|split].
  - intros a.
    destruct (visit_step_cases s m a) as [->|(pos' & sig & Hm' & Hout & _)];
      [reflexivity|].
    assert (pos' = pos) by congruence. subst pos'.
    destruct (visit_keeps_unsellable a _ m pos Hfalsy sig Hout).
  - intros Hbuying Hselling evs. cbv zeta.
    assert (Hinv : Bot.activePositions (Overlap.bot s) !! m = Some pos
                   /\ (forall p, p ∈ Overlap.buying s -> mint p <> m)
                   /\ m ∉ Overlap.selling s) by auto.
    clear Hm Hbuying Hselling. revert s Hinv.
    induction evs as [|ev evs IH]; intros s Hinv; [exact Hinv|].
    apply (IH (Overlap.step cfg s ev)).
    now apply step_keeps_unsellable.
  - intros j pos' Hj Hmint. rewrite (store_step cfg s j pos' Hj).
    cbn [Overlap.bot Overlap.storePosition Bot.set_positions Bot.activePositions].
    rewrite Hmint. apply lookup_insert_eq.
Qed.

End OverlappingRuns.

Lemma sample_buy_settles (mintAddress : string) (cfg : Bot.Config Q)
    (st : Bot.State Q) :
  Bot.USE_SNIPE_LIST cfg = false ->
  Bot.MIN_POOL_SIZE cfg = 1%Q ->
  Bot.TRADING_STRATEGY cfg = LIQUIDITY ->
  Bot.activePositions st !! mintAddress = None ->
  Z.of_nat (size (Bot.activePositions st)) < Bot.maxConcurrentPositions cfg ->
  buy_settles cfg (buyOf mintAddress) st.
Proof.
  intros Hlist Hfloor Hty Hfree Hroom.
  exists (poolOf mintAddress), 500000000, "SIG"%string.
  unfold Bot.shouldBuy. rewrite Hlist, Hfloor, Hty.
  repeat split; assumption || reflexivity || discriminate.
Qed.

(** A discovered pool whose buy settles: the gates change nothing and put
    one run in flight, with the position it will store. *)
Lemma X5_buy_path_changes_state_only_on_success_witness :
  let s := Overlap.step sampleConfig Overlap.initial (Overlap.Discovered "POOL") in
  let s' := Overlap.step sampleConfig s (Overlap.GatesReached 0 (buyOf "MINT")) in
  Overlap.bot s' = Overlap.bot s
  /\ exists pos,
       Overlap.buying s' = [pos]
       /\ recorded_by_buy sampleConfig (buyOf "MINT") (mint pos) pos.
Proof.
  intros s s'.
  assert (Hkey : Overlap.started s !! 0%nat = Some "POOL"%string) by reflexivity.
  destruct (X5_buy_path_changes_state_only_on_success sampleConfig s 0 "POOL"
              (buyOf "MINT") Hkey) as [Hgates _].
  cbv zeta in Hgates. destruct Hgates as [Hbot [(_ & pos & Hbuying & Hrec)|(Hno & _)]].
  - split; [exact Hbot|]. exists pos. split; [exact Hbuying|exact Hrec].
  - exfalso. apply Hno. apply sample_buy_settles; reflexivity.
Defined.

(** Ceiling 2: after one buy, three runs pass the gate while the book holds
    one position, and the book ends with four. *)
Lemma X6_ceiling_holds_only_without_overlap_witness :
  let final := Overlap.run ceilingTwoConfig Overlap.initial overlappingBuys in
  size (Bot.activePositions (Overlap.bot final)) = 4%nat
  /\ Bot.maxConcurrentPositions ceilingTwoConfig = 2
  /\ Overlap.in_flight_peak ceilingTwoConfig Overlap.initial overlappingBuys = 3%nat
  /\ Z.of_nat (size (Bot.activePositions (Overlap.bot final)))
     + Z.of_nat (length (Overlap.buying final))
     <= Z.max 0 (Bot.maxConcurrentPositions ceilingTwoConfig - 1)
        + Z.of_nat (Overlap.in_flight_peak ceilingTwoConfig Overlap.initial
                      overlappingBuys).
Proof.
  intros final.
  split; [vm_compute; reflexivity|]. split; [reflexivity|].
  split; [vm_compute; reflexivity|].
  destruct (X6_ceiling_holds_only_without_overlap ceilingTwoConfig overlappingBuys)
    as [Hbound _].
  exact Hbound.
Defined.

(** A position with buy value 0: a visit whose sell would settle, a new
    discovery of the same token and a deletion attempt all leave it. *)
Lemma X7_position_without_entry_value_is_never_sold_witness :
  Bot.activePositions
    (Overlap.bot
       (Overlap.run sampleConfig
          (Overlap.idle (bookOf [("MINT"%string, samplePosition 0)]))
          visitAndRediscover))
    !! "MINT"%string
  = Some (samplePosition 0).
Proof.
  assert (Hfalsy : truthy (buyValue (samplePosition 0)) = false) by reflexivity.
  assert (Hm : Bot.activePositions
                 (Overlap.bot (Overlap.idle (bookOf [("MINT"%string, samplePosition 0)])))
                 !! "MINT"%string = Some (samplePosition 0)) by reflexivity.
  destruct (X7_position_without_entry_value_is_never_sold sampleConfig
              (Overlap.idle (bookOf [("MINT"%string, samplePosition 0)]))
              "MINT" (samplePosition 0) Hfalsy Hm) as (_ & Hstays & _).
  apply Hstays.
  - intros p Hp. cbn in Hp. now apply elem_of_nil in Hp.
  - cbn. apply not_elem_of_nil.
Defined.

(** ** Reconfiguring the strategy manager *)

Section ManagerCalls.
Context {num : Type} `{JSNumber num}.

Lemma new_registry_ok (w : StrategyManager.World num) (ty : StrategyType) :
  registry_ok (StrategyManager.strategies (StrategyManager.new w ty)).
Proof.
  unfold registry_ok, StrategyManager.new, StrategyManager.initializeStrategies.
  cbn [StrategyManager.strategies]. split; [|split; [|split]].
  - intros tag s Hs.
    pose proof (new_active_strategy w tag) as Hactive.
    unfold StrategyManager.getActiveStrategy, StrategyManager.new,
      StrategyManager.initializeStrategies in Hactive.
    cbn [StrategyManager.strategies StrategyManager.activeStrategy] in Hactive.
    rewrite Hactive in Hs. destruct tag; try discriminate;
      injection Hs as <-; reflexivity.
  - rewrite !lookup_insert_ne by discriminate. rewrite lookup_insert_eq. eauto.
  - rewrite lookup_insert_ne by discriminate. rewrite lookup_insert_eq. eauto.
  - rewrite lookup_insert_eq. eauto.
Qed.

Lemma call_keeps_registry (m : StrategyManager.t num) (call : ManagerCall num) :
  registry_ok (StrategyManager.strategies m) ->
  registry_ok (StrategyManager.strategies (reconfigure m [call]))
  /\ (is_Some (StrategyManager.getActiveStrategy m) ->
      is_Some (StrategyManager.getActiveStrategy (reconfigure m [call]))).
Proof.
  intros (Htag & Hm & Hv & Hl). destruct call as [ty|s]; cbn.
  - unfold StrategyManager.setActiveStrategy.
    destruct (StrategyManager.strategies m !! ty) as [s|] eqn:Hty; cbn.
    + split; [repeat split; assumption|]. intros _.
      unfold StrategyManager.getActiveStrategy. cbn. rewrite Hty. eauto.
    + split; [repeat split; assumption|]. auto.
  - unfold StrategyManager.addCustomStrategy, StrategyManager.getActiveStrategy. cbn.
    assert (Hkeep : forall k, is_Some (StrategyManager.strategies m !! k) ->
              is_Some (<[ts_type s := s]> (StrategyManager.strategies m) !! k)).
    { intros k Hk. destruct (decide (ts_type s = k)) as [<-|Hne].
      - rewrite lookup_insert_eq. eauto.
      - now rewrite lookup_insert_ne. }
    split; [|apply Hkeep].
    split; [|split; [|split]]; try (apply Hkeep; assumption).
    intros tag s' Hs'. destruct (decide (ts_type s = tag)) as [<-|Hne].
    + rewrite lookup_insert_eq in Hs'. now injection Hs' as <-.
    + rewrite lookup_insert_ne in Hs' by assumption. now apply Htag.
Qed.

(** X9: starting from a new manager whose initial tag is one of the three
    built-in ones, after any sequence of setActiveStrategy and
    addCustomStrategy calls the manager still has an active strategy,
    registered under the active tag and carrying that tag; the three
    built-in tags stay registered. *)
Theorem X9_manager_keeps_an_active_strategy (w : StrategyManager.World num)
    (initialStrategy : StrategyType) (calls : list (ManagerCall num)) :
  initialStrategy <> CUSTOM ->
  let m := reconfigure (StrategyManager.new w initialStrategy) calls in
  registry_ok (StrategyManager.strategies m)
  /\ exists s,
       StrategyManager.getActiveStrategy m = Some s
       /\ ts_type s = StrategyManager.activeStrategy m.
Proof.
  intros Hbuiltin. cbv zeta.
  assert (Hgen : forall l m,
    registry_ok (StrategyManager.strategies m) ->
    is_Some (StrategyManager.getActiveStrategy m) ->
    registry_ok (StrategyManager.strategies (reconfigure m l))
    /\ is_Some (StrategyManager.getActiveStrategy (reconfigure m l))).
  { induction l as [|call l IH]; intros m Hreg Hact; [auto|].
    destruct (call_keeps_registry m call Hreg) as [Hreg' Hact'].
    change (reconfigure m (call :: l)) with (reconfigure (reconfigure m [call]) l).
    apply IH; auto. }
  destruct (Hgen calls (StrategyManager.new w initialStrategy)) as [Hreg [s Hs]].
  - apply new_registry_ok.
  - rewrite new_active_strategy. destruct initialStrategy; eauto. congruence.
  - split; [exact Hreg|]. exists s. split; [exact Hs|].
    destruct Hreg as [Htag _]. now apply Htag.
Qed.

(** X10: setActiveStrategy with a tag that is not registered changes
    nothing.  After addCustomStrategy s followed by setActiveStrategy of
    s's tag, the manager's three methods give s's answers, or the
    fail-closed defaults where s throws; this also holds when s carries a
    built-in tag, whose policy it then replaces. *)
Theorem X10_custom_strategy_takes_over (m : StrategyManager.t num)
    (s : TradingStrategy num) (p : PumpSwapPoolInfo) (pos : Position num)
    (price : num) :
  (forall tag, StrategyManager.strategies m !! tag = None ->
               StrategyManager.setActiveStrategy m tag = m)
  /\ let m' := StrategyManager.setActiveStrategy
                 (StrategyManager.addCustomStrategy m s) (ts_type s) in
     StrategyManager.getActiveStrategy m' = Some s
     /\ StrategyManager.shouldBuy m' p
        = try_catch (ts_shouldBuy s p) (fun _ => Ret false)
     /\ StrategyManager.shouldSell m' pos price
        = try_catch (ts_shouldSell s pos price) (fun _ => Ret false)
     /\ StrategyManager.calculatePositionSize m' p
        = try_catch (ts_calculatePositionSize s p) (fun _ => Ret 10000000).
Proof.
  split.
  - intros tag Hnone. unfold StrategyManager.setActiveStrategy. now rewrite Hnone.
  - cbv zeta.
    assert (Hactive :
      StrategyManager.getActiveStrategy
        (StrategyManager.setActiveStrategy
           (StrategyManager.addCustomStrategy m s) (ts_type s)) = Some s).
    { unfold StrategyManager.setActiveStrategy, StrategyManager.addCustomStrategy,
        StrategyManager.getActiveStrategy. cbn.
      rewrite lookup_insert_eq. cbn. apply lookup_insert_eq. }
    split; [exact Hactive|].
    unfold StrategyManager.shouldBuy, StrategyManager.shouldSell,
      StrategyManager.calculatePositionSize. rewrite Hactive.
    split; [|split].
    + destruct (ts_shouldBuy s p); reflexivity.
    + destruct (ts_shouldSell s pos price); reflexivity.
    + destruct (ts_calculatePositionSize s p); reflexivity.
Qed.

End ManagerCalls.

Lemma X9_manager_keeps_an_active_strategy_witness :
  exists s,
    StrategyManager.getActiveStrategy
      (reconfigure (StrategyManager.new quietWorld MOMENTUM)
         [CallSetActiveStrategy CUSTOM;
          CallAddCustomStrategy (constantStrategy MOMENTUM true false 1);
          CallSetActiveStrategy LIQUIDITY]) = Some s
    /\ ts_type s = LIQUIDITY.
Proof.
  assert (Hbuiltin : MOMENTUM <> CUSTOM) by discriminate.
  destruct (X9_manager_keeps_an_active_strategy quietWorld MOMENTUM
              [CallSetActiveStrategy CUSTOM;
               CallAddCustomStrategy (constantStrategy MOMENTUM true false 1);
               CallSetActiveStrategy LIQUIDITY] Hbuiltin) as [_ (s & Hs & Htag)].
  exists s. split; [exact Hs|]. rewrite Htag. reflexivity.
Defined.

Lemma X10_custom_strategy_takes_over_witness :
  StrategyManager.setActiveStrategy (StrategyManager.new quietWorld MOMENTUM) CUSTOM
  = StrategyManager.new quietWorld MOMENTUM.
Proof.
  destruct (X10_custom_strategy_takes_over (StrategyManager.new quietWorld MOMENTUM)
              faultyStrategy samplePool (samplePosition 1) 2%Q) as [Hnoop _].
  apply Hnoop. exact (new_active_strategy quietWorld CUSTOM).
Defined.

(** ** Momentum: the price history *)

Section MomentumHistory.
Context {num : Type} `{JSNumber num}.
Variable cfg : Momentum.Config num.

Lemma call_keeps_windows (priceHistory : gmap string (list num))
    (call : MomentumCall num) :
  0 < Momentum.lookbackPeriod cfg ->
  windows_ok cfg priceHistory -> windows_ok cfg (history_after cfg priceHistory [call]).
Proof.
  intros Hpos Hok. destruct call as [poolInfo price|m]; cbn.
  - destruct price as [[p|]|e]; try exact Hok.
    destruct (truthy p) eqn:Htruthy.
    2:{ unfold Momentum.shouldBuy. rewrite Htruthy. exact Hok. }
    rewrite shouldBuy_on_window by assumption. cbn [snd].
    intros k h Hk. destruct (decide (baseMint poolInfo = k)) as [<-|Hne].
    + rewrite lookup_insert_eq in Hk. injection Hk as <-.
      rewrite recent_snoc by lia. rewrite length_app, recent_length. cbn [length].
      split; [lia|]. split; [lia|].
      apply Forall_app. split; [|repeat constructor; assumption].
      unfold recent. apply Forall_drop.
      destruct (priceHistory !! baseMint poolInfo) as [old|] eqn:Hold; cbn.
      * exact (proj2 (proj2 (Hok _ _ Hold))).
      * constructor.
    + rewrite lookup_insert_ne in Hk by assumption. exact (Hok k h Hk).
  - intros k h Hk. unfold Momentum.clearHistory in Hk.
    apply lookup_delete_Some in Hk as [_ Hk]. exact (Hok k h Hk).
Qed.

(** X11: with a positive look-back period, after any sequence of shouldBuy
    and clearHistory calls on a fresh Momentum policy, every token's stored
    history has between 1 and lookbackPeriod entries, all of them truthy
    (so no later division is by a recorded zero). *)
Theorem X11_momentum_window_bounded (calls : list (MomentumCall num))
    (mintAddress : string) (history : list num) :
  0 < Momentum.lookbackPeriod cfg ->
  history_after cfg ∅ calls !! mintAddress = Some history ->
  (1 <= length history)%nat
  /\ Z.of_nat (length history) <= Momentum.lookbackPeriod cfg
  /\ Forall (fun price => truthy price = true) history.
Proof.
  intros Hpos.
  assert (Hgen : forall l h, windows_ok cfg h -> windows_ok cfg (history_after cfg h l)).
  { induction l as [|call l IH]; intros h Hh; [exact Hh|].
    change (history_after cfg h (call :: l))
      with (history_after cfg (history_after cfg h [call]) l).
    apply IH. now apply call_keeps_windows. }
  apply (Hgen calls ∅). intros k h Hk. now rewrite lookup_empty in Hk.
Qed.

(** X12: with a look-back period of 0 the history is never trimmed: each
    available price is appended and all earlier ones are kept, because
    slice(-0) is slice(0). *)
Theorem X12_momentum_zero_lookback_keeps_everything
    (priceHistory : gmap string (list num)) (poolInfo : PumpSwapPoolInfo) (p : num) :
  Momentum.lookbackPeriod cfg = 0 ->
  truthy p = true ->
  snd (Momentum.shouldBuy cfg priceHistory poolInfo (Ret (Some p)))
    !! baseMint poolInfo
  = Some (default [] (priceHistory !! baseMint poolInfo) ++ [p]).
Proof.
  intros Hzero Htruthy. unfold Momentum.shouldBuy. rewrite Htruthy, Hzero. cbn [negb].
  set (h := default [] (priceHistory !! baseMint poolInfo) ++ [p]).
  assert (Hslice : (if Z.of_nat (length h) >? 0 then slice_from (- 0) h else h) = h).
  { destruct (Z.of_nat (length h) >? 0); [|reflexivity].
    unfold slice_from. cbn. rewrite Z.min_l by lia. reflexivity. }
  rewrite Hslice.
  destruct (Z.of_nat (length h) <? 2); cbn [snd]; [apply lookup_insert_eq|].
  destruct (index h 0); [|apply lookup_insert_eq].
  destruct (index h (Z.of_nat (length h) - 2)); [|apply lookup_insert_eq].
  destruct (ngeb _ _); apply lookup_insert_eq.
Qed.

(** X13: the first observation of a token never buys, whatever the price
    and the configuration; in particular right after clearHistory. *)
Theorem X13_momentum_first_observation_never_buys
    (priceHistory : gmap string (list num)) (poolInfo : PumpSwapPoolInfo)
    (currentPrice : Exc (option num)) :
  (priceHistory !! baseMint poolInfo = None ->
   fst (Momentum.shouldBuy cfg priceHistory poolInfo currentPrice) = false)
  /\ fst (Momentum.shouldBuy cfg
            (Momentum.clearHistory priceHistory (baseMint poolInfo))
            poolInfo currentPrice) = false.
Proof.
  assert (Hfirst : forall h, h !! baseMint poolInfo = None ->
            fst (Momentum.shouldBuy cfg h poolInfo currentPrice) = false).
  { intros h Hnone. unfold Momentum.shouldBuy. rewrite Hnone.
    destruct currentPrice as [[p|]|e]; try reflexivity.
    destruct (truthy p); [|reflexivity]. cbn [negb default app length].
    assert (Hshort : forall l : list num, (length l <= 1)%nat ->
              (Z.of_nat (length l) <? 2) = true).
    { intros l Hl. apply Z.ltb_lt. lia. }
    destruct (Z.of_nat 1 >? Momentum.lookbackPeriod cfg).
    - rewrite Hshort; [reflexivity|].
      unfold slice_from. rewrite length_drop. cbn. lia.
    - rewrite Hshort; [reflexivity|]. cbn. lia. }
  split; [apply Hfirst|].
  apply Hfirst. apply lookup_delete_eq.
Qed.

(** X14: for a position with a truthy buy value and a non-zero current
    price, Momentum.shouldSell is true exactly when the change since the
    buy reaches the take-profit, or falls to minus the stop-loss, or the
    last three recorded prices of the token are strictly decreasing while
    the change is positive. *)
Theorem X14_momentum_sell_triggers (priceHistory : gmap string (list num))
    (pos : Position num) (price : num) :
  truthy (buyValue pos) = true ->
  is_zero price = false ->
  let change := percent_change price (buyValue pos) in
  Momentum.shouldSell cfg priceHistory pos price = true
  <-> ngeb change (Momentum.takeProfitPercent cfg) = true
      \/ nleb change (nneg (Momentum.stopLossPercent cfg)) = true
      \/ (last_three_falling (default [] (priceHistory !! mint pos))
          /\ ngtb change (of_Z 0) = true).
Proof.
  intros Htruthy Hnz. cbv zeta. unfold Momentum.shouldSell.
  rewrite Htruthy, Hnz. cbn [negb orb].
  destruct (ngeb _ _); [split; auto|].
  destruct (nleb _ _); [split; auto|].
  set (h := default [] (priceHistory !! mint pos)).
  assert (Hdown : 3 <= Z.of_nat (length h) ->
            Momentum.every_below_previous None (slice_from (-3) h) = true
            <-> last_three_falling h).
  { intros Hlen. destruct (split_last3 h) as (pre & a & b & c & Hh); [lia|].
    rewrite Hh, slice_from_last3. cbn. rewrite andb_true_r, andb_true_iff.
    split.
    - intros [Hba Hcb]. exists pre, a, b, c. auto.
    - intros (pre' & a' & b' & c' & Heq & Hba & Hcb).
      assert (Hlast : [a; b; c] = [a'; b'; c']).
      { apply (app_inj_2 pre pre'); [reflexivity | exact Heq]. }
      injection Hlast as -> -> ->. auto. }
  destruct (Z.leb_spec 3 (Z.of_nat (length h))) as [Hlen|Hlen].
  - specialize (Hdown Hlen).
    destruct (Momentum.every_below_previous None (slice_from (-3) h)) eqn:Hev; cbn [andb].
    + destruct (ngtb _ _).
      * split; [intros _|reflexivity]. right. right. split; [now apply Hdown|reflexivity].
      * split; [discriminate|]. intros [?|[?|[_ ?]]]; discriminate.
    + split; [discriminate|].
      intros [?|[?|[Hfall _]]]; try discriminate. apply Hdown in Hfall. discriminate.
  - split; [discriminate|].
    intros [?|[?|[(pre & a & b & c & Heq & _) _]]]; try discriminate.
    rewrite Heq, length_app in Hlen. cbn in Hlen. lia.
Qed.

End MomentumHistory.

Lemma X11_momentum_window_bounded_witness :
  history_after Momentum.defaults ∅ risingPrices !! "MINT"%string
  = Some [2%Q; 3%Q; 4%Q; 5%Q; 6%Q]
  /\ (1 <= length [2%Q; 3%Q; 4%Q; 5%Q; 6%Q])%nat
  /\ Z.of_nat (length [2%Q; 3%Q; 4%Q; 5%Q; 6%Q])
     <= Momentum.lookbackPeriod (Momentum.defaults (num := Q))
  /\ Forall (fun price => truthy price = true) [2%Q; 3%Q; 4%Q; 5%Q; 6%Q].
Proof.
  assert (Hstored : history_after Momentum.defaults ∅ risingPrices !! "MINT"%string
                    = Some [2%Q; 3%Q; 4%Q; 5%Q; 6%Q]) by reflexivity.
  split; [exact Hstored|].
  apply (X11_momentum_window_bounded Momentum.defaults risingPrices "MINT"%string);
    [reflexivity | exact Hstored].
Defined.

Lemma X12_momentum_zero_lookback_keeps_everything_witness :
  snd (Momentum.shouldBuy zeroLookback {["MINT"%string := [1%Q; 2%Q]]} samplePool
         (Ret (Some 3%Q))) !! "MINT"%string
  = Some (default [] (({["MINT"%string := [1%Q; 2%Q]]} : gmap string (list Q))
                        !! "MINT"%string) ++ [3%Q]).
Proof.
  apply (X12_momentum_zero_lookback_keeps_everything zeroLookback); reflexivity.
Defined.

Lemma X13_momentum_first_observation_never_buys_witness :
  fst (Momentum.shouldBuy Momentum.defaults ∅ samplePool (Ret (Some 1000%Q))) = false.
Proof.
  destruct (X13_momentum_first_observation_never_buys Momentum.defaults ∅ samplePool
              (Ret (Some 1000%Q))) as [Hfirst _].
  apply Hfirst. reflexivity.
Defined.

Lemma X14_momentum_sell_triggers_witness :
  Momentum.shouldSell Momentum.defaults ∅ (samplePosition 1) (Qmake 15 10) = true.
Proof.
  assert (Htruthy : truthy (buyValue (samplePosition 1)) = true) by reflexivity.
  assert (Hnz : is_zero (Qmake 15 10) = false) by reflexivity.
  apply (X14_momentum_sell_triggers Momentum.defaults ∅ (samplePosition 1) (Qmake 15 10)
           Htruthy Hnz).
  left. reflexivity.
Defined.

(** ** Volume: buy and sell signals on the same market data *)

Lemma Q_or_zero_nonneg (o : option Q) :
  (forall v, o = Some v -> (0 <= v)%Q) -> (0 <= or_zero o)%Q.
Proof.
  intros Ho. destruct o as [v|]; cbn; [|discriminate].
  destruct (negb (Qeq_bool v 0)); [now apply Ho | discriminate].
Qed.

(** X15: with a volume-decline threshold between 0 and 100 and a
    non-negative 6-hour volume, market data on which Volume.shouldBuy says
    buy never triggers the volume-decline or the high-volume sell-off exit:
    on that data shouldSell decides as it does without market data, by
    take-profit and stop-loss alone. *)
Theorem X15_volume_buy_data_triggers_no_volume_exit (cfg : Volume.Config Q)
    (tokenData : Volume.TokenData Q) (pos : Position Q) (price : Q) :
  (0 <= Volume.volumeDeclineThreshold cfg <= 100)%Q ->
  (forall v, Volume.volume_h6 tokenData = Some v -> (0 <= v)%Q) ->
  Volume.shouldBuy cfg (Some tokenData) = true ->
  Volume.shouldSell cfg (Some tokenData) pos price
  = Volume.shouldSell cfg None pos price.
Proof.
  intros [Ht0 Ht100] Hv6 Hbuy. apply Q_or_zero_nonneg in Hv6.
  unfold Volume.shouldBuy in Hbuy. unfold Volume.shouldSell.
  destruct (nltb (or_zero (Volume.volume_h24 tokenData)) _); [discriminate|].
  destruct (nltb (or_zero (Volume.liquidity_usd tokenData)) _); [discriminate|].
  apply andb_true_iff in Hbuy as [Hrising Hup].
  destruct (negb _ || _); [reflexivity|].
  destruct (ngeb _ _); [reflexivity|].
  destruct (nleb _ _); [reflexivity|].
  set (v1 := or_zero (Volume.volume_h1 tokenData)) in *.
  set (v6 := or_zero (Volume.volume_h6 tokenData)) in *.
  set (pc := or_zero (Volume.priceChange_h1 tokenData)) in *.
  set (t := Volume.volumeDeclineThreshold cfg) in *.
  cbn [nltb ngtb ndiv nmul nsub of_Z lit QNumber] in *.
  apply negb_true_iff in Hrising, Hup.
  assert (Hr : (v6 / inject_Z 6 * Qmake 3 2 < v1)%Q).
  { apply Qnot_le_lt. intros Hle. apply Qle_bool_iff in Hle. congruence. }
  assert (Hp : (inject_Z 0 < pc)%Q).
  { apply Qnot_le_lt. intros Hle. apply Qle_bool_iff in Hle. congruence. }
  assert (Havg : (0 <= v6 / inject_Z 6)%Q).
  { apply Qle_shift_div_l; [reflexivity|]. rewrite Qmult_0_l. exact Hv6. }
  set (avg := (v6 / inject_Z 6)%Q) in *.
  assert (Hfactor : (0 <= inject_Z 1 - t / inject_Z 100 <= 1)%Q).
  { assert (Hdiv : (t / inject_Z 100 == t * Qmake 1 100)%Q) by reflexivity.
    rewrite Hdiv. change (inject_Z 1) with 1%Q. split; lra. }
  set (f := (inject_Z 1 - t / inject_Z 100)%Q) in *.
  assert (Hprod : (avg * f <= avg)%Q).
  { destruct Hfactor as [Hf0 Hf1]. nra. }
  assert (Hdecline : Qle_bool (avg * f) v1 = true).
  { apply Qle_bool_iff. lra. }
  rewrite Hdecline. cbn [negb].
  assert (Hselloff : Qle_bool (inject_Z (-5)) pc = true).
  { apply Qle_bool_iff. change (inject_Z 0) with 0%Q in Hp.
    change (inject_Z (-5)) with (-5)%Q. lra. }
  rewrite Hselloff. reflexivity.
Qed.

Lemma X15_volume_buy_data_triggers_no_volume_exit_witness :
  Volume.shouldSell Volume.defaults (Some busyMarket) (samplePosition 1) (Qmake 12 10)
  = Volume.shouldSell Volume.defaults None (samplePosition 1) (Qmake 12 10).
Proof.
  apply (X15_volume_buy_data_triggers_no_volume_exit Volume.defaults busyMarket).
  - split; discriminate.
  - intros v Hv. injection Hv as <-. discriminate.
  - reflexivity.
Defined.

(** ** Liquidity: buy decision and timed exit *)

Section LiquidityFaults.
Context {num : Type} `{JSNumber num}.

(** X16: Liquidity.shouldBuy never throws: a bigint division by zero inside
    the price-impact computation (possible only for a negative reserve) is
    caught and answered with false. *)
Theorem X16_liquidity_buy_never_throws (cfg : Liquidity.Config num) (now : Z)
    (p : PumpSwapPoolInfo) :
  (exists decision, Liquidity.shouldBuy cfg now p = Ret decision)
  /\ ((exists e, Liquidity.calculatePriceImpact (num := num) 100000000
                   (quoteReserve p) (baseReserve p) = Throw e) ->
      nltb (ndiv (of_Z (quoteReserve p)) (pow10 (quoteDecimals p)))
           (Liquidity.minLiquiditySOL cfg) = false ->
      Liquidity.shouldBuy cfg now p = Ret false).
Proof.
  unfold Liquidity.shouldBuy. split.
  - destruct (nltb _ _); [eauto|].
    destruct (Liquidity.calculatePriceImpact _ _ _) as [v|e]; cbn; [|eauto].
    destruct (ngtb _ _); cbn; [eauto|].
    destruct (_ && _); cbn; eauto.
  - intros [e He] Hliquid. rewrite Hliquid, He. reflexivity.
Qed.

End LiquidityFaults.

Lemma X16_liquidity_buy_never_throws_witness :
  let p := {| poolId := "POOL"; baseMint := "MINT"; quoteMint := "WSOL";
              baseDecimals := 6; quoteDecimals := 9;
              baseReserve := 1000; quoteReserve := -99750000;
              lpSupply := 0; createdAt := 0 |} in
  let cfg := {| Liquidity.minLiquiditySOL := (-1)%Q; Liquidity.maxPriceImpact := 2%Q;
                Liquidity.takeProfitPercent := 30%Q; Liquidity.stopLossPercent := 20%Q;
                Liquidity.liquidityGrowthThreshold := 20%Q |} in
  Liquidity.shouldBuy cfg 0 p = Ret false.
Proof.
  intros p cfg.
  destruct (X16_liquidity_buy_never_throws cfg 0 p) as [_ Hcaught].
  apply Hcaught; [|reflexivity].
  exists "RangeError: Division by zero"%string. reflexivity.
Defined.

(** X17: a pool with a zero base or quote reserve has price impact 100,
    so Liquidity.shouldBuy declines it whenever the configured maximum
    price impact is below 100 (the default is 2). *)
Theorem X17_liquidity_declines_empty_pool (cfg : Liquidity.Config Q) (now : Z)
    (p : PumpSwapPoolInfo) :
  baseReserve p = 0 \/ quoteReserve p = 0 ->
  (Liquidity.maxPriceImpact cfg < 100)%Q ->
  Liquidity.calculatePriceImpact (num := Q) 100000000 (quoteReserve p) (baseReserve p)
  = Ret 100%Q
  /\ Liquidity.shouldBuy cfg now p = Ret false.
Proof.
  intros Hzero Hmax.
  assert (Himpact :
    Liquidity.calculatePriceImpact (num := Q) 100000000 (quoteReserve p) (baseReserve p)
    = Ret 100%Q).
  { unfold Liquidity.calculatePriceImpact.
    destruct Hzero as [-> | ->]; [rewrite orb_true_r|]; reflexivity. }
  split; [exact Himpact|].
  unfold Liquidity.shouldBuy. rewrite Himpact.
  destruct (nltb _ _); [reflexivity|]. cbn [bind try_catch].
  assert (Hover : ngtb 100%Q (Liquidity.maxPriceImpact cfg) = true).
  { cbn. apply negb_true_iff. destruct (Qle_bool 100 _) eqn:Hle; [|reflexivity].
    apply Qle_bool_iff in Hle. lra. }
  rewrite Hover. reflexivity.
Qed.

Lemma X17_liquidity_declines_empty_pool_witness :
  Liquidity.shouldBuy Liquidity.defaults 0 drainedPool = Ret false.
Proof.
  apply (X17_liquidity_declines_empty_pool Liquidity.defaults 0 drainedPool).
  - left. reflexivity.
  - reflexivity.
Defined.

Section LiquidityExit.
Context {num : Type} `{JSNumber num}.

(** X18: for a position with a truthy buy value and a non-zero current
    price, Liquidity.shouldSell is true exactly when the computed change
    since the buy reaches the take-profit, or falls to minus the
    stop-loss, or the position has been held for more than one hour and
    the change is below 5.  The change and the comparisons are those of the
    number type the code runs on. *)
Theorem X18_liquidity_sell_triggers (cfg : Liquidity.Config num) (now : Z)
    (pos : Position num) (price : num) :
  truthy (buyValue pos) = true ->
  is_zero price = false ->
  let change := percent_change price (buyValue pos) in
  Liquidity.shouldSell cfg now pos price = true
  <-> ngeb change (Liquidity.takeProfitPercent cfg) = true
      \/ nleb change (nneg (Liquidity.stopLossPercent cfg)) = true
      \/ (now - timestamp pos > 3600000 /\ nltb change (of_Z 5) = true).
Proof.
  intros Htruthy Hnz. cbv zeta. unfold Liquidity.shouldSell.
  rewrite Htruthy, Hnz. cbn [negb orb].
  change (60 * 60 * 1000) with 3600000.
  destruct (ngeb _ _); [split; auto|].
  destruct (nleb _ _); [split; auto|].
  destruct (Z.gtb_spec (now - timestamp pos) 3600000) as [Hheld|Hheld]; cbn [andb].
  - destruct (nltb _ _).
    + split; [intros _|reflexivity]. right. right. split; [lia|reflexivity].
    + split; [discriminate|]. intros [?|[?|[_ ?]]]; discriminate.
  - split; [discriminate|]. intros [?|[?|[? _]]]; try discriminate. lia.
Qed.

End LiquidityExit.

(** Bought at 1 and held for two hours: at 1.03125 the change is 3.125,
    below 5, and the position is sold. *)
Lemma X18_liquidity_sell_triggers_witness :
  Liquidity.shouldSell Liquidity.defaults 7200000 (samplePosition 1) (Qmake 33 32) = true.
Proof.
  assert (Htruthy : truthy (buyValue (samplePosition 1)) = true) by reflexivity.
  assert (Hnz : is_zero (Qmake 33 32) = false) by reflexivity.
  apply (X18_liquidity_sell_triggers Liquidity.defaults 7200000 (samplePosition 1)
           (Qmake 33 32) Htruthy Hnz).
  right. right. split; reflexivity.
Defined.

(** ** Pool snapshots produced by getPoolInfo *)

Section FetchedPools.
Context {num : Type} `{JSNumber num}.

Lemma fetched_pool_fields PublicKey now id accountInfo p :
  PumpSwapExecution.getPoolInfo PublicKey now id accountInfo
  = PumpSwapExecution.FetchedPool p ->
  poolId p = id /\ baseReserve p = 0 /\ quoteReserve p = 0 /\ lpSupply p = 0
  /\ createdAt p = now.
Proof.
  unfold PumpSwapExecution.getPoolInfo.
  destruct accountInfo as [[data|]|e]; try discriminate.
  destruct (bind _ _) as [[bm qm]|e]; try discriminate.
  destruct (data !! 168%nat); try discriminate.
  destruct (data !! 169%nat); try discriminate.
  intros Hp. injection Hp as <-. cbn. auto.
Qed.

(** X19: getPoolInfo never fills in the reserves.  Any snapshot it returns
    carries the requested pool id, the current time as creation time, and
    zero base reserve, quote reserve and LP supply; so the price read from
    it is 0 and all three policies size a position at the minimum
    10_000_000.  It returns null when the account is missing, the lookup
    throws or a key constructor throws, and a snapshot whenever the data
    has at least 170 bytes and the key constructor accepts its slices. *)
Theorem X19_fetched_pool_has_no_reserves (PublicKey : list Z -> Exc string)
    (now : Z) (id : string) :
  (forall accountInfo p,
     PumpSwapExecution.getPoolInfo PublicKey now id accountInfo
     = PumpSwapExecution.FetchedPool p ->
     (poolId p = id /\ createdAt p = now
      /\ baseReserve p = 0 /\ quoteReserve p = 0 /\ lpSupply p = 0)
     /\ PumpSwapClient.getCurrentPrice (num := num) (Some p) = of_Z 0
     /\ Momentum.calculatePositionSize p = 10000000
     /\ Volume.calculatePositionSize p = 10000000
     /\ Liquidity.calculatePositionSize p = 10000000)
  /\ PumpSwapExecution.getPoolInfo PublicKey now id (Ret None)
     = PumpSwapExecution.FetchedNull
  /\ (forall e, PumpSwapExecution.getPoolInfo PublicKey now id (Throw e)
                = PumpSwapExecution.FetchedNull)
  /\ (forall data e,
        PublicKey (PumpSwapExecution.buffer_slice data 8 40) = Throw e ->
        PumpSwapExecution.getPoolInfo PublicKey now id (Ret (Some data))
        = PumpSwapExecution.FetchedNull)
  /\ (forall data,
        (170 <= length data)%nat ->
        (forall bytes, exists key, PublicKey bytes = Ret key) ->
        exists p, PumpSwapExecution.getPoolInfo PublicKey now id (Ret (Some data))
                  = PumpSwapExecution.FetchedPool p).
Proof.
  split; [|split; [reflexivity|split; [reflexivity|split]]].
  - intros accountInfo p Hp.
    destruct (fetched_pool_fields _ _ _ _ _ Hp) as (Hid & Hb & Hq & Hl & Hc).
    split; [auto|]. split.
    + cbn. now rewrite Hb.
    + unfold Momentum.calculatePositionSize, Volume.calculatePositionSize,
        Liquidity.calculatePositionSize. rewrite Hq. cbn. auto.
  - intros data e He. unfold PumpSwapExecution.getPoolInfo. now rewrite He.
  - intros data Hlen Hkeys. unfold PumpSwapExecution.getPoolInfo.
    destruct (Hkeys (PumpSwapExecution.buffer_slice data 8 40)) as [k1 ->].
    destruct (Hkeys (PumpSwapExecution.buffer_slice data 40 72)) as [k2 ->].
    destruct (Hkeys (PumpSwapExecution.buffer_slice data 72 104)) as [k3 ->].
    destruct (Hkeys (PumpSwapExecution.buffer_slice data 104 136)) as [k4 ->].
    destruct (Hkeys (PumpSwapExecution.buffer_slice data 136 168)) as [k5 ->].
    cbn [bind].
    destruct (lookup_lt_is_Some_2 data 168) as [b ->]; [lia|].
    destruct (lookup_lt_is_Some_2 data 169) as [q ->]; [lia|].
    eauto.
Qed.

End FetchedPools.

Lemma X19_fetched_pool_has_no_reserves_witness :
  exists p,
    PumpSwapExecution.getPoolInfo sampleKey 0 "POOL" (Ret (Some sampleAccount))
    = PumpSwapExecution.FetchedPool p
    /\ baseMint p = "MINT"%string /\ baseDecimals p = 6 /\ quoteDecimals p = 9
    /\ quoteReserve p = 0
    /\ PumpSwapClient.getCurrentPrice (num := Q) (Some p) = 0%Q.
Proof.
  eexists. split; [reflexivity|].
  split; [reflexivity|]. split; [reflexivity|]. split; [reflexivity|].
  split; [reflexivity|].
  destruct (X19_fetched_pool_has_no_reserves (num := Q) sampleKey 0 "POOL")
    as (Hzero & _).
  destruct (Hzero (Ret (Some sampleAccount)) _ eq_refl) as (_ & Hprice & _).
  exact Hprice.
Defined.

(** ** The bot on snapshots produced by getPoolInfo *)

Lemma no_liquidity_without_reserve (p : PumpSwapPoolInfo) (floor : Q) :
  quoteReserve p = 0 -> (0 < floor)%Q ->
  PumpSwapClient.hasMinimumLiquidity p floor = false.
Proof.
  intros Hq Hfloor. unfold PumpSwapClient.hasMinimumLiquidity. rewrite Hq. cbn.
  destruct (Qle_bool floor _) eqn:Hle; [|reflexivity].
  apply Qle_bool_iff in Hle.
  assert (Hz : (inject_Z 0 / Qpower (inject_Z 10) (quoteDecimals p) == 0)%Q).
  { unfold Qdiv. apply Qmult_0_l. }
  rewrite Hz in Hle. lra.
Qed.

Lemma fetched_snapshot_is_skipped (cfg : Bot.Config Q) (a : Bot.BuyAnswers Q)
    (st : Bot.State Q) (pid : string) :
  (0 < Bot.MIN_POOL_SIZE cfg)%Q ->
  snapshot_from_getPoolInfo (Bot.ans_poolInfo a) ->
  Bot.res_state (Bot.processPumpSwapPool cfg a st pid) = st.
Proof.
  intros Hfloor (PublicKey & now & id & accountInfo & Hsnap).
  destruct (PumpSwapExecution.getPoolInfo PublicKey now id accountInfo)
    as [|p|] eqn:Hfetch; [| |contradiction].
  - unfold Bot.processPumpSwapPool. now rewrite Hsnap.
  - destruct (fetched_pool_fields _ _ _ _ _ Hfetch) as (_ & _ & Hq & _).
    unfold Bot.processPumpSwapPool. rewrite Hsnap.
    destruct (negb _); [reflexivity|].
    destruct (bool_decide _); [reflexivity|].
    destruct (_ >=? _); [reflexivity|].
    rewrite no_liquidity_without_reserve by assumption. reflexivity.
Qed.

(** X20: when the minimum pool size is positive and every discovery's
    snapshot is one getPoolInfo can produce, no run of the bot ever opens a
    position: the zero quote reserve fails the liquidity gate each time. *)
Theorem X20_fetched_snapshots_never_pass_liquidity_gate (cfg : Bot.Config Q)
    (evs : list (Bot.Event Q)) :
  (0 < Bot.MIN_POOL_SIZE cfg)%Q ->
  discoveries_from_getPoolInfo evs ->
  Bot.activePositions (Bot.run cfg Bot.initial evs) = ∅.
Proof.
  intros Hfloor.
  assert (Hgen : forall l st,
    Bot.activePositions st = ∅ -> discoveries_from_getPoolInfo l ->
    Bot.activePositions (Bot.run cfg st l) = ∅).
  { induction l as [|ev l IH]; intros st Hst Hall; [exact Hst|].
    apply Forall_cons in Hall as [Hev Hall]. cbn. apply IH; [|exact Hall].
    destruct ev as [key a|answers|file]; cbn [Bot.step].
    - unfold Bot.onProgramAccountChange.
      destruct (negb _); cbn [fst]; [|exact Hst].
      rewrite fetched_snapshot_is_skipped by assumption. exact Hst.
    - rewrite monitorPositions_unfold. cbn [fst Bot.set_positions Bot.activePositions].
      rewrite Hst, map_to_list_empty. reflexivity.
    - destruct file; exact Hst. }
  intros Hall. now apply Hgen.
Qed.

Lemma X20_fetched_snapshots_never_pass_liquidity_gate_witness :
  Bot.ans_poolInfo fetchedBuy <> None
  /\ Bot.activePositions
       (Bot.run sampleConfig Bot.initial [Bot.PoolAccountChange "POOL" fetchedBuy])
     = ∅.
Proof.
  split; [discriminate|].
  apply (X20_fetched_snapshots_never_pass_liquidity_gate sampleConfig).
  - reflexivity.
  - constructor; [|constructor].
    exists sampleKey, 0, "POOL"%string, (Ret (Some sampleAccount)). reflexivity.
Defined.

Lemma fetched_price_is_zero (fresh : option PumpSwapPoolInfo) :
  snapshot_from_getPoolInfo fresh ->
  PumpSwapClient.getCurrentPrice (num := Q) fresh = 0%Q.
Proof.
  intros (PublicKey & now & id & accountInfo & Hsnap).
  destruct (PumpSwapExecution.getPoolInfo PublicKey now id accountInfo)
    as [|p|] eqn:Hfetch; [| |contradiction]; rewrite Hsnap; [reflexivity|].
  destruct (fetched_pool_fields _ _ _ _ _ Hfetch) as (_ & Hb & _).
  cbn. rewrite Hb. reflexivity.
Qed.

Lemma unpriced_same (s s' : Overlap.State Q) :
  Overlap.selling s' = Overlap.selling s ->
  Bot.activePositions (Overlap.bot s') = Bot.activePositions (Overlap.bot s) ->
  Overlap.buying s' = Overlap.buying s ->
  unpriced s ->
  unpriced s'
  /\ forall m, is_Some (Bot.activePositions (Overlap.bot s) !! m) ->
               is_Some (Bot.activePositions (Overlap.bot s') !! m).
Proof.
  intros Hselling Hbook Hbuying. unfold unpriced.
  rewrite Hselling, Hbook, Hbuying. auto.
Qed.

Lemma step_unpriced (cfg : Bot.Config Q) (s : Overlap.State Q) (ev : Overlap.Step Q) :
  price_reads_from_getPoolInfo [ev] ->
  unpriced s ->
  unpriced (Overlap.step cfg s ev)
  /\ forall m, is_Some (Bot.activePositions (Overlap.bot s) !! m) ->
               is_Some (Bot.activePositions (Overlap.bot (Overlap.step cfg s ev)) !! m).
Proof.
  intros Hev Hs. pose proof Hs as (Hselling & Hbook & Hbuying).
  apply Forall_cons in Hev as [Hev _].
  destruct ev as [key|i a|i|m' a|j|file].
  - cbn [Overlap.step]. destruct (negb _); now apply unpriced_same.
  - destruct (Overlap.started s !! i) as [key|] eqn:Hkey.
    + destruct (gates_step cfg s i key a Hkey)
        as (Hbot & Hsell & [(_ & pos & Hnew & Hrec)|(_ & Hnew)]).
      * split; [|now rewrite Hbot]. unfold unpriced. rewrite Hbot, Hsell, Hnew.
        split; [exact Hselling|]. split; [exact Hbook|].
        intros p Hp. apply elem_of_app in Hp as [Hp|Hp]; [now apply Hbuying|].
        apply list_elem_of_singleton in Hp as ->.
        destruct Hrec as (p & _ & _ & _ & _ & _ & Hprice & Hvalue & _).
        rewrite Hprice, Hvalue. split; now apply fetched_price_is_zero.
      * apply unpriced_same; [exact Hsell|now rewrite Hbot|exact Hnew|exact Hs].
    + cbn [Overlap.step]. rewrite Hkey. now apply unpriced_same.
  - destruct (Overlap.buying s !! i) as [pos|] eqn:Hi.
    + rewrite (store_step cfg s i pos Hi).
      assert (Hpos : entryPrice pos = 0%Q /\ buyValue pos = 0%Q).
      { apply Hbuying. eapply list_elem_of_lookup_2. exact Hi. }
      split.
      * split; [exact Hselling|]. split.
        -- intros k p Hk.
           cbn [Overlap.bot Overlap.storePosition Bot.set_positions
                Bot.activePositions] in Hk.
           destruct (decide (mint pos = k)) as [<-|Hne].
           ++ rewrite lookup_insert_eq in Hk. now injection Hk as <-.
           ++ rewrite lookup_insert_ne in Hk by assumption. now apply (Hbook k).
        -- intros p Hp. cbn [Overlap.buying] in Hp.
           apply Hbuying. now apply list_elem_of_delete_inv in Hp.
      * intros m Hm.
        cbn [Overlap.bot Overlap.storePosition Bot.set_positions Bot.activePositions].
        destruct (decide (mint pos = m)) as [<-|Hne].
        -- rewrite lookup_insert_eq. eauto.
        -- now rewrite lookup_insert_ne.
    + cbn [Overlap.step]. rewrite Hi. now apply unpriced_same.
  - destruct (visit_step_cases cfg s m' a) as [->|(pos & sig & Hm' & Hout & _)];
      [now apply unpriced_same|].
    exfalso. apply (visit_keeps_unsellable cfg a _ m' pos) in Hout; [exact Hout|].
    destruct (Hbook m' pos Hm') as [_ ->]. reflexivity.
  - cbn [Overlap.step]. rewrite Hselling. cbn. now apply unpriced_same.
  - cbn [Overlap.step]. apply unpriced_same; try reflexivity; [|exact Hs].
    cbn [Overlap.bot]. now destruct file.
Qed.

Lemma run_unpriced (cfg : Bot.Config Q) (evs : list (Overlap.Step Q))
    (s : Overlap.State Q) :
  price_reads_from_getPoolInfo evs ->
  unpriced s ->
  unpriced (Overlap.run cfg s evs)
  /\ forall m, is_Some (Bot.activePositions (Overlap.bot s) !! m) ->
               is_Some (Bot.activePositions (Overlap.bot (Overlap.run cfg s evs)) !! m).
Proof.
  revert s. induction evs as [|ev evs IH]; intros s Hall Hs; [auto|].
  apply Forall_cons in Hall as [Hev Hall].
  destruct (step_unpriced cfg s ev) as [Hs' Hkept];
    [constructor; [exact Hev|constructor] | exact Hs |].
  destruct (IH (Overlap.step cfg s ev) Hall Hs') as [Hfinal Hkept'].
  split; [exact Hfinal|]. intros m Hm. now apply Hkept', Hkept.
Qed.

(** X21: when the price read after every buy goes through getPoolInfo, as
    getCurrentPrice's does, then under every schedule of overlapping runs,
    monitoring iterations and list reloads from the initial state, each
    position in the book has entry price and buy value 0, no deletion is
    ever scheduled, and a token that has an entry keeps having one:
    nothing the bot buys is ever sold. *)
Theorem X21_fetched_price_means_nothing_is_sold (cfg : Bot.Config Q)
    (evs later : list (Overlap.Step Q)) (m : string) :
  price_reads_from_getPoolInfo (evs ++ later) ->
  let s := Overlap.run cfg Overlap.initial evs in
  let s' := Overlap.run cfg Overlap.initial (evs ++ later) in
  (forall pos,
     Bot.activePositions (Overlap.bot s') !! m = Some pos ->
     entryPrice pos = 0%Q /\ buyValue pos = 0%Q)
  /\ Overlap.selling s' = []
  /\ (is_Some (Bot.activePositions (Overlap.bot s) !! m) ->
      is_Some (Bot.activePositions (Overlap.bot s') !! m)).
Proof.
  intros Hall. cbv zeta. apply Forall_app in Hall as [Hevs Hlater].
  assert (Hstart : unpriced (Overlap.initial (num := Q))).
  { split; [reflexivity|]. split.
    - intros k pos Hk. cbn in Hk. now rewrite lookup_empty in Hk.
    - intros pos Hpos. cbn in Hpos. now apply elem_of_nil in Hpos. }
  destruct (run_unpriced cfg evs _ Hevs Hstart) as [Hmid _].
  destruct (run_unpriced cfg later _ Hlater Hmid) as [(Hselling & Hbook & _) Hkept].
  unfold Overlap.run in *. rewrite foldl_app.
  split; [exact (Hbook m)|]. split; [exact Hselling|exact (Hkept m)].
Qed.

(** A buy whose price read fails, then a visit whose sell would settle and
    a deletion attempt: the entry is still there, with entry price 0. *)
Lemma X21_fetched_price_means_nothing_is_sold_witness :
  is_Some
    (Bot.activePositions
       (Overlap.bot (Overlap.run sampleConfig Overlap.initial settledBuyRun))
       !! "MINT"%string)
  /\ is_Some
       (Bot.activePositions
          (Overlap.bot
             (Overlap.run sampleConfig Overlap.initial (settledBuyRun ++ visitToSell)))
          !! "MINT"%string)
  /\ forall pos,
       Bot.activePositions
         (Overlap.bot
            (Overlap.run sampleConfig Overlap.initial (settledBuyRun ++ visitToSell)))
         !! "MINT"%string = Some pos ->
       entryPrice pos = 0%Q /\ buyValue pos = 0%Q.
Proof.
  assert (Hall : price_reads_from_getPoolInfo (settledBuyRun ++ visitToSell)).
  { repeat constructor. exists sampleKey, 0, "POOL"%string, (Ret None). reflexivity. }
  assert (Hbought : is_Some
            (Bot.activePositions
               (Overlap.bot (Overlap.run sampleConfig Overlap.initial settledBuyRun))
               !! "MINT"%string)).
  { vm_compute. eauto. }
  destruct (X21_fetched_price_means_nothing_is_sold sampleConfig settledBuyRun
              visitToSell "MINT" Hall) as (Hzero & _ & Hkept).
  split; [exact Hbought|]. split; [exact (Hkept Hbought)|exact Hzero].
Defined.

(** ** Swap instruction data *)

Section InstructionData.

Lemma le_bytes_sum (v : Z) :
  0 <= v < 2 ^ 64 ->
  foldr (fun i acc => acc + PumpSwapExecution.le_byte v i * 2 ^ (8 * Z.of_nat i)) 0
        (seq 0 8) = v.
Proof.
  intros Hv. unfold PumpSwapExecution.le_byte. cbn [foldr seq].
  change (8 * Z.of_nat 0) with 0. change (8 * Z.of_nat 1) with 8.
  change (8 * Z.of_nat 2) with 16. change (8 * Z.of_nat 3) with 24.
  change (8 * Z.of_nat 4) with 32. change (8 * Z.of_nat 5) with 40.
  change (8 * Z.of_nat 6) with 48. change (8 * Z.of_nat 7) with 56.
  change (2 ^ 0) with 1. change (2 ^ 8) with 256. change (2 ^ 16) with 65536.
  change (2 ^ 24) with 16777216. change (2 ^ 32) with 4294967296.
  change (2 ^ 40) with 1099511627776. change (2 ^ 48) with 281474976710656.
  change (2 ^ 56) with 72057594037927936.
  change (2 ^ 64) with 18446744073709551616 in Hv.
  assert (Hdd : forall c, 0 < c -> v / (c * 256) = v / c / 256).
  { intros c Hc. rewrite Z.div_div; lia. }
  pose proof (Hdd 1 ltac:(lia)) as D1. change (1 * 256) with 256 in D1.
  pose proof (Hdd 256 ltac:(lia)) as D2. change (256 * 256) with 65536 in D2.
  pose proof (Hdd 65536 ltac:(lia)) as D3. change (65536 * 256) with 16777216 in D3.
  pose proof (Hdd 16777216 ltac:(lia)) as D4.
  change (16777216 * 256) with 4294967296 in D4.
  pose proof (Hdd 4294967296 ltac:(lia)) as D5.
  change (4294967296 * 256) with 1099511627776 in D5.
  pose proof (Hdd 1099511627776 ltac:(lia)) as D6.
  change (1099511627776 * 256) with 281474976710656 in D6.
  pose proof (Hdd 281474976710656 ltac:(lia)) as D7.
  change (281474976710656 * 256) with 72057594037927936 in D7.
  pose proof (Hdd 72057594037927936 ltac:(lia)) as D8.
  change (72057594037927936 * 256) with 18446744073709551616 in D8.
  assert (Htop : v / 18446744073709551616 = 0) by (apply Z.div_small; lia).
  pose proof (Z.div_mod (v / 1) 256 ltac:(lia)) as M0.
  pose proof (Z.div_mod (v / 256) 256 ltac:(lia)) as M1.
  pose proof (Z.div_mod (v / 65536) 256 ltac:(lia)) as M2.
  pose proof (Z.div_mod (v / 16777216) 256 ltac:(lia)) as M3.
  pose proof (Z.div_mod (v / 4294967296) 256 ltac:(lia)) as M4.
  pose proof (Z.div_mod (v / 1099511627776) 256 ltac:(lia)) as M5.
  pose proof (Z.div_mod (v / 281474976710656) 256 ltac:(lia)) as M6.
  pose proof (Z.div_mod (v / 72057594037927936) 256 ltac:(lia)) as M7.
  pose proof (Z.div_1_r v) as V1.
  lia.
Qed.

End InstructionData.

Section SwapEncoding.
Variables amountIn minAmountOut : Z.
Variable isBuy : bool.

Lemma instruction_data_layout :
  0 <= amountIn < 2 ^ 64 -> 0 <= minAmountOut < 2 ^ 64 ->
  PumpSwapExecution.swapInstructionData amountIn minAmountOut isBuy
  = Ret ([if isBuy then 1 else 2]
         ++ map (PumpSwapExecution.le_byte amountIn) (seq 0 8)
         ++ map (PumpSwapExecution.le_byte minAmountOut) (seq 0 8)
         ++ repeat 0 7).
Proof.
  intros Ha Hm. unfold PumpSwapExecution.swapInstructionData,
    PumpSwapExecution.writeUInt8, PumpSwapExecution.writeBigUInt64LE.
  assert (Hdisc : ((if isBuy then 1 else 2) <? 0) || (255 <? (if isBuy then 1 else 2))
                  = false) by (destruct isBuy; reflexivity).
  rewrite Hdisc.
  assert (Hra : (amountIn <? 0) || (2 ^ 64 <=? amountIn) = false).
  { apply orb_false_iff. split; [apply Z.ltb_ge | apply Z.leb_gt]; lia. }
  assert (Hrm : (minAmountOut <? 0) || (2 ^ 64 <=? minAmountOut) = false).
  { apply orb_false_iff. split; [apply Z.ltb_ge | apply Z.leb_gt]; lia. }
  rewrite Hra, Hrm. reflexivity.
Qed.

Lemma instruction_data_out_of_range :
  ~ (0 <= amountIn < 2 ^ 64) \/ ~ (0 <= minAmountOut < 2 ^ 64) ->
  exists e,
    PumpSwapExecution.swapInstructionData amountIn minAmountOut isBuy = Throw e.
Proof.
  intros Hout. unfold PumpSwapExecution.swapInstructionData,
    PumpSwapExecution.writeUInt8, PumpSwapExecution.writeBigUInt64LE.
  assert (Hdisc : ((if isBuy then 1 else 2) <? 0) || (255 <? (if isBuy then 1 else 2))
                  = false) by (destruct isBuy; reflexivity).
  rewrite Hdisc.
  replace (length (PumpSwapExecution.alloc 24) <? 0 + 1)%nat with false by reflexivity.
  cbn [bind].
  destruct ((amountIn <? 0) || (2 ^ 64 <=? amountIn)) eqn:Hra; [cbn; eauto|].
  apply orb_false_iff in Hra as [Ha1 Ha2].
  apply Z.ltb_ge in Ha1. apply Z.leb_gt in Ha2.
  destruct Hout as [Hout|Hout]; [exfalso; apply Hout; lia|].
  match goal with
  | |- context [if ?c then Throw _ else _] => replace c with false by reflexivity
  end.
  cbn [bind].
  destruct ((minAmountOut <? 0) || (2 ^ 64 <=? minAmountOut)) eqn:Hrm; [cbn; eauto|].
  apply orb_false_iff in Hrm as [Hm1 Hm2].
  apply Z.ltb_ge in Hm1. apply Z.leb_gt in Hm2. exfalso. apply Hout. lia.
Qed.

(** X22: for amounts in the unsigned 64-bit range the instruction data is
    24 bytes: byte 0 is 1 for a buy and 2 for a sell, bytes 1..8 and 9..16
    decode (little-endian) to amountIn and minAmountOut, the last 7 bytes
    are 0 and every byte is below 256.  For an amount outside that range no
    data is produced: the write throws. *)
Theorem X22_instruction_data_round_trip :
  (0 <= amountIn < 2 ^ 64 -> 0 <= minAmountOut < 2 ^ 64 ->
   exists data,
     PumpSwapExecution.swapInstructionData amountIn minAmountOut isBuy = Ret data
     /\ length data = 24%nat
     /\ data !! 0%nat = Some (if isBuy then 1 else 2)
     /\ read_u64_le 1 data = amountIn
     /\ read_u64_le 9 data = minAmountOut
     /\ drop 17 data = repeat 0 7
     /\ Forall (fun byte => 0 <= byte < 256) data)
  /\ (~ (0 <= amountIn < 2 ^ 64) \/ ~ (0 <= minAmountOut < 2 ^ 64) ->
      exists e,
        PumpSwapExecution.swapInstructionData amountIn minAmountOut isBuy = Throw e).
Proof.
  split.
  - intros Ha Hm. eexists. split; [now apply instruction_data_layout|].
    split; [reflexivity|]. split; [reflexivity|].
    split; [etransitivity; [|apply (le_bytes_sum amountIn Ha)]; reflexivity|].
    split; [etransitivity; [|apply (le_bytes_sum minAmountOut Hm)]; reflexivity|].
    split; [reflexivity|].
    assert (Hbyte : forall v i, 0 <= PumpSwapExecution.le_byte v i < 256).
    { intros v i. unfold PumpSwapExecution.le_byte. apply Z.mod_pos_bound. lia. }
    cbn [app map seq repeat].
    repeat (constructor; [first [apply Hbyte | destruct isBuy; lia | lia]|]).
    constructor.
  - apply instruction_data_out_of_range.
Qed.

(** X23: buy and sell return a signature only when the amounts are in the
    unsigned 64-bit range, the transaction was sent and its confirmation
    carried no error; the signature is the one returned by the send, and
    the data sent is the encoding of the amounts.  With an amount outside
    that range they return null and nothing reaches the network. *)
Theorem X23_swap_execution_outcomes (w : PumpSwapExecution.SwapAnswers) :
  let result := PumpSwapExecution.executeSwap isBuy w amountIn minAmountOut in
  (forall signature,
     fst result = Some signature ->
     (0 <= amountIn < 2 ^ 64 /\ 0 <= minAmountOut < 2 ^ 64)
     /\ PumpSwapExecution.ans_sendRawTransaction w = Ret signature
     /\ PumpSwapExecution.ans_confirmation w = Ret None
     /\ exists data,
          PumpSwapExecution.swapInstructionData amountIn minAmountOut isBuy = Ret data
          /\ snd result
             = [PumpSwapExecution.NetGetLatestBlockhash;
                PumpSwapExecution.NetSendRawTransaction isBuy data;
                PumpSwapExecution.NetConfirmTransaction signature])
  /\ (~ (0 <= amountIn < 2 ^ 64) \/ ~ (0 <= minAmountOut < 2 ^ 64) ->
      result = (None, [])).
Proof.
  cbv zeta. pose proof instruction_data_out_of_range as Hout. split.
  - intros signature. unfold PumpSwapExecution.executeSwap.
    destruct (PumpSwapExecution.ans_tokenAccounts w); [|discriminate].
    destruct (PumpSwapExecution.swapInstructionData amountIn minAmountOut isBuy)
      as [data|e] eqn:Hdata; [|discriminate].
    destruct (PumpSwapExecution.ans_latestBlockhash w); [|discriminate].
    destruct (PumpSwapExecution.ans_signedTransaction w); [|discriminate].
    destruct (PumpSwapExecution.ans_sendRawTransaction w) as [sig|]; [|discriminate].
    destruct (PumpSwapExecution.ans_confirmation w) as [[err|]|]; try discriminate.
    cbn. intros Hsig. injection Hsig as <-.
    split.
    + destruct (Z_le_dec 0 amountIn), (Z_lt_dec amountIn (2 ^ 64)),
        (Z_le_dec 0 minAmountOut), (Z_lt_dec minAmountOut (2 ^ 64));
        try (split; lia);
        (destruct Hout as [e He]; [(left; lia) || (right; lia)|congruence]).
    + split; [reflexivity|]. split; [reflexivity|]. eauto.
  - intros Hrange. destruct (Hout Hrange) as [e He].
    unfold PumpSwapExecution.executeSwap.
    destruct (PumpSwapExecution.ans_tokenAccounts w); [|reflexivity].
    now rewrite He.
Qed.

End SwapEncoding.

(** ** The allow-list file *)

Section SnipeListText.

Lemma trimStart_idem (s : list Z) :
  SnipeList.trimStart (SnipeList.trimStart s) = SnipeList.trimStart s.
Proof.
  induction s as [|c s IH]; [reflexivity|]. cbn.
  destruct (SnipeList.is_whitespace c) eqn:Hc; [exact IH|]. cbn. now rewrite Hc.
Qed.

Lemma trimStart_snoc (s : list Z) (c : Z) :
  SnipeList.is_whitespace c = false ->
  SnipeList.trimStart (s ++ [c]) = SnipeList.trimStart s ++ [c].
Proof.
  intros Hc. induction s as [|d s IH]; cbn; [now rewrite Hc|].
  destruct (SnipeList.is_whitespace d); [exact IH | reflexivity].
Qed.

Lemma trimStart_head (s : list Z) :
  SnipeList.trimStart s = []
  \/ exists c rest, SnipeList.trimStart s = c :: rest
                    /\ SnipeList.is_whitespace c = false.
Proof.
  induction s as [|c s IH]; [now left|]. cbn.
  destruct (SnipeList.is_whitespace c) eqn:Hc; [exact IH|]. right. eauto.
Qed.

Lemma trimStart_suffix (s : list Z) : exists dropped, s = dropped ++ SnipeList.trimStart s.
Proof.
  induction s as [|c s [dropped IH]]; [now exists []|]. cbn.
  destruct (SnipeList.is_whitespace c).
  - exists (c :: dropped). cbn. now f_equal.
  - now exists [].
Qed.

Lemma trim_elements (s : list Z) (c : Z) : c ∈ SnipeList.trim s -> c ∈ s.
Proof.
  unfold SnipeList.trim, SnipeList.trimEnd. rewrite !list_elem_of_In. intros Hc.
  apply in_rev in Hc.
  destruct (trimStart_suffix (rev (SnipeList.trimStart s))) as [d1 H1].
  assert (Hc1 : In c (rev (SnipeList.trimStart s))).
  { rewrite H1. apply in_or_app. now right. }
  apply in_rev in Hc1.
  destruct (trimStart_suffix s) as [d2 H2]. rewrite H2.
  apply in_or_app. now right.
Qed.

Lemma trim_shape (s : list Z) :
  SnipeList.trim s = []
  \/ (exists first rest, SnipeList.trim s = first :: rest
                         /\ SnipeList.is_whitespace first = false)
     /\ (exists front final, SnipeList.trim s = front ++ [final]
                             /\ SnipeList.is_whitespace final = false).
Proof.
  unfold SnipeList.trim, SnipeList.trimEnd.
  destruct (trimStart_head s) as [->|(c & rest & -> & Hc)]; [now left|].
  right. cbn [rev]. rewrite trimStart_snoc by assumption.
  rewrite rev_app_distr. cbn [rev app]. split; [eauto|].
  destruct (trimStart_head (rev rest)) as [Hnil|(d & rest' & Hd & Hdw)].
  - rewrite Hnil. cbn. exists [], c. auto.
  - rewrite Hd. cbn [rev]. exists (c :: rev rest'), d. split; [|exact Hdw].
    reflexivity.
Qed.

Lemma trim_clean (s : list Z) :
  clean_entry s -> SnipeList.trim s = s.
Proof.
  intros ((first & rest & Hs & Hfirst) & (front & final & Hs' & Hfinal) & _).
  unfold SnipeList.trim, SnipeList.trimEnd.
  assert (Hstart : SnipeList.trimStart s = s).
  { rewrite Hs. cbn. now rewrite Hfirst. }
  rewrite Hstart. rewrite Hs' at 1. rewrite rev_app_distr.
  cbn [rev app SnipeList.trimStart].
  rewrite Hfinal. change (final :: rev front) with (rev [final] ++ rev front).
  rewrite <- rev_app_distr, rev_involutive. now symmetry.
Qed.

Lemma split_lines_no_break (s : list Z) : Forall (fun line => 10 ∉ line) (SnipeList.split_lines s).
Proof.
  induction s as [|c s IH]; cbn.
  - constructor; [apply not_elem_of_nil | constructor].
  - destruct (Z.eqb_spec c 10) as [->|Hc].
    + constructor; [apply not_elem_of_nil | exact IH].
    + destruct (SnipeList.split_lines s) as [|line lines].
      * constructor; [|constructor]. intros Hin.
        apply list_elem_of_singleton in Hin. congruence.
      * apply Forall_cons in IH as [Hline Hlines]. constructor; [|exact Hlines].
        intros Hin. apply elem_of_cons in Hin as [?|?]; [congruence|contradiction].
Qed.

Lemma split_lines_nonempty (s : list Z) : SnipeList.split_lines s <> [].
Proof.
  destruct s as [|c s]; cbn; [discriminate|].
  destruct (c =? 10); [discriminate|].
  destruct (SnipeList.split_lines s); discriminate.
Qed.

Lemma split_lines_line (line : list Z) :
  10 ∉ line -> SnipeList.split_lines line = [line].
Proof.
  induction line as [|c line IH]; intros Hno; [reflexivity|]. cbn.
  apply not_elem_of_cons in Hno as [Hc Hno].
  destruct (Z.eqb_spec c 10) as [?|_]; [congruence|].
  now rewrite IH.
Qed.

Lemma split_lines_break (line rest : list Z) :
  10 ∉ line ->
  SnipeList.split_lines (line ++ 10 :: rest) = line :: SnipeList.split_lines rest.
Proof.
  induction line as [|c line IH]; intros Hno; [reflexivity|]. cbn.
  apply not_elem_of_cons in Hno as [Hc Hno].
  destruct (Z.eqb_spec c 10) as [?|_]; [congruence|].
  now rewrite IH.
Qed.

Lemma split_join (lines : list (list Z)) :
  lines <> [] -> Forall (fun line => 10 ∉ line) lines ->
  SnipeList.split_lines (join_lines lines) = lines.
Proof.
  induction lines as [|line lines IH]; intros Hne Hall; [congruence|].
  apply Forall_cons in Hall as [Hline Hall].
  destruct lines as [|next lines]; [now apply split_lines_line|].
  change (join_lines (line :: next :: lines))
    with (line ++ 10 :: join_lines (next :: lines)).
  rewrite split_lines_break by assumption. f_equal. apply IH; [discriminate|exact Hall].
Qed.

Lemma parsed_entries_clean (data : list Z) :
  Forall clean_entry (SnipeList.parseSnipeList data).
Proof.
  unfold SnipeList.parseSnipeList. apply Forall_forall. intros entry Hin.
  apply list_elem_of_In, filter_In in Hin as [Hin Htruthy].
  apply in_map_iff in Hin as (line & <- & Hline).
  destruct (trim_shape line) as [Hnil|[Hfirst Hfinal]].
  { rewrite Hnil in Htruthy. discriminate. }
  split; [exact Hfirst|]. split; [exact Hfinal|].
  intros Hbreak. apply trim_elements in Hbreak.
  pose proof (split_lines_no_break data) as Hall.
  rewrite Forall_forall in Hall. apply (Hall line); [|exact Hbreak].
  now apply list_elem_of_In.
Qed.

(** X24: every entry of the loaded allow-list is non-empty, has no white
    space at either end and contains no line break; a string is in the
    list exactly when it is non-empty and some line of the file trims to
    it (so blank lines, indentation and carriage returns are ignored). *)
Theorem X24_snipe_list_entries (data : list Z) :
  Forall clean_entry (SnipeList.parseSnipeList data)
  /\ forall m,
       m ∈ SnipeList.parseSnipeList data
       <-> m <> [] /\ exists line, line ∈ SnipeList.split_lines data
                                    /\ SnipeList.trim line = m.
Proof.
  split; [apply parsed_entries_clean|].
  intros m. unfold SnipeList.parseSnipeList.
  rewrite list_elem_of_In, filter_In, in_map_iff. split.
  - intros [(line & Htrim & Hline) Htruthy]. split.
    + intros ->. discriminate.
    + exists line. split; [now apply list_elem_of_In | exact Htrim].
  - intros [Hne (line & Hline & Htrim)]. split.
    + exists line. split; [exact Htrim | now apply list_elem_of_In].
    + destruct m; [congruence | reflexivity].
Qed.

Lemma clean_entries_kept (entries : list (list Z)) :
  Forall clean_entry entries ->
  List.filter SnipeList.truthy_string (map SnipeList.trim entries) = entries.
Proof.
  induction 1 as [|entry entries Hentry Hentries IH]; [reflexivity|].
  cbn. rewrite trim_clean by assumption.
  destruct Hentry as ((first & rest & -> & _) & _). cbn. now f_equal.
Qed.

(** X25: writing the loaded list back one entry per line and loading that
    text gives the same list: loading normalises the file. *)
Theorem X25_snipe_list_reload_is_stable (data : list Z) :
  SnipeList.parseSnipeList (join_lines (SnipeList.parseSnipeList data))
  = SnipeList.parseSnipeList data.
Proof.
  pose proof (parsed_entries_clean data) as Hclean.
  destruct (SnipeList.parseSnipeList data) as [|entry entries]; [reflexivity|].
  unfold SnipeList.parseSnipeList. rewrite split_join.
  - now apply clean_entries_kept.
  - discriminate.
  - eapply Forall_impl; [exact Hclean|]. intros x Hx. apply Hx.
Qed.

(** X26: the number of tokens the setup check reports for a file equals
    the length of the list the bot loads from it, and the check's "empty"
    warning is raised exactly when the bot's list is empty. *)
Theorem X26_setup_check_counts_loaded_entries (content : list Z) :
  length (SnipeList.checkSnipeList_tokens content)
  = length (SnipeList.parseSnipeList content)
  /\ (SnipeList.checkSnipeList_tokens content = []
      <-> SnipeList.parseSnipeList content = []).
Proof.
  unfold SnipeList.checkSnipeList_tokens, SnipeList.parseSnipeList.
  assert (Hlen : forall lines : list (list Z),
    length (List.filter (fun line => SnipeList.truthy_string (SnipeList.trim line)) lines)
    = length (List.filter SnipeList.truthy_string (map SnipeList.trim lines))).
  { induction lines as [|line lines IH]; [reflexivity|]. cbn.
    destruct (SnipeList.truthy_string (SnipeList.trim line)); cbn; now rewrite IH. }
  split; [apply Hlen|].
  specialize (Hlen (SnipeList.split_lines content)).
  split; intros Hnil.
  - rewrite Hnil in Hlen. cbn in Hlen.
    destruct (List.filter _ _); [reflexivity | discriminate].
  - rewrite Hnil in Hlen. cbn in Hlen.
    destruct (List.filter _ _); [reflexivity | discriminate].
Qed.

End SnipeListText.

(** ** The setup verification script *)

Section SetupScript.

Lemma counts_of_results (results : list SetupCheck.CheckResult) (p f w : nat) :
  foldl
    (fun counts result =>
       let '(passCount, failCount, warnCount) := counts in
       match SetupCheck.status result with
       | SetupCheck.pass => (S passCount, failCount, warnCount)
       | SetupCheck.fail => (passCount, S failCount, warnCount)
       | SetupCheck.warn => (passCount, failCount, S warnCount)
       end)
    (p, f, w) results
  = (p + count_status SetupCheck.pass results,
     f + count_status SetupCheck.fail results,
     w + count_status SetupCheck.warn results)%nat.
Proof.
  revert p f w. induction results as [|r results IH]; intros p f w.
  - cbn. now rewrite !Nat.add_0_r.
  - cbn [foldl]. unfold count_status in *. cbn [List.filter].
    destruct (SetupCheck.status r);
      (rewrite IH; cbn [length];
       apply pair_equal_spec; split; [apply pair_equal_spec; split|]; lia).
Qed.

Lemma summary_counts (results : list SetupCheck.CheckResult) :
  SetupCheck.passCount (SetupCheck.printResults results)
  = count_status SetupCheck.pass results
  /\ SetupCheck.failCount (SetupCheck.printResults results)
     = count_status SetupCheck.fail results
  /\ SetupCheck.warnCount (SetupCheck.printResults results)
     = count_status SetupCheck.warn results.
Proof.
  unfold SetupCheck.printResults. rewrite counts_of_results. cbn [Nat.add].
  destruct (0 <? _)%nat; [cbn; auto|]. destruct (0 <? _)%nat; cbn; auto.
Qed.

Lemma count_status_total (results : list SetupCheck.CheckResult) :
  (count_status SetupCheck.pass results + count_status SetupCheck.fail results
   + count_status SetupCheck.warn results = length results)%nat.
Proof.
  unfold count_status. induction results as [|r results IH]; [reflexivity|].
  cbn. destruct (SetupCheck.status r); cbn; lia.
Qed.

Lemma count_status_pos (st : SetupCheck.Status) (results : list SetupCheck.CheckResult) :
  (0 < count_status st results)%nat
  <-> exists r, r ∈ results /\ SetupCheck.status r = st.
Proof.
  unfold count_status. induction results as [|r results IH]; cbn.
  - split; [lia|]. intros (r & Hr & _). now apply not_elem_of_nil in Hr.
  - destruct (SetupCheck.status r) eqn:Hr, st; cbn;
      try (split; [intros _; exists r; split; [apply list_elem_of_here | assumption]
                  | lia]);
      (rewrite IH; split;
       [ intros (x & Hx & Hs); exists x; split; [now apply list_elem_of_further|exact Hs]
       | intros (x & Hx & Hs); apply elem_of_cons in Hx as [->|Hx];
         [congruence | exists x; auto] ]).
Qed.

Lemma exit_on_failure (results : list SetupCheck.CheckResult) :
  SetupCheck.exitCode (SetupCheck.printResults results) = Some 1
  <-> exists r, r ∈ results /\ SetupCheck.status r = SetupCheck.fail.
Proof.
  rewrite <- count_status_pos.
  unfold SetupCheck.printResults. rewrite counts_of_results. cbn [Nat.add].
  destruct (Nat.ltb_spec 0 (count_status SetupCheck.fail results)) as [Hpos|Hzero].
  - cbn. split; auto.
  - destruct (0 <? _)%nat; cbn; (split; [discriminate|lia]).
Qed.

Lemma verdict_complete (results : list SetupCheck.CheckResult) :
  SetupCheck.verdict (SetupCheck.printResults results) = SetupCheck.SetupComplete
  <-> forall r, r ∈ results -> SetupCheck.status r = SetupCheck.pass.
Proof.
  pose proof (count_status_pos SetupCheck.fail results) as Hfail.
  pose proof (count_status_pos SetupCheck.warn results) as Hwarn.
  unfold SetupCheck.printResults. rewrite counts_of_results. cbn [Nat.add].
  destruct (Nat.ltb_spec 0 (count_status SetupCheck.fail results)) as [Hfpos|Hfzero].
  { cbn. apply Hfail in Hfpos as (r & Hr & Hs).
    split; [discriminate|]. intros Hall. rewrite (Hall r Hr) in Hs. discriminate. }
  destruct (Nat.ltb_spec 0 (count_status SetupCheck.warn results)) as [Hwpos|Hwzero].
  { cbn. apply Hwarn in Hwpos as (r & Hr & Hs).
    split; [discriminate|]. intros Hall. rewrite (Hall r Hr) in Hs. discriminate. }
  cbn. split; [intros _|reflexivity]. intros r Hr.
  destruct (SetupCheck.status r) eqn:Hs; [reflexivity| |].
  - assert (0 < count_status SetupCheck.fail results)%nat; [|lia]. apply Hfail. eauto.
  - assert (0 < count_status SetupCheck.warn results)%nat; [|lia]. apply Hwarn. eauto.
Qed.

Lemma exit_code_cases (results : list SetupCheck.CheckResult) :
  SetupCheck.exitCode (SetupCheck.printResults results) = Some 1
  \/ SetupCheck.exitCode (SetupCheck.printResults results) = None.
Proof.
  unfold SetupCheck.printResults. destruct (foldl _ _ _) as [[p f] w].
  destruct (0 <? f)%nat; [now left|]. destruct (0 <? w)%nat; now right.
Qed.

(** X27: printResults counts every result once; it exits with code 1
    exactly when some check failed, makes no exit call exactly when no
    check failed, and reports a complete setup exactly when every check
    passed.  Warnings alone never stop the user. *)
Theorem X27_setup_summary (results : list SetupCheck.CheckResult) :
  let summary := SetupCheck.printResults results in
  (SetupCheck.passCount summary + SetupCheck.failCount summary
   + SetupCheck.warnCount summary = length results)%nat
  /\ (SetupCheck.exitCode summary = Some 1
      <-> exists r, r ∈ results /\ SetupCheck.status r = SetupCheck.fail)
  /\ (SetupCheck.exitCode summary = None
      <-> forall r, r ∈ results -> SetupCheck.status r <> SetupCheck.fail)
  /\ (SetupCheck.verdict summary = SetupCheck.SetupComplete
      <-> forall r, r ∈ results -> SetupCheck.status r = SetupCheck.pass).
Proof.
  cbv zeta. destruct (summary_counts results) as (Hp & Hf & Hw).
  split; [rewrite Hp, Hf, Hw; apply count_status_total|].
  split; [apply exit_on_failure|]. split; [|apply verdict_complete].
  pose proof (exit_on_failure results) as Hexit.
  destruct (exit_code_cases results) as [Hone|Hnone].
  - rewrite Hone. split; [discriminate|]. intros Hall.
    apply Hexit in Hone as (r & Hr & Hs). exfalso. now apply (Hall r).
  - split; [|auto]. intros _ r Hr Hs.
    assert (Hone : SetupCheck.exitCode (SetupCheck.printResults results) = Some 1)
      by (apply Hexit; eauto).
    congruence.
Qed.

Lemma required_result (env : gmap string string) (varName : string) :
  let misconfigured :=
    match env !! varName with
    | None => true
    | Some value => String.eqb value "" || SetupCheck.includes "XXXX" value
    end in
  misconfigured = false <-> configured env varName.
Proof.
  cbv zeta. unfold configured. destruct (env !! varName) as [value|].
  - split.
    + intros Hok. apply orb_false_iff in Hok as [Hne Hx].
      exists value. split; [reflexivity|]. split; [|exact Hx].
      now apply String.eqb_neq.
    + intros (v & Hv & Hne & Hx). injection Hv as <-.
      apply orb_false_iff. split; [now apply String.eqb_neq | exact Hx].
  - split; [discriminate|]. intros (v & Hv & _). discriminate.
Qed.

(** X28: checkRequiredEnvVars reports exactly one result per required
    variable, in order; the result for a variable is a pass when the
    variable is set, not empty and free of the XXXX placeholder, and a
    failure otherwise, never a warning.  Hence, whatever the other checks
    report, the script exits with code 1 as soon as one required variable
    is not configured. *)
Theorem X28_required_variables_gate_the_setup (env : gmap string string) :
  map SetupCheck.name (SetupCheck.checkRequiredEnvVars env)
  = map (fun varName => ("Env: " ++ varName)%string) SetupCheck.required
  /\ Forall2
       (fun varName r =>
          (configured env varName -> SetupCheck.status r = SetupCheck.pass)
          /\ (~ configured env varName -> SetupCheck.status r = SetupCheck.fail))
       SetupCheck.required (SetupCheck.checkRequiredEnvVars env)
  /\ (forall earlier later,
        (exists varName, varName ∈ SetupCheck.required /\ ~ configured env varName) ->
        SetupCheck.exitCode
          (SetupCheck.printResults
             (earlier ++ SetupCheck.checkRequiredEnvVars env ++ later)) = Some 1).
Proof.
  assert (Hone : forall varName,
    let r := (fun varName =>
       if match env !! varName with
          | None => true
          | Some value => String.eqb value "" || SetupCheck.includes "XXXX" value
          end
       then {| SetupCheck.name := "Env: " ++ varName; SetupCheck.status := SetupCheck.fail;
               SetupCheck.message := varName ++ " is not configured properly" |}
       else {| SetupCheck.name := "Env: " ++ varName; SetupCheck.status := SetupCheck.pass;
               SetupCheck.message := "Configured" |}) varName in
    SetupCheck.name r = ("Env: " ++ varName)%string
    /\ (configured env varName -> SetupCheck.status r = SetupCheck.pass)
    /\ (~ configured env varName -> SetupCheck.status r = SetupCheck.fail)).
  { intros varName. cbv zeta beta.
    pose proof (required_result env varName) as Hcfg. cbv zeta in Hcfg.
    destruct (match env !! varName with None => true | Some _ => _ end); cbn.
    - split; [reflexivity|]. split; [|reflexivity].
      intros Hc. apply Hcfg in Hc. discriminate.
    - split; [reflexivity|]. split; [reflexivity|].
      intros Hc. exfalso. apply Hc. now apply Hcfg. }
  unfold SetupCheck.checkRequiredEnvVars.
  split; [|split].
  - rewrite map_map. apply map_ext. intros varName. apply (Hone varName).
  - induction SetupCheck.required as [|varName rest IH]; cbn [map]; constructor.
    + apply (Hone varName).
    + exact IH.
  - intros earlier later (varName & Hin & Hbad).
    apply exit_on_failure.
    eexists. split.
    + apply elem_of_app. right. apply elem_of_app. left.
      apply list_elem_of_fmap. exists varName. split; [reflexivity | exact Hin].
    + now apply (Hone varName).
Qed.

End SetupScript.

(** ** Concrete runs of the properties above *)

Lemma X22_instruction_data_round_trip_witness :
  exists data,
    PumpSwapExecution.swapInstructionData 10000000 0 true = Ret data
    /\ length data = 24%nat
    /\ data !! 0%nat = Some 1
    /\ read_u64_le 1 data = 10000000
    /\ read_u64_le 9 data = 0
    /\ drop 17 data = repeat 0 7
    /\ Forall (fun byte => 0 <= byte < 256) data.
Proof.
  destruct (X22_instruction_data_round_trip 10000000 0 true) as [Hin _].
  apply Hin; lia.
Defined.

Lemma X23_swap_execution_outcomes_witness :
  PumpSwapExecution.buy smoothSwap (2 ^ 64) 0 = (None, [])
  /\ PumpSwapExecution.ans_sendRawTransaction smoothSwap = Ret "SIG"%string.
Proof.
  split.
  - destruct (X23_swap_execution_outcomes (2 ^ 64) 0 true smoothSwap) as [_ Hout].
    apply Hout. left. lia.
  - destruct (X23_swap_execution_outcomes 10000000 0 false smoothSwap) as [Hsig _].
    destruct (Hsig "SIG"%string) as (_ & Hsent & _); [reflexivity | exact Hsent].
Defined.

(** The text "A", carriage return, line break, empty line, "  B  ", line
    break, as code units. *)
Lemma X24_snipe_list_entries_witness :
  SnipeList.parseSnipeList [65; 13; 10; 10; 32; 32; 66; 32; 32; 10] = [[65]; [66]]
  /\ [66] ∈ SnipeList.parseSnipeList [65; 13; 10; 10; 32; 32; 66; 32; 32; 10].
Proof.
  split; [reflexivity|].
  apply (X24_snipe_list_entries [65; 13; 10; 10; 32; 32; 66; 32; 32; 10]).
  split; [discriminate|]. exists [32; 32; 66; 32; 32]. split; [|reflexivity].
  cbn. do 2 apply list_elem_of_further. apply list_elem_of_here.
Defined.

Lemma X28_required_variables_gate_the_setup_witness :
  SetupCheck.exitCode
    (SetupCheck.printResults ([] ++ SetupCheck.checkRequiredEnvVars exampleEnv ++ []))
  = Some 1.
Proof.
  apply (X28_required_variables_gate_the_setup exampleEnv).
  exists "PRIVATE_KEY"%string. split; [apply list_elem_of_here|].
  intros (value & Hvalue & _ & Hplaceholder).
  vm_compute in Hvalue. injection Hvalue as <-. vm_compute in Hplaceholder.
  discriminate Hplaceholder.
Defined.

(** ** Position sizes are encodable *)

(** X29: for a quote reserve in the unsigned 64-bit range, the position
    size the manager computes (with any of the built-in policies active, or
    none) is in that range too, so the buy instruction for it can be
    encoded and decodes to the same size. *)
Theorem X29_position_size_is_encodable {num : Type} `{JSNumber num}
    (w : StrategyManager.World num) (ty : StrategyType) (p : PumpSwapPoolInfo)
    (size : Z) :
  0 <= quoteReserve p < 2 ^ 64 ->
  StrategyManager.calculatePositionSize (StrategyManager.new w ty) p = Ret size ->
  10000000 <= size < 2 ^ 64
  /\ exists data,
       PumpSwapExecution.swapInstructionData size 0 true = Ret data
       /\ read_u64_le 1 data = size.
Proof.
  intros Hq Hsize.
  assert (Hrange : 10000000 <= size < 2 ^ 64).
  { split; [now apply builtin_size_min in Hsize|].
    unfold StrategyManager.calculatePositionSize in Hsize.
    rewrite new_active_strategy in Hsize.
    change (2 ^ 64) with 18446744073709551616 in *.
    destruct ty; cbn in Hsize; injection Hsize as <-.
    - rewrite momentum_size_eq.
      assert (quoteReserve p ÷ 100 <= quoteReserve p).
      { rewrite Z.quot_div_nonneg by lia. apply Z.div_le_upper_bound; lia. }
      lia.
    - pose proof (volume_size_range p). lia.
    - pose proof (liquidity_size_range p). lia.
    - lia. }
  split; [exact Hrange|].
  assert (Hs : 0 <= size < 2 ^ 64) by lia.
  assert (Hz : 0 <= 0 < 2 ^ 64) by (change (2 ^ 64) with 18446744073709551616; lia).
  eexists. split; [apply (instruction_data_layout size 0 true Hs Hz)|].
  etransitivity; [|apply (le_bytes_sum size Hs)]. reflexivity.
Qed.

Lemma X29_position_size_is_encodable_witness :
  10000000 <= 500000000 < 2 ^ 64
  /\ exists data,
       PumpSwapExecution.swapInstructionData 500000000 0 true = Ret data
       /\ read_u64_le 1 data = 500000000.
Proof.
  apply (X29_position_size_is_encodable quietWorld LIQUIDITY samplePool 500000000).
  - cbn. lia.
  - reflexivity.
Defined.
